(** * The PyQt drawing backend of ezdxf: styling, caching and text placement

    A shallow embedding of [src/ezdxf/addons/drawing/pyqt.py].

    Conventions of the embedding.
    - Python [float] and [int] values that take part in arithmetic are exact
      rationals ([Q]); rounding of the binary floating point format is not
      modelled.  Integers that are only compared or clamped are [Z].
    - A [str] is a [string]: a sequence of characters (code points below 256).
    - A method of a mutable object is a function from the state of the object
      to an outcome and the new state.  A raised exception keeps the state
      as it is when the exception is raised.
    - Qt objects are records of the values handed to their constructors. *)

From Stdlib Require Import ZArith QArith Qround Qminmax String Ascii List Lia.
From stdpp Require Import gmap strings.

Open Scope Q_scope.

(** Modelled from the spec: [ezdxf.render.Command], the kind of a path
    segment: a line, a cubic curve, or any other kind, given by its code. *)
Inductive Command : Type :=
| LINE_TO
| CURVE_TO
| OTHER_COMMAND (code : Z).

Definition Command_eqb (a b : Command) : bool :=
  match a, b with
  | LINE_TO, LINE_TO => true
  | CURVE_TO, CURVE_TO => true
  | OTHER_COMMAND c, OTHER_COMMAND d => (c =? d)%Z
  | _, _ => false
  end.

(** ** The Python runtime *)

Module Py.

(** Exceptions raised by the backend. *)
Inductive exn : Type :=
| TypeError (arg : string)
| ValueError_unknown_path_command (type : Command)
| ZeroDivisionError
| AttributeError (attr : string)
| AssertionError (message : string).

Inductive outcome (A : Type) : Type :=
| Return (a : A)
| Raise (e : exn).
Arguments Return {A} a.
Arguments Raise {A} e.

(** [int(x)] on a float: truncation towards zero. *)
Definition int (x : Q) : Z := Z.quot (Qnum x) (Zpos (Qden x)).

(** [round(x)]: to the nearest integer, a tie goes to the even one. *)
Definition round (x : Q) : Z :=
  let f := Qfloor x in
  match Qcompare (x - inject_Z f) (1 # 2) with
  | Lt => f
  | Gt => (f + 1)%Z
  | Eq => if Z.even f then f else (f + 1)%Z
  end.

(** [max(a, b)]: the first argument unless the second is larger. *)
Definition max (a b : Q) : Q := Qmax a b.

(** [x or default] on a number: zero is false. *)
Definition or_ (x default : Q) : Q := if Qeq_bool x 0 then default else x.

(** [seq[:stop]]: a negative [stop] counts from the end. *)
Definition slice_to {A : Type} (seq : list A) (stop : Z) : list A :=
  let len := Z.of_nat (length seq) in
  let stop := if (stop <? 0)%Z then Z.max 0 (stop + len) else Z.min stop len in
  firstn (Z.to_nat stop) seq.

(** [str.isspace] on one character. *)
Definition isspace (c : ascii) : bool :=
  let n := nat_of_ascii c in
  ((9 <=? n) && (n <=? 13) || (28 <=? n) && (n <=? 32)
   || (n =? 133) || (n =? 160))%nat.

Fixpoint lstrip (s : string) : string :=
  match s with
  | EmptyString => EmptyString
  | String c s' => if isspace c then lstrip s' else s
  end.

Fixpoint rstrip (s : string) : string :=
  match s with
  | EmptyString => EmptyString
  | String c s' =>
      match rstrip s' with
      | EmptyString => if isspace c then EmptyString else String c EmptyString
      | r => String c r
      end
  end.

(** [s.strip()] *)
Definition strip (s : string) : string := rstrip (lstrip s).

(** Truth value of a [str]: the empty string is false. *)
Definition truthy (s : string) : bool :=
  match s with EmptyString => false | _ => true end.

Definition lower_char (c : ascii) : ascii :=
  let n := nat_of_ascii c in
  if ((65 <=? n) && (n <=? 90)
      || (192 <=? n) && (n <=? 222) && negb (n =? 215))%nat
  then ascii_of_nat (n + 32) else c.

(** [s.lower()] *)
Fixpoint lower (s : string) : string :=
  match s with
  | EmptyString => EmptyString
  | String c s' => String (lower_char c) (lower s')
  end.

(** [sub in s] *)
Fixpoint contains (sub s : string) : bool :=
  if String.prefix sub s then true
  else match s with
       | EmptyString => false
       | String _ s' => contains sub s'
       end.

(** *** [hash] of numbers

    The rule of the language reference for a rational [m / n] in lowest
    terms, with the modulus of a 64 bit build. *)
Definition hash_modulus : Z := (2 ^ 61 - 1)%Z.
Definition hash_inf : Z := 314159%Z.

Fixpoint pow_mod (b : Z) (e : positive) (m : Z) : Z :=
  match e with
  | xH => b mod m
  | xO e' => let r := pow_mod b e' m in (r * r) mod m
  | xI e' => let r := pow_mod b e' m in ((r * r) mod m * b) mod m
  end%Z.

Definition hash_fraction (m n : Z) : Z :=
  let P := hash_modulus in
  let hash_value :=
    (if n mod P =? 0 then hash_inf
     else ((Z.abs m mod P) * pow_mod n (Z.to_pos (P - 2)) P) mod P)%Z in
  let hash_value := (if m <? 0 then - hash_value else hash_value)%Z in
  (if hash_value =? -1 then -2 else hash_value)%Z.

Definition hash_number (x : Q) : Z :=
  let r := Qred x in hash_fraction (Qnum r) (Zpos (Qden r)).

(** *** [hash] of tuples, as CPython 3.8 and later compute it on a 64 bit
    build: a function of the hashes of the items. *)
Definition XXPRIME_1 : Z := 11400714785074694791%Z.
Definition XXPRIME_2 : Z := 14029467366897019727%Z.
Definition XXPRIME_5 : Z := 2870177450012600261%Z.

Definition uhash (z : Z) : Z := (z mod 2 ^ 64)%Z.
Definition shash (z : Z) : Z :=
  let u := uhash z in if (u <? 2 ^ 63)%Z then u else (u - 2 ^ 64)%Z.
Definition XXROTATE (x : Z) : Z :=
  uhash (Z.lor (Z.shiftl x 31) (Z.shiftr x 33)).

Definition tuplehash (lanes : list Z) : Z :=
  let acc :=
    fold_left
      (fun acc lane =>
         let acc := uhash (acc + uhash lane * XXPRIME_2)%Z in
         let acc := XXROTATE acc in
         uhash (acc * XXPRIME_1)%Z)
      lanes XXPRIME_5 in
  let acc :=
    uhash (acc + Z.lxor (Z.of_nat (length lanes)) (Z.lxor XXPRIME_5 3527539))%Z in
  if (acc =? 2 ^ 64 - 1)%Z then 1546275796%Z else shash acc.

End Py.
Export Py.

(** ** State and exceptions *)

Definition M (S A : Type) : Type := S -> outcome A * S.

Definition ret {S A : Type} (a : A) : M S A := fun s => (Return a, s).
Definition raise {S A : Type} (e : exn) : M S A := fun s => (Raise e, s).
Definition bind {S A B : Type} (m : M S A) (k : A -> M S B) : M S B :=
  fun s =>
    match m s with
    | (Return a, s') => k a s'
    | (Raise e, s') => (Raise e, s')
    end.
Definition gets {S A : Type} (f : S -> A) : M S A := fun s => (Return (f s), s).
Definition modify {S : Type} (f : S -> S) : M S unit := fun s => (Return tt, f s).
(** The outcome of a call that does not touch the state. *)
Definition of_outcome {S A : Type} (o : outcome A) : M S A := fun s => (o, s).

Notation "'let*' x ':=' m 'in' k" :=
  (bind m (fun x => k))
  (at level 10, x name, m at level 100, k at level 200).
Notation "m ';;' k" :=
  (bind m (fun _ => k))
  (at level 100, k at level 200, right associativity).

(** ** Values of the collaborators

    The geometry, entity and property types of ezdxf and the classes of Qt
    are not part of the source file; they are modelled by the values the
    backend reads from them or hands to them. *)

(** Modelled from the spec: [ezdxf.math.Vector], the 2D point value type; the
    backend reads [x] and [y] only. *)
Module Vector.
Record t : Type := make { x : Q; y : Q }.
End Vector.

(** Modelled from the spec: [ezdxf.math.Matrix44], a 4x4 transform acting on
    row vectors, reducible to a 2D affine map (translation and 2x2 linear
    part).  [row i col j] is the entry in row [i] and column [j]. *)
Module Matrix44.
Definition t : Type := nat -> nat -> Q.

(** [Matrix44.scale(sx, sy, sz)] *)
Definition scale (sx sy sz : Q) : t :=
  fun i j =>
    if (i =? j)%nat then
      match i with
      | 0%nat => sx
      | 1%nat => sy
      | 2%nat => sz
      | _ => 1
      end
    else 0.

(** [a @ b]: the row by column product; on row vectors [a] acts first. *)
Definition matmul (a b : t) : t :=
  fun i j => a i 0%nat * b 0%nat j + a i 1%nat * b 1%nat j
             + a i 2%nat * b 2%nat j + a i 3%nat * b 3%nat j.

(** [m.get_2d_transformation()]: the entries 0, 1, 4, 5, 12 and 13 of the
    row-major array, completed to a 3x3 matrix. *)
Definition get_2d_transformation (m : t) : Q * Q * Q * Q * Q * Q * Q * Q * Q :=
  (m 0%nat 0%nat, m 0%nat 1%nat, 0,
   m 1%nat 0%nat, m 1%nat 1%nat, 0,
   m 3%nat 0%nat, m 3%nat 1%nat, 1).
End Matrix44.

(** Modelled from the spec: a segment of a [Path]; the backend reads [type] and
    [end], and [ctrl1] and [ctrl2] of a curve. *)
Module PathCmd.
Record t : Type :=
  make { type : Command; end_ : Vector.t; ctrl1 : Vector.t; ctrl2 : Vector.t }.
End PathCmd.

(** Modelled from the spec: [ezdxf.render.Path], a start point and the
    segments in order. *)
Module Path.
Record t : Type := make { start : Vector.t; commands : list PathCmd.t }.
End Path.

(** Modelled from the spec: a logical entity, as the current entity and in the
    entity stack; the backend calls [dxftype()] and stores the object. *)
Module DXFGraphic.
Record t : Type := make { handle : nat; dxftype : string }.
End DXFGraphic.

(** Modelled from the spec: [fonts.Font], the logical font descriptor: family
    name, style string, and a weight that is a number or the name of a
    level. *)
Inductive FontWeight : Type :=
| WeightName (name : string)
| WeightValue (value : Z).

Module Font.
Record t : Type := make { family : string; style : string; weight : FontWeight }.
End Font.

(** Modelled from the spec: [Properties], the style snapshot of one draw call.
    [filling] tells whether a filling is set. *)
Module Properties.
Record t : Type := make {
  color : string;
  lineweight : Q;
  linetype_pattern : list Q;
  linetype_scale : Q;
  filling : bool;
  units : Z;
  font : option Font.t
}.

Definition set_color (c : string) (p : t) : t :=
  make c (lineweight p) (linetype_pattern p) (linetype_scale p)
       (filling p) (units p) (font p).
End Properties.

(** Modelled from the spec: [FontMeasurements], in the units of the font. *)
Module FontMeasurements.
Record t : Type := make {
  baseline : Q;
  cap_height : Q;
  x_height : Q;
  descender_height : Q
}.
End FontMeasurements.

(** ** Qt

    [qc] is QtCore, [qg] is QtGui and [qw] is QtWidgets, as the source
    imports them. *)

Module qc.
Record QPointF : Type := mkQPointF { px : Q; py : Q }.

Record QRectF : Type := mkQRectF { left : Q; top : Q; width : Q; height : Q }.
Definition right (r : QRectF) : Q := left r + width r.
Definition bottom (r : QRectF) : Q := top r + height r.

(** The members of the [Qt] namespace the backend uses. *)
Inductive PenStyle : Type := NoPen | SolidLine | CustomDashLine.
Inductive BrushStyle : Type := NoBrush | SolidPattern.
Inductive PenJoinStyle : Type := BevelJoin | RoundJoin.
End qc.

Module qg.
Import qc.

(** A [QColor] object: [name] is the string its constructor decodes.
    [ident] tells objects apart: it is the number of colors the backend
    has constructed before this one. *)
Record QColor : Type := mkQColor { ident : nat; name : string }.

Record QPen : Type := mkQPen {
  pen_style : PenStyle;
  pen_color : option QColor;
  widthF : Q;
  isCosmetic : bool;
  joinStyle : PenJoinStyle;
  dashPattern : list Q
}.

(** [QPen(style)] *)
Definition QPen_of_style (s : PenStyle) : QPen :=
  mkQPen s None 1 false BevelJoin [].
(** [QPen(color, width)] *)
Definition QPen_of_color (c : QColor) (w : Q) : QPen :=
  mkQPen SolidLine (Some c) w false BevelJoin [].
Definition setCosmetic (b : bool) (p : QPen) : QPen :=
  mkQPen (pen_style p) (pen_color p) (widthF p) b (joinStyle p) (dashPattern p).
Definition setJoinStyle (j : PenJoinStyle) (p : QPen) : QPen :=
  mkQPen (pen_style p) (pen_color p) (widthF p) (isCosmetic p) j (dashPattern p).
Definition setDashPattern (d : list Q) (p : QPen) : QPen :=
  mkQPen CustomDashLine (pen_color p) (widthF p) (isCosmetic p) (joinStyle p) d.

Record QBrush : Type := mkQBrush {
  brush_color : option QColor;
  brush_style : BrushStyle
}.
(** [QBrush(style)] *)
Definition QBrush_of_style (s : BrushStyle) : QBrush := mkQBrush None s.
(** [QBrush(color, style)]; [QBrush(color)] is solid. *)
Definition QBrush_of_color (c : QColor) (s : BrushStyle) : QBrush :=
  mkQBrush (Some c) s.

(** [QFont(family, weight=..., italic=...)] *)
Record QFont : Type := mkQFont {
  font_family : string;
  font_weight : Z;
  font_italic : bool
}.

(** A [QPainterPath]: its elements in order. *)
Inductive Element : Type :=
| MoveToElement (x y : Q)
| LineToElement (x y : Q)
| CurveToElement (c1x c1y c2x c2y x y : Q).
Definition QPainterPath : Type := list Element.

Definition moveTo (x y : Q) (p : QPainterPath) : QPainterPath :=
  p ++ [MoveToElement x y].
Definition lineTo (x y : Q) (p : QPainterPath) : QPainterPath :=
  p ++ [LineToElement x y].
Definition cubicTo (c1x c1y c2x c2y x y : Q) (p : QPainterPath) : QPainterPath :=
  p ++ [CurveToElement c1x c1y c2x c2y x y].

(** [QTransform(m11, m12, m13, m21, m22, m23, m31, m32, m33)] *)
Record QTransform : Type := mkQTransform {
  m11 : Q; m12 : Q; m13 : Q;
  m21 : Q; m22 : Q; m23 : Q;
  m31 : Q; m32 : Q; m33 : Q
}.

(** [t.map(x, y)]: a point is a row vector; a transform that is not affine
    divides by the third coordinate. *)
Definition map_point (t : QTransform) (x y : Q) : Q * Q :=
  let x' := m11 t * x + m21 t * y + m31 t in
  let y' := m12 t * x + m22 t * y + m32 t in
  if Qeq_bool (m13 t) 0 && Qeq_bool (m23 t) 0 && Qeq_bool (m33 t) 1
  then (x', y')
  else let w := m13 t * x + m23 t * y + m33 t in (x' / w, y' / w).

Definition map_element (f : Q -> Q -> Q * Q) (e : Element) : Element :=
  match e with
  | MoveToElement x y => let (x', y') := f x y in MoveToElement x' y'
  | LineToElement x y => let (x', y') := f x y in LineToElement x' y'
  | CurveToElement c1x c1y c2x c2y x y =>
      let (c1x', c1y') := f c1x c1y in
      let (c2x', c2y') := f c2x c2y in
      let (x', y') := f x y in
      CurveToElement c1x' c1y' c2x' c2y' x' y'
  end.

(** [t.map(path)]: every point of the path is mapped. *)
Definition map (t : QTransform) (p : QPainterPath) : QPainterPath :=
  List.map (map_element (map_point t)) p.
End qg.

Module qw.
Import qc qg.

(** The value stored by [setData]. *)
Inductive QVariant : Type :=
| Entity (e : option DXFGraphic.t)
| ParentStack (es : list DXFGraphic.t).

Inductive Shape : Type :=
| _Point (pos : QPointF) (radius : Q) (pen : QPen) (brush : QBrush)
| QGraphicsLineItem (x1 y1 x2 y2 : Q) (pen : QPen)
| QGraphicsPathItem (path : QPainterPath) (pen : QPen) (brush : QBrush)
| QGraphicsPolygonItem (polygon : list QPointF) (pen : QPen) (brush : QBrush)
| QGraphicsRectItem (rect : QRectF) (pen : QPen) (brush : QBrush).

Record QGraphicsItem : Type := mkItem {
  shape : Shape;
  data : gmap Z QVariant
}.

Definition setData (key : Z) (value : QVariant) (i : QGraphicsItem) : QGraphicsItem :=
  mkItem (shape i) (<[key := value]> (data i)).

Record QGraphicsScene : Type := mkScene {
  items : list QGraphicsItem;
  backgroundBrush : QBrush;
  sceneRect : option QRectF
}.

Definition addItem (i : QGraphicsItem) (s : QGraphicsScene) : QGraphicsScene :=
  mkScene (items s ++ [i]) (backgroundBrush s) (sceneRect s).
Definition clear (s : QGraphicsScene) : QGraphicsScene :=
  mkScene [] (backgroundBrush s) (sceneRect s).
Definition setBackgroundBrush (b : QBrush) (s : QGraphicsScene) : QGraphicsScene :=
  mkScene (items s) b (sceneRect s).
Definition setSceneRect (r : QRectF) (s : QGraphicsScene) : QGraphicsScene :=
  mkScene (items s) (backgroundBrush s) (Some r).
End qw.

(** ** The collaborators as an interface

    What the backend calls but the source file does not define: functions of
    other ezdxf modules, of Qt and of the interpreter. *)
Class Collaborators : Type := {
  (** [ezdxf.units.IMPERIAL_UNITS] *)
  IMPERIAL_UNITS : list Z;
  (** [fonts.weight_name_to_value] *)
  weight_name_to_value : string -> Z;
  (** [prepare_string_for_rendering(text, dxftype)] of
      [ezdxf.addons.drawing.backend]: the text made printable for an entity
      of the type [dxftype].  The call can raise: [AssertionError] for a
      text of more than one line, [TypeError(dxftype)] for an entity type
      that carries no text. *)
  prepare_string_for_rendering : string -> string -> outcome string;
  (** [path.counter_clockwise()] and [path.clockwise()] *)
  counter_clockwise : Path.t -> Path.t;
  clockwise : Path.t -> Path.t;
  (** [Properties()] *)
  Properties_default : Properties.t;
  (** [measurements.scale_from_baseline(desired_cap_height)] *)
  scale_from_baseline : FontMeasurements.t -> Q -> outcome FontMeasurements.t;
  (** [QFont()], the default font of the application *)
  QFont_default : qg.QFont;
  (** the outline [path.addText(0, 0, font, text)] adds to an empty path *)
  addText : qg.QFont -> string -> qg.QPainterPath;
  (** [path.boundingRect()] *)
  boundingRect : qg.QPainterPath -> qc.QRectF;
  (** [scene.itemsBoundingRect()] *)
  itemsBoundingRect : list qw.QGraphicsItem -> qc.QRectF;
  (** [hash(font)] of a [QFont] *)
  hash_QFont : qg.QFont -> Z;
  (** [hash(t)] of a tuple [t], from the hashes of its items in order *)
  hash_tuple : list Z -> Z
}.


(** ** The state of the objects *)

(** [TextRenderer].  [addText_calls] is a ghost field: the number of
    outlines the renderer has asked Qt to shape so far. *)
Module TextRenderer.
Record t : Type := make {
  _default_font : qg.QFont;
  _use_cache : bool;
  _text_path_cache : gmap Z (gmap string qg.QPainterPath);
  _font_measurement_cache : gmap Z FontMeasurements.t;
  addText_calls : nat
}.

Definition set_text_path_cache (c : gmap Z (gmap string qg.QPainterPath)) (self : t) : t :=
  make (_default_font self) (_use_cache self) c
       (_font_measurement_cache self) (addText_calls self).
Definition set_font_measurement_cache (c : gmap Z FontMeasurements.t) (self : t) : t :=
  make (_default_font self) (_use_cache self) (_text_path_cache self)
       c (addText_calls self).
Definition count_addText (self : t) : t :=
  make (_default_font self) (_use_cache self) (_text_path_cache self)
       (_font_measurement_cache self) (S (addText_calls self)).
End TextRenderer.

(** [PyQtBackend].  The first seven fields are the attributes the base class
    [Backend] sets from the parameters and maintains around the draw calls.
    [QColor_count] is a ghost field: the number of [QColor] objects
    constructed so far. *)
Module PyQtBackend.
Record t : Type := make {
  point_size : Q;
  lineweight_scaling : Q;
  linetype_scaling : Q;
  min_dash_length : Q;
  show_hatch : Z;
  current_entity : option DXFGraphic.t;
  entity_stack : list (DXFGraphic.t * Properties.t);
  _scene : option qw.QGraphicsScene;
  _color_cache : gmap string qg.QColor;
  QColor_count : nat;
  _text_renderer : TextRenderer.t;
  _debug_draw_rect : bool;
  _dash_pattern_cache : gmap Z (list Q)
}.

Definition set_entity (e : option DXFGraphic.t)
    (stack : list (DXFGraphic.t * Properties.t)) (self : t) : t :=
  make (point_size self) (lineweight_scaling self) (linetype_scaling self)
       (min_dash_length self) (show_hatch self) e stack (_scene self)
       (_color_cache self) (QColor_count self) (_text_renderer self)
       (_debug_draw_rect self) (_dash_pattern_cache self).
Definition set__scene (s : option qw.QGraphicsScene) (self : t) : t :=
  make (point_size self) (lineweight_scaling self) (linetype_scaling self)
       (min_dash_length self) (show_hatch self) (current_entity self)
       (entity_stack self) s
       (_color_cache self) (QColor_count self) (_text_renderer self)
       (_debug_draw_rect self) (_dash_pattern_cache self).
Definition store_color (key : string) (c : qg.QColor) (self : t) : t :=
  make (point_size self) (lineweight_scaling self) (linetype_scaling self)
       (min_dash_length self) (show_hatch self) (current_entity self)
       (entity_stack self) (_scene self)
       (<[key := c]> (_color_cache self)) (S (QColor_count self))
       (_text_renderer self)
       (_debug_draw_rect self) (_dash_pattern_cache self).
Definition set__text_renderer (r : TextRenderer.t) (self : t) : t :=
  make (point_size self) (lineweight_scaling self) (linetype_scaling self)
       (min_dash_length self) (show_hatch self) (current_entity self)
       (entity_stack self) (_scene self)
       (_color_cache self) (QColor_count self) r
       (_debug_draw_rect self) (_dash_pattern_cache self).
Definition store_dashes (key : Z) (dashes : list Q) (self : t) : t :=
  make (point_size self) (lineweight_scaling self) (linetype_scaling self)
       (min_dash_length self) (show_hatch self) (current_entity self)
       (entity_stack self) (_scene self)
       (_color_cache self) (QColor_count self) (_text_renderer self)
       (_debug_draw_rect self) (<[key := dashes]> (_dash_pattern_cache self)).
End PyQtBackend.

Import qc qg qw.

(** The keys used to store the dxf entity corresponding to each graphics
    element. *)
Definition CorrespondingDXFEntity : Z := 0.
Definition CorrespondingDXFParentStack : Z := 1.

(** [PYQT_DEFAULT_PARAMS] *)
Definition PYQT_DEFAULT_point_size : Q := 1.
Definition PYQT_DEFAULT_lineweight_scaling : Q := 2.

Definition _no_line : QPen := QPen_of_style NoPen.
Definition _no_fill : QBrush := QBrush_of_style NoBrush.

Section Backend.
Context `{Collaborators}.

(** *** [TextRenderer] *)

(** The property [default_font]. *)
Definition default_font (self : TextRenderer.t) : QFont :=
  TextRenderer._default_font self.

Definition clear_cache : M TextRenderer.t unit :=
  modify (TextRenderer.set_text_path_cache ∅).

(** [get_text_path]: indexing the [defaultdict] creates the per-font cache
    when it is missing. *)
Definition get_text_path (text : string) (font : QFont) : M TextRenderer.t QPainterPath :=
  fun self =>
    let key := hash_QFont font in
    let cache := default ∅ (TextRenderer._text_path_cache self !! key) in
    match cache !! text with
    | Some path =>
        (Return path,
         TextRenderer.set_text_path_cache
           (<[key := cache]> (TextRenderer._text_path_cache self)) self)
    | None =>
        let path := addText font text in
        let cache :=
          if TextRenderer._use_cache self then <[text := path]> cache else cache in
        (Return path,
         TextRenderer.count_addText
           (TextRenderer.set_text_path_cache
              (<[key := cache]> (TextRenderer._text_path_cache self)) self))
    end.

Definition get_text_rect (text : string) (font : QFont) : M TextRenderer.t QRectF :=
  let* path := get_text_path text font in
  ret (boundingRect path).

Definition TextRenderer_get_font_measurements (font : QFont)
  : M TextRenderer.t FontMeasurements.t :=
  let key := hash_QFont font in
  let* measurements :=
    gets (fun self => TextRenderer._font_measurement_cache self !! key) in
  match measurements with
  | Some measurements => ret measurements
  | None =>
      let* upper_x := get_text_rect "X" font in
      let* lower_x := get_text_rect "x" font in
      let* lower_p := get_text_rect "p" font in
      let baseline := bottom lower_x in
      let measurements :=
        FontMeasurements.make
          baseline
          (baseline - top upper_x)
          (baseline - top lower_x)
          (bottom lower_p - baseline) in
      modify (fun self =>
                TextRenderer.set_font_measurement_cache
                  (<[key := measurements]>
                     (TextRenderer._font_measurement_cache self)) self);;
      ret measurements
  end.

(** [get_scale]: dividing by a cap height of zero raises. *)
Definition get_scale (desired_cap_height : Q) (font : QFont) : M TextRenderer.t Q :=
  let* measurements := TextRenderer_get_font_measurements font in
  if Qeq_bool (FontMeasurements.cap_height measurements) 0
  then raise ZeroDivisionError
  else ret (desired_cap_height / FontMeasurements.cap_height measurements).

(** *** Module level functions *)

Fixpoint for_each {S A : Type} (seq : list A) (body : A -> M S unit) : M S unit :=
  match seq with
  | [] => ret tt
  | a :: seq' => body a;; for_each seq' body
  end.

(** [_extend_qt_path(qt_path, path)]: the state is the [QPainterPath]. *)
Definition _extend_qt_path (path : Path.t) : M QPainterPath unit :=
  let start := Path.start path in
  modify (moveTo (Vector.x start) (Vector.y start));;
  for_each (Path.commands path) (fun cmd =>
    if Command_eqb (PathCmd.type cmd) LINE_TO then
      let end_ := PathCmd.end_ cmd in
      modify (lineTo (Vector.x end_) (Vector.y end_))
    else if Command_eqb (PathCmd.type cmd) CURVE_TO then
      let end_ := PathCmd.end_ cmd in
      let ctrl1 := PathCmd.ctrl1 cmd in
      let ctrl2 := PathCmd.ctrl2 cmd in
      modify (cubicTo (Vector.x ctrl1) (Vector.y ctrl1)
                      (Vector.x ctrl2) (Vector.y ctrl2)
                      (Vector.x end_) (Vector.y end_))
    else raise (ValueError_unknown_path_command (PathCmd.type cmd))).

Definition _map_weight (weight : FontWeight) : Z :=
  let weight :=
    match weight with
    | WeightName name => weight_name_to_value name
    | WeightValue value => value
    end in
  let value := int ((inject_Z weight / 10) + 10) in
  Z.min (Z.max 0 value) 99.

Definition _matrix_to_qtransform (matrix : Matrix44.t) : QTransform :=
  let '(a, b, c, d, e, f, g, h, i) := Matrix44.get_2d_transformation matrix in
  mkQTransform a b c d e f g h i.

(** [_Point(x, y, radius, brush)] *)
Definition new__Point (x y radius : Q) (brush : QBrush) : QGraphicsItem :=
  mkItem (_Point (mkQPointF x y) radius (QPen_of_style NoPen) brush) ∅.

Definition _Point_boundingRect (pos : QPointF) : QRectF :=
  mkQRectF (px pos) (py pos) 1 1.

(** *** [PyQtBackend] *)

(** The parameters after [PYQT_DEFAULT_PARAMS] and the defaults of the base
    class have been merged with the ones of the caller. *)
Record Params : Type := mkParams {
  param_point_size : Q;
  param_lineweight_scaling : Q;
  param_linetype_scaling : Q;
  param_min_dash_length : Q;
  param_show_hatch : Z
}.

Definition __init__ (scene : option QGraphicsScene) (point_radius : option Q)
    (use_text_cache debug_draw_rect : bool) (params : Params) : PyQtBackend.t :=
  PyQtBackend.make
    (match point_radius with
     | Some point_radius => point_radius * 2
     | None => param_point_size params
     end)
    (param_lineweight_scaling params)
    (param_linetype_scaling params)
    (param_min_dash_length params)
    (param_show_hatch params)
    None []
    scene
    ∅ 0
    (TextRenderer.make QFont_default use_text_cache ∅ ∅ 0)
    debug_draw_rect
    ∅.

Definition set_scene (scene : QGraphicsScene) : M PyQtBackend.t unit :=
  modify (PyQtBackend.set__scene (Some scene)).

(** Runs a method of the text renderer on the renderer of the backend. *)
Definition on_text_renderer {A : Type} (m : M TextRenderer.t A) : M PyQtBackend.t A :=
  fun self =>
    let (r, renderer) := m (PyQtBackend._text_renderer self) in
    (r, PyQtBackend.set__text_renderer renderer self).

(** Runs a function that fills a fresh [QPainterPath]. *)
Definition on_new_path (m : M QPainterPath unit) : M PyQtBackend.t QPainterPath :=
  fun self =>
    match m [] with
    | (Return _, qt_path) => (Return qt_path, self)
    | (Raise e, _) => (Raise e, self)
    end.

(** [self._scene.attr]: fails when no scene is set. *)
Definition scene_attr (attr : string) : M PyQtBackend.t QGraphicsScene :=
  fun self =>
    match PyQtBackend._scene self with
    | Some scene => (Return scene, self)
    | None => (Raise (AttributeError attr), self)
    end.

Definition update_scene (f : QGraphicsScene -> QGraphicsScene) : M PyQtBackend.t unit :=
  modify (fun self =>
            PyQtBackend.set__scene (option_map f (PyQtBackend._scene self)) self).

Definition clear_text_cache : M PyQtBackend.t unit :=
  on_text_renderer clear_cache.

Definition _get_color (color : string) : M PyQtBackend.t QColor :=
  fun self =>
    match PyQtBackend._color_cache self !! color with
    | Some qt_color => (Return qt_color, self)
    | None =>
        if (String.length color =? 7)%nat then
          let qt_color := mkQColor (PyQtBackend.QColor_count self) color in
          (Return qt_color, PyQtBackend.store_color color qt_color self)
        else if (String.length color =? 9)%nat then
          let rgb := substring 1 6 color in
          let alpha := substring 7 2 color in
          let qt_color :=
            mkQColor (PyQtBackend.QColor_count self) ("#" +:+ alpha +:+ rgb) in
          (Return qt_color, PyQtBackend.store_color color qt_color self)
        else (Raise (TypeError color), self)
    end.

Definition _get_line_pattern_factor (units : Z) : M PyQtBackend.t Q :=
  let* linetype_scaling := gets PyQtBackend.linetype_scaling in
  let scale := or_ linetype_scaling 1 in
  ret ((if existsb (Z.eqb units) IMPERIAL_UNITS then 750 else 30) * scale).

(** [hash((pattern, scale))] *)
Definition hash_pattern_scale (pattern : list Q) (scale : Q) : Z :=
  hash_tuple [hash_tuple (List.map hash_number pattern); hash_number scale].

Definition _get_dash_pattern (pattern : list Q) (scale : Q) : M PyQtBackend.t (list Q) :=
  fun self =>
    let hash_key := hash_pattern_scale pattern scale in
    match PyQtBackend._dash_pattern_cache self !! hash_key with
    | Some dashes => (Return dashes, self)
    | None =>
        let end_ := Z.of_nat (length pattern) in
        let end_ := if (end_ mod 2 =? 0)%Z then end_ else (-1)%Z in
        let min_length := PyQtBackend.min_dash_length self in
        let dashes :=
          List.map (fun dash => max (dash * scale) min_length)
                   (slice_to pattern end_) in
        (Return dashes, PyQtBackend.store_dashes hash_key dashes self)
    end.

Definition _get_pen (properties : Properties.t) : M PyQtBackend.t QPen :=
  let* lineweight_scaling := gets PyQtBackend.lineweight_scaling in
  let px := Properties.lineweight properties / 0.3527 * lineweight_scaling in
  let* color := _get_color (Properties.color properties) in
  let pen := QPen_of_color color px in
  let pen := setCosmetic true pen in
  let pen := setJoinStyle RoundJoin pen in
  let* linetype_scaling := gets PyQtBackend.linetype_scaling in
  if (1 <? length (Properties.linetype_pattern properties))%nat
     && negb (Qeq_bool linetype_scaling 0)
  then
    let* pattern_factor := _get_line_pattern_factor (Properties.units properties) in
    let* dashes :=
      _get_dash_pattern
        (Properties.linetype_pattern properties)
        (Properties.linetype_scale properties * pattern_factor) in
    ret (setDashPattern dashes pen)
  else ret pen.

Definition _get_brush (properties : Properties.t) : M PyQtBackend.t QBrush :=
  if Properties.filling properties then
    let* color := _get_color (Properties.color properties) in
    ret (QBrush_of_color color SolidPattern)
  else ret _no_fill.

Definition _set_item_data (item : QGraphicsItem) : M PyQtBackend.t QGraphicsItem :=
  let* current_entity := gets PyQtBackend.current_entity in
  let item := setData CorrespondingDXFEntity (Entity current_entity) item in
  let* entity_stack := gets PyQtBackend.entity_stack in
  let parent_stack := List.map fst (slice_to entity_stack (-1)) in
  ret (setData CorrespondingDXFParentStack (ParentStack parent_stack) item).

(** A scene method that makes an item ([addLine], [addPath], ...) followed
    by [_set_item_data] on the item: the scene holds the item with its
    data. *)
Definition add_with_item_data (shape : Shape) : M PyQtBackend.t unit :=
  let* item := _set_item_data (mkItem shape ∅) in
  update_scene (addItem item).

Definition set_background (color : string) : M PyQtBackend.t unit :=
  scene_attr "setBackgroundBrush";;
  let* color := _get_color color in
  update_scene (setBackgroundBrush (QBrush_of_color color SolidPattern)).

Definition draw_point (pos : Vector.t) (properties : Properties.t) : M PyQtBackend.t unit :=
  let* color := _get_color (Properties.color properties) in
  let brush := QBrush_of_color color SolidPattern in
  let* point_size := gets PyQtBackend.point_size in
  let item := new__Point (Vector.x pos) (Vector.y pos) (point_size * 0.5) brush in
  let* item := _set_item_data item in
  scene_attr "addItem";;
  update_scene (addItem item).

Definition draw_line (start end_ : Vector.t) (properties : Properties.t)
  : M PyQtBackend.t unit :=
  scene_attr "addLine";;
  let* pen := _get_pen properties in
  add_with_item_data
    (QGraphicsLineItem (Vector.x start) (Vector.y start)
                       (Vector.x end_) (Vector.y end_) pen).

Definition draw_path (path : Path.t) (properties : Properties.t) : M PyQtBackend.t unit :=
  let* qt_path := on_new_path (_extend_qt_path path) in
  scene_attr "addPath";;
  let* pen := _get_pen properties in
  add_with_item_data (QGraphicsPathItem qt_path pen _no_fill).

Definition draw_filled_paths (paths holes : list Path.t) (properties : Properties.t)
  : M PyQtBackend.t unit :=
  let* show_hatch := gets PyQtBackend.show_hatch in
  if (show_hatch =? 0)%Z then ret tt
  else
    let* qt_path :=
      on_new_path
        (for_each paths (fun path => _extend_qt_path (counter_clockwise path));;
         for_each holes (fun path => _extend_qt_path (clockwise path))) in
    scene_attr "addPath";;
    let* pen := _get_pen properties in
    let* brush := _get_brush properties in
    add_with_item_data (QGraphicsPathItem qt_path pen brush).

Definition draw_filled_polygon (points : list Vector.t) (properties : Properties.t)
  : M PyQtBackend.t unit :=
  let* brush := _get_brush properties in
  let polygon := List.map (fun p => mkQPointF (Vector.x p) (Vector.y p)) points in
  scene_attr "addPolygon";;
  add_with_item_data (QGraphicsPolygonItem polygon _no_line brush).

(** [get_qfont]: the [lru_cache] only saves the construction of the font. *)
Definition get_qfont (font : option Font.t) : M PyQtBackend.t QFont :=
  let* qfont := gets (fun self => default_font (PyQtBackend._text_renderer self)) in
  match font with
  | Some font =>
      let family := Font.family font in
      let italic := contains "italic" (lower (Font.style font)) in
      let weight := _map_weight (Font.weight font) in
      ret (mkQFont family weight italic)
  | None => ret qfont
  end.

(** [self.current_entity.dxftype()] *)
Definition current_entity_dxftype : M PyQtBackend.t string :=
  let* current_entity := gets PyQtBackend.current_entity in
  match current_entity with
  | Some entity => ret (DXFGraphic.dxftype entity)
  | None => raise (AttributeError "dxftype")
  end.

Definition draw_text (text : string) (transform : Matrix44.t)
    (properties : Properties.t) (cap_height : Q) : M PyQtBackend.t unit :=
  if negb (truthy (strip text)) then ret tt
  else
    let* dxftype := current_entity_dxftype in
    let* text := of_outcome (prepare_string_for_rendering text dxftype) in
    let* qfont := get_qfont (Properties.font properties) in
    let* scale := on_text_renderer (get_scale cap_height qfont) in
    let transform := Matrix44.matmul (Matrix44.scale scale (- scale) 0) transform in
    let* path := on_text_renderer (get_text_path text qfont) in
    let path := qg.map (_matrix_to_qtransform transform) path in
    scene_attr "addPath";;
    let* color := _get_color (Properties.color properties) in
    add_with_item_data
      (QGraphicsPathItem path _no_line (QBrush_of_color color SolidPattern)).

Definition get_font_measurements (cap_height : Q) (font : option Font.t)
  : M PyQtBackend.t FontMeasurements.t :=
  let* qfont := get_qfont font in
  let* measurements := on_text_renderer (TextRenderer_get_font_measurements qfont) in
  fun self => (scale_from_baseline measurements cap_height, self).

Definition get_text_line_width (text : string) (cap_height : Q) (font : option Font.t)
  : M PyQtBackend.t Q :=
  if negb (truthy (strip text)) then ret 0
  else
    let* current_entity := gets PyQtBackend.current_entity in
    let dxftype :=
      match current_entity with
      | Some entity => DXFGraphic.dxftype entity
      | None => "TEXT"
      end in
    let* text := of_outcome (prepare_string_for_rendering text dxftype) in
    let* qfont := get_qfont font in
    let* scale := on_text_renderer (get_scale cap_height qfont) in
    let* rect := on_text_renderer (get_text_rect text qfont) in
    ret (right rect * scale).

Definition clear : M PyQtBackend.t unit :=
  scene_attr "clear";;
  update_scene qw.clear.

(** [finalize]: the method of the base class does nothing. *)
Definition finalize : M PyQtBackend.t unit :=
  let* scene := scene_attr "setSceneRect" in
  update_scene (setSceneRect (itemsBoundingRect (items scene)));;
  let* _debug_draw_rect := gets PyQtBackend._debug_draw_rect in
  if _debug_draw_rect then
    let properties := Properties.set_color "#000000" Properties_default in
    let* scene := scene_attr "addRect" in
    let* pen := _get_pen properties in
    update_scene
      (addItem
         (mkItem (QGraphicsRectItem (itemsBoundingRect (items scene)) pen _no_fill) ∅))
  else ret tt.

(** *** The states a backend goes through

    A backend is constructed, and then its methods are called; between the
    calls the frontend sets the current entity and the entity stack. *)
Inductive call : PyQtBackend.t -> PyQtBackend.t -> Prop :=
| call_set_scene scene self :
    call self (snd (set_scene scene self))
| call_clear_text_cache self :
    call self (snd (clear_text_cache self))
| call_set_background color self :
    call self (snd (set_background color self))
| call_draw_point pos properties self :
    call self (snd (draw_point pos properties self))
| call_draw_line start end_ properties self :
    call self (snd (draw_line start end_ properties self))
| call_draw_path path properties self :
    call self (snd (draw_path path properties self))
| call_draw_filled_paths paths holes properties self :
    call self (snd (draw_filled_paths paths holes properties self))
| call_draw_filled_polygon points properties self :
    call self (snd (draw_filled_polygon points properties self))
| call_draw_text text transform properties cap_height self :
    call self (snd (draw_text text transform properties cap_height self))
| call_get_font_measurements cap_height font self :
    call self (snd (get_font_measurements cap_height font self))
| call_get_text_line_width text cap_height font self :
    call self (snd (get_text_line_width text cap_height font self))
| call_clear self :
    call self (snd (clear self))
| call_finalize self :
    call self (snd (finalize self))
| call_frontend entity stack self :
    call self (PyQtBackend.set_entity entity stack self).

Inductive reachable : PyQtBackend.t -> Prop :=
| reachable_init scene point_radius use_text_cache debug_draw_rect params :
    reachable (__init__ scene point_radius use_text_cache debug_draw_rect params)
| reachable_call self self' :
    reachable self -> call self self' -> reachable self'.

End Backend.

(** ** The statements of the specification *)

Section Specification.
Context `{Collaborators}.

(** The unit pattern factor in the words of the specification: the constant
    of the unit system divided by the linetype scaling, which counts as 1
    when it is zero. *)
Definition spec_unit_pattern_factor (linetype_scaling : Q) (units : Z) : Q :=
  (if existsb (Z.eqb units) IMPERIAL_UNITS then 750 else 30)
  / (if Qeq_bool linetype_scaling 0 then 1 else linetype_scaling).

(** The weight mapping in the words of the specification:
    [clamp(round(weight/10) + 10, 0, 99)]. *)
Definition spec_weight_mapping (weight : Z) : Z :=
  Z.min (Z.max 0 (round (inject_Z weight / 10) + 10)) 99.

(** The resolved dash pattern in the words of the specification: the last
    element is dropped when the length is odd, every remaining length is
    multiplied by the scale and floored below at the minimum dash length. *)
Definition spec_resolved_pattern (min_dash_length : Q) (pattern : list Q) (scale : Q)
  : list Q :=
  List.map (fun dash => Qmax (dash * scale) min_dash_length)
           (if Nat.even (length pattern) then pattern else removelast pattern).

(** The alpha-first form of a color string: the alpha field of a string of
    nine characters moves to the front. *)
Definition alpha_first (color : string) : string :=
  if (String.length color =? 9)%nat
  then "#" +:+ substring 7 2 color +:+ substring 1 6 color
  else color.

Definition valid_color (color : string) : Prop :=
  String.length color = 7%nat \/ String.length color = 9%nat.

(** The sink segment of a path segment. *)
Definition sink_segment (cmd : PathCmd.t) : Element :=
  match PathCmd.type cmd with
  | LINE_TO =>
      LineToElement (Vector.x (PathCmd.end_ cmd)) (Vector.y (PathCmd.end_ cmd))
  | _ =>
      CurveToElement
        (Vector.x (PathCmd.ctrl1 cmd)) (Vector.y (PathCmd.ctrl1 cmd))
        (Vector.x (PathCmd.ctrl2 cmd)) (Vector.y (PathCmd.ctrl2 cmd))
        (Vector.x (PathCmd.end_ cmd)) (Vector.y (PathCmd.end_ cmd))
  end.

Definition supported (cmd : PathCmd.t) : bool :=
  match PathCmd.type cmd with
  | LINE_TO | CURVE_TO => true
  | OTHER_COMMAND _ => false
  end.

(** The kind of the first segment that is neither a line nor a curve. *)
Definition first_unsupported (cmds : list PathCmd.t) : option Command :=
  option_map PathCmd.type (List.find (fun cmd => negb (supported cmd)) cmds).

(** Two outlines with equal points, as rationals. *)
Inductive Element_equiv : Element -> Element -> Prop :=
| MoveTo_equiv x y x' y' :
    x == x' -> y == y' -> Element_equiv (MoveToElement x y) (MoveToElement x' y')
| LineTo_equiv x y x' y' :
    x == x' -> y == y' -> Element_equiv (LineToElement x y) (LineToElement x' y')
| CurveTo_equiv a b c d x y a' b' c' d' x' y' :
    a == a' -> b == b' -> c == c' -> d == d' -> x == x' -> y == y' ->
    Element_equiv (CurveToElement a b c d x y) (CurveToElement a' b' c' d' x' y').

(** The invariant of the color cache: a key is a valid color string, and
    its color was constructed from the alpha-first form of the key. *)
Definition color_cache_ok (self : PyQtBackend.t) : Prop :=
  forall color qt_color,
    PyQtBackend._color_cache self !! color = Some qt_color ->
    valid_color color
    /\ name qt_color = alpha_first color
    /\ (ident qt_color < PyQtBackend.QColor_count self)%nat.

(** The invariant of the dash pattern cache: an entry is the pattern
    resolved for some arguments with the hash of its key. *)
Definition dash_cache_ok (self : PyQtBackend.t) : Prop :=
  forall hash_key dashes,
    PyQtBackend._dash_pattern_cache self !! hash_key = Some dashes ->
    exists pattern scale,
      hash_pattern_scale pattern scale = hash_key
      /\ dashes = spec_resolved_pattern (PyQtBackend.min_dash_length self) pattern scale.

Definition caches_ok (self : PyQtBackend.t) : Prop :=
  color_cache_ok self /\ dash_cache_ok self.

(** A method keeps a property of the state. *)
Definition preserves {A : Type} (P : PyQtBackend.t -> Prop) (m : M PyQtBackend.t A) : Prop :=
  forall self, P self -> P (snd (m self)).

(** The part of the state the cache invariants read. *)
Definition same_caches (self self' : PyQtBackend.t) : Prop :=
  PyQtBackend._color_cache self' = PyQtBackend._color_cache self
  /\ PyQtBackend.QColor_count self' = PyQtBackend.QColor_count self
  /\ PyQtBackend._dash_pattern_cache self' = PyQtBackend._dash_pattern_cache self
  /\ PyQtBackend.min_dash_length self' = PyQtBackend.min_dash_length self.

End Specification.

(** ** Sample collaborators

    A font whose glyphs are boxes seven units wide and ten units high, and
    the tuple hash of CPython. *)

Definition sample_outline (font : QFont) (text : string) : QPainterPath :=
  let w := inject_Z (7 * Z.of_nat (String.length text)) in
  [MoveToElement 0 0; LineToElement w 0; LineToElement w (-10);
   LineToElement 0 (-10); LineToElement 0 0].

Definition element_points (e : Element) : list (Q * Q) :=
  match e with
  | MoveToElement x y | LineToElement x y => [(x, y)]
  | CurveToElement c1x c1y c2x c2y x y => [(c1x, c1y); (c2x, c2y); (x, y)]
  end.

Definition sample_boundingRect (p : QPainterPath) : QRectF :=
  let pts := List.concat (List.map element_points p) in
  match pts with
  | [] => mkQRectF 0 0 0 0
  | (x0, y0) :: _ =>
      let xmin := fold_right (fun q acc => Qmin (fst q) acc) x0 pts in
      let xmax := fold_right (fun q acc => Qmax (fst q) acc) x0 pts in
      let ymin := fold_right (fun q acc => Qmin (snd q) acc) y0 pts in
      let ymax := fold_right (fun q acc => Qmax (snd q) acc) y0 pts in
      mkQRectF xmin ymin (xmax - xmin) (ymax - ymin)
  end.

Definition sample_weight_name_to_value (name : string) : Z :=
  if String.eqb name "bold" then 700%Z else 400%Z.

Definition sample_properties : Properties.t :=
  Properties.make "#ffffff" 0.25 [] 1 false 0 None.

(** A stand-in for [prepare_string_for_rendering]: one line of text for a
    text entity is returned as it is. *)
Definition line_feed : string := String "010" "".

Definition text_entity_types : list string := ["TEXT"; "ATTRIB"; "ATTDEF"; "MTEXT"].

Definition sample_prepare_string_for_rendering (text dxftype : string)
  : outcome string :=
  if contains line_feed text then Raise (AssertionError "not a single line of text")
  else if existsb (String.eqb dxftype) text_entity_types then Return text
  else Raise (TypeError dxftype).

Definition sample_collaborators : Collaborators := {|
  IMPERIAL_UNITS := [1; 2; 3; 8; 9; 10]%Z;
  weight_name_to_value := sample_weight_name_to_value;
  prepare_string_for_rendering := sample_prepare_string_for_rendering;
  counter_clockwise := fun path => path;
  clockwise := fun path => path;
  Properties_default := sample_properties;
  scale_from_baseline := fun m _ => Return m;
  QFont_default := mkQFont "" 50 false;
  addText := sample_outline;
  boundingRect := sample_boundingRect;
  itemsBoundingRect := fun _ => mkQRectF 0 0 0 0;
  hash_QFont := fun font => font_weight font;
  hash_tuple := tuplehash
|}.

Definition sample_params : Params :=
  mkParams PYQT_DEFAULT_point_size PYQT_DEFAULT_lineweight_scaling 1 0.1 1.

Definition sample_scene : QGraphicsScene := mkScene [] _no_fill None.

Definition sample_backend : PyQtBackend.t :=
  @__init__ sample_collaborators (Some sample_scene) None true false sample_params.

(** Concrete inputs. *)

Definition origin : Vector.t := Vector.make 0 0.
Definition east : Vector.t := Vector.make 10 0.

Definition dashed_properties (linetype_scale : Q) : Properties.t :=
  Properties.make "#000000" 0.25 [1; 2] linetype_scale false 0 None.

Definition plain_properties (color : string) : Properties.t :=
  Properties.make color 0.25 [] 1 false 0 None.

(** The sample backend after a dashed line has been drawn. *)
Definition after_dashed_line : PyQtBackend.t :=
  snd (@draw_line sample_collaborators origin east (dashed_properties 1) sample_backend).

(** 2 to the power 61, one more than the modulus of the numeric hash. *)
Definition two_to_61 : Q := 2305843009213693952.

(** A backend with a linetype scaling of 2. *)
Definition double_scaling_backend : PyQtBackend.t :=
  @__init__ sample_collaborators (Some sample_scene) None true false
            (mkParams 1 2 2 0.1 1).

(** A backend with [show_hatch] zero. *)
Definition hidden_hatch_backend : PyQtBackend.t :=
  @__init__ sample_collaborators (Some sample_scene) None true false
            (mkParams 1 2 1 0.1 0).

(** The sample backend while a text entity is drawn. *)
Definition text_backend : PyQtBackend.t :=
  PyQtBackend.set_entity (Some (DXFGraphic.make 1 "TEXT")) [] sample_backend.

(** The translation by 100 along x. *)
Definition shift_100 : Matrix44.t :=
  fun i j =>
    if (i =? j)%nat then 1
    else if ((i =? 3) && (j =? 0))%nat then 100 else 0.

Definition line_to (x y : Q) : PathCmd.t :=
  PathCmd.make LINE_TO (Vector.make x y) origin origin.
Definition curve_to (c1x c1y c2x c2y x y : Q) : PathCmd.t :=
  PathCmd.make CURVE_TO (Vector.make x y) (Vector.make c1x c1y) (Vector.make c2x c2y).

Definition supported_path : Path.t :=
  Path.make origin [line_to 10 0; curve_to 10 5 5 10 0 10].
Definition unsupported_path : Path.t :=
  Path.make origin
    [line_to 10 0; PathCmd.make (OTHER_COMMAND (-1)) origin origin origin; line_to 0 10].

(** ** Further statements about the backend *)

Section FurtherSpecification.
Context `{Collaborators}.

(** The attributes set from the parameters of the constructor. *)
Definition configuration (self : PyQtBackend.t) : Q * Q * Q * Q * Z * bool :=
  (PyQtBackend.point_size self, PyQtBackend.lineweight_scaling self,
   PyQtBackend.linetype_scaling self, PyQtBackend.min_dash_length self,
   PyQtBackend.show_hatch self, PyQtBackend._debug_draw_rect self).

(** What a draw call reads besides the caches and the configuration. *)
Definition drawing_context (self : PyQtBackend.t)
  : option QGraphicsScene * option DXFGraphic.t * list (DXFGraphic.t * Properties.t) :=
  (PyQtBackend._scene self, PyQtBackend.current_entity self,
   PyQtBackend.entity_stack self).




(** An item of a shape with the tag of the current entity and its parents. *)
Definition tagged (self : PyQtBackend.t) (shape : Shape) : QGraphicsItem :=
  setData CorrespondingDXFParentStack
    (ParentStack (List.map fst (removelast (PyQtBackend.entity_stack self))))
    (setData CorrespondingDXFEntity (Entity (PyQtBackend.current_entity self))
       (mkItem shape ∅)).

(** A method adds at most one item to the scene, and none when it raises. *)
Definition emits_at_most_one {A : Type} (m : M PyQtBackend.t A) : Prop :=
  forall self,
    match m self with
    | (Return _, self') =>
        PyQtBackend._scene self' = PyQtBackend._scene self
        \/ exists scene item,
            PyQtBackend._scene self = Some scene
            /\ PyQtBackend._scene self' = Some (addItem item scene)
    | (Raise _, self') => PyQtBackend._scene self' = PyQtBackend._scene self
    end.

(** The methods of the text renderer the backend calls. *)
Inductive renderer_method : forall {A : Type}, M TextRenderer.t A -> Prop :=
| method_clear_cache : renderer_method clear_cache
| method_get_scale desired_cap_height font :
    renderer_method (get_scale desired_cap_height font)
| method_get_text_path text font : renderer_method (get_text_path text font)
| method_get_text_rect text font : renderer_method (get_text_rect text font)
| method_get_font_measurements font :
    renderer_method (TextRenderer_get_font_measurements font).

(** The measurements of a font from the outlines of the three probes. *)
Definition probe_measurements (font : QFont) : FontMeasurements.t :=
  let upper_x := boundingRect (addText font "X") in
  let lower_x := boundingRect (addText font "x") in
  let lower_p := boundingRect (addText font "p") in
  FontMeasurements.make
    (bottom lower_x)
    (bottom lower_x - top upper_x)
    (bottom lower_x - top lower_x)
    (bottom lower_p - bottom lower_x).

(** The outlines cached for a font. *)
Definition cached_outlines (font : QFont) (self : TextRenderer.t)
  : gmap string QPainterPath :=
  default ∅ (TextRenderer._text_path_cache self !! hash_QFont font).

(** No outline is stored in the text path cache. *)
Definition stores_no_outline (self : TextRenderer.t) : Prop :=
  forall key cache,
    TextRenderer._text_path_cache self !! key = Some cache -> cache = ∅.

End FurtherSpecification.

(** Collaborators with a font of no extent: every outline is empty. *)
Definition flat_collaborators : Collaborators := {|
  IMPERIAL_UNITS := [1; 2; 3; 8; 9; 10]%Z;
  weight_name_to_value := sample_weight_name_to_value;
  prepare_string_for_rendering := sample_prepare_string_for_rendering;
  counter_clockwise := fun path => path;
  clockwise := fun path => path;
  Properties_default := sample_properties;
  scale_from_baseline := fun m _ => Return m;
  QFont_default := mkQFont "" 50 false;
  addText := fun _ _ => [];
  boundingRect := sample_boundingRect;
  itemsBoundingRect := fun _ => mkQRectF 0 0 0 0;
  hash_QFont := fun font => font_weight font;
  hash_tuple := tuplehash
|}.

Definition flat_backend : PyQtBackend.t :=
  PyQtBackend.set_entity (Some (DXFGraphic.make 1 "TEXT")) []
    (@__init__ flat_collaborators (Some sample_scene) None true false sample_params).

(** A text of two lines, and the sample backend while a line is drawn. *)
Definition two_lines : string := String "a" (String "010" "b").

Definition line_backend : PyQtBackend.t :=
  PyQtBackend.set_entity (Some (DXFGraphic.make 2 "LINE")) [] sample_backend.

(** The sample backend without a scene. *)
Definition sceneless_backend : PyQtBackend.t :=
  @__init__ sample_collaborators None None true false sample_params.

(** The sample backend without a text cache. *)
Definition uncached_backend : PyQtBackend.t :=
  @__init__ sample_collaborators (Some sample_scene) None false false sample_params.

(** The sample backend with the debug rectangle. *)
Definition debug_backend : PyQtBackend.t :=
  @__init__ sample_collaborators (Some sample_scene) None true true sample_params.

(** The sample backend made with the deprecated point radius 3. *)
Definition radius_backend : PyQtBackend.t :=
  @__init__ sample_collaborators (Some sample_scene) (Some 3) true false sample_params.

Definition filled_properties (color : string) : Properties.t :=
  Properties.make color 0.25 [] 1 true 0 None.

Definition sample_font : QFont := mkQFont "Arial" 50 false.

(** The sample backend after a dash pattern has been resolved, and after a
    line has been drawn then. *)
Definition resolved_backend : PyQtBackend.t :=
  snd (@_get_dash_pattern sample_collaborators [1; 2; 3] 2 sample_backend).
Definition resolved_then_line : PyQtBackend.t :=
  snd (@draw_line sample_collaborators origin east (dashed_properties 1)
         resolved_backend).

(** The sample backend after the sample font has been measured, and after
    the text cache has been cleared then. *)
Definition measured_backend : PyQtBackend.t :=
  snd (@on_text_renderer FontMeasurements.t
         (@TextRenderer_get_font_measurements sample_collaborators sample_font)
         sample_backend).
Definition measured_then_cleared : PyQtBackend.t :=
  snd (clear_text_cache measured_backend).

(** ** Proof tools *)

Ltac run_monad :=
  unfold bind, ret, raise, gets, modify in *; cbn [fst snd] in *.

(** ** Methods and the caches

    Every method changes the color cache and the dash pattern cache through
    [_get_color] and [_get_dash_pattern] only. *)

Section Frame.
Context `{Collaborators}.
Variable P : PyQtBackend.t -> Prop.
Hypothesis P_frame : forall self self', same_caches self self' -> P self -> P self'.
Hypothesis P_get_color : forall color, preserves P (_get_color color).
Hypothesis P_get_dash_pattern :
  forall pattern scale, preserves P (_get_dash_pattern pattern scale).

Lemma preserves_ret {A} (a : A) : preserves P (ret a).
Proof. intros self HP. exact HP. Qed.

Lemma preserves_raise {A} (e : exn) : preserves P (@raise _ A e).
Proof. intros self HP. exact HP. Qed.

Lemma preserves_gets {A} (f : PyQtBackend.t -> A) : preserves P (gets f).
Proof. intros self HP. exact HP. Qed.

Lemma preserves_of_outcome {A} (o : outcome A) : preserves P (of_outcome o).
Proof. intros self HP. exact HP. Qed.

Lemma preserves_bind {A B} (m : M PyQtBackend.t A) (k : A -> M PyQtBackend.t B) :
  preserves P m -> (forall a, preserves P (k a)) -> preserves P (bind m k).
Proof.
  intros Hm Hk self HP. unfold bind.
  specialize (Hm self HP). destruct (m self) as [[a | e] self']; cbn in *.
  - now apply Hk.
  - exact Hm.
Qed.

Lemma preserves_scene_attr attr : preserves P (scene_attr attr).
Proof.
  intros self HP. unfold scene_attr. now destruct (PyQtBackend._scene self).
Qed.

Lemma preserves_update_scene f : preserves P (update_scene f).
Proof.
  intros self HP. cbn. eapply P_frame; [| exact HP]. now repeat split.
Qed.

Lemma preserves_on_text_renderer {A} (m : M TextRenderer.t A) :
  preserves P (on_text_renderer m).
Proof.
  intros self HP. unfold on_text_renderer.
  destruct (m (PyQtBackend._text_renderer self)) as [r renderer]. cbn.
  eapply P_frame; [| exact HP]. now repeat split.
Qed.

Lemma preserves_on_new_path m : preserves P (on_new_path m).
Proof.
  intros self HP. unfold on_new_path. now destruct (m []) as [[u | e] p].
Qed.

Ltac preserves_step :=
  lazymatch goal with
  | |- preserves _ (bind _ _) => apply preserves_bind; [| intros ?]
  | |- preserves _ (ret _) => apply preserves_ret
  | |- preserves _ (raise _) => apply preserves_raise
  | |- preserves _ (gets _) => apply preserves_gets
  | |- preserves _ (of_outcome _) => apply preserves_of_outcome
  | |- preserves _ (scene_attr _) => apply preserves_scene_attr
  | |- preserves _ (update_scene _) => apply preserves_update_scene
  | |- preserves _ (on_text_renderer _) => apply preserves_on_text_renderer
  | |- preserves _ (on_new_path _) => apply preserves_on_new_path
  | |- preserves _ (if ?b then _ else _) => destruct b
  | |- preserves _ (match ?x with _ => _ end) => destruct x
  end.

Lemma preserves__get_pen properties : preserves P (_get_pen properties).
Proof.
  unfold _get_pen, _get_line_pattern_factor.
  repeat (preserves_step || apply P_get_color || apply P_get_dash_pattern).
Qed.

Lemma preserves__get_brush properties : preserves P (_get_brush properties).
Proof. unfold _get_brush. repeat (preserves_step || apply P_get_color). Qed.

Lemma preserves_add_with_item_data shape : preserves P (add_with_item_data shape).
Proof. unfold add_with_item_data, _set_item_data. repeat preserves_step. Qed.

Lemma preserves_get_qfont font : preserves P (get_qfont font).
Proof. unfold get_qfont. repeat preserves_step. Qed.

Lemma preserves_call self self' : call self self' -> P self -> P self'.
Proof.
  intros Hcall. destruct Hcall;
    try match goal with
        | |- P ?s -> P (snd (?m ?s)) => revert s; change (preserves P m)
        end.
  - intros self HP. cbn. eapply P_frame; [| exact HP]. now repeat split.
  - unfold clear_text_cache. apply preserves_on_text_renderer.
  - unfold set_background.
    repeat (preserves_step || apply P_get_color).
  - unfold draw_point, _set_item_data.
    repeat (preserves_step || apply P_get_color).
  - unfold draw_line.
    repeat (preserves_step || apply preserves__get_pen
            || apply preserves_add_with_item_data).
  - unfold draw_path.
    repeat (preserves_step || apply preserves__get_pen
            || apply preserves_add_with_item_data).
  - unfold draw_filled_paths.
    repeat (preserves_step || apply preserves__get_pen
            || apply preserves__get_brush
            || apply preserves_add_with_item_data).
  - unfold draw_filled_polygon.
    repeat (preserves_step || apply preserves__get_brush
            || apply preserves_add_with_item_data).
  - unfold draw_text, current_entity_dxftype.
    repeat (preserves_step || apply P_get_color || apply preserves_get_qfont
            || apply preserves_add_with_item_data).
  - unfold get_font_measurements.
    repeat (preserves_step || apply preserves_get_qfont).
    intros self' HP. exact HP.
  - unfold get_text_line_width.
    repeat (preserves_step || apply preserves_get_qfont).
  - unfold clear. repeat preserves_step.
  - unfold finalize.
    repeat (preserves_step || apply preserves__get_pen).
  - intros HP. eapply P_frame; [| exact HP]. now repeat split.
Qed.

End Frame.

(** ** Python values *)

Lemma even_of_nat (n : nat) : Z.even (Z.of_nat n) = Nat.even n.
Proof.
  destruct (Nat.even n) eqn:E.
  - apply Nat.even_spec in E. destruct E as [k ->].
    apply Z.even_spec. exists (Z.of_nat k). lia.
  - destruct (Z.even (Z.of_nat n)) eqn:E'; [| reflexivity].
    apply Z.even_spec in E'. destruct E' as [k Hk].
    assert (Nat.even n = true) as E''; [| congruence].
    apply Nat.even_spec. exists (Z.to_nat k). lia.
Qed.

(** [pattern[:end]] with [end] the length when it is even and [-1] when it
    is odd: the pattern, or the pattern without its last element. *)
Lemma slice_to_even_length {A} (seq : list A) :
  slice_to seq
    (if (Z.of_nat (length seq) mod 2 =? 0)%Z then Z.of_nat (length seq) else (-1)%Z)
  = if Nat.even (length seq) then seq else removelast seq.
Proof.
  rewrite <- Zeven_mod, even_of_nat. unfold slice_to.
  destruct (Nat.even (length seq)).
  - replace (Z.of_nat (length seq) <? 0)%Z with false by (symmetry; apply Z.ltb_ge; lia).
    rewrite Z.min_id, Nat2Z.id. apply firstn_all.
  - cbn [Z.ltb Z.compare]. rewrite removelast_firstn_len. f_equal. lia.
Qed.

Lemma removelast_length_odd {A} (seq : list A) :
  Nat.even (length seq) = false -> Nat.even (length (removelast seq)) = true.
Proof.
  intros E. rewrite removelast_firstn_len, length_firstn.
  destruct (length seq) as [| n]; [discriminate |].
  rewrite Nat.even_succ in E. cbn [Init.Nat.pred].
  rewrite Nat.min_l by lia. rewrite <- Nat.negb_odd, E. reflexivity.
Qed.

(** ** The invariants of the caches *)

Section Invariants.
Context `{Collaborators}.

Lemma spec_resolved_pattern_even min_length pattern scale :
  Nat.even (length (spec_resolved_pattern min_length pattern scale)) = true.
Proof.
  unfold spec_resolved_pattern. rewrite length_map.
  destruct (Nat.even (length pattern)) eqn:E; [exact E |].
  now apply removelast_length_odd.
Qed.

Lemma spec_resolved_pattern_floor min_length pattern scale :
  Forall (fun dash => min_length <= dash)
         (spec_resolved_pattern min_length pattern scale).
Proof.
  unfold spec_resolved_pattern. apply Forall_map, Forall_forall.
  intros dash _. apply Q.le_max_r.
Qed.

(** What a call of [_get_color] does to the state. *)
Lemma _get_color_cases color self :
  (exists qt_color,
      PyQtBackend._color_cache self !! color = Some qt_color
      /\ _get_color color self = (Return qt_color, self))
  \/ (PyQtBackend._color_cache self !! color = None
      /\ valid_color color
      /\ let qt_color := mkQColor (PyQtBackend.QColor_count self) (alpha_first color) in
         _get_color color self
         = (Return qt_color, PyQtBackend.store_color color qt_color self))
  \/ (PyQtBackend._color_cache self !! color = None
      /\ ~ valid_color color
      /\ _get_color color self = (Raise (TypeError color), self)).
Proof.
  unfold _get_color, valid_color, alpha_first.
  destruct (PyQtBackend._color_cache self !! color) as [qt_color |] eqn:E.
  - left. eauto.
  - right. destruct (String.length color =? 7)%nat eqn:E7.
    + left. apply Nat.eqb_eq in E7. split; [reflexivity |]. split; [now left |].
      replace (String.length color =? 9)%nat with false
        by (symmetry; apply Nat.eqb_neq; lia).
      reflexivity.
    + destruct (String.length color =? 9)%nat eqn:E9.
      * left. apply Nat.eqb_eq in E9. split; [reflexivity |]. split; [now right |].
        reflexivity.
      * right. apply Nat.eqb_neq in E7, E9. split; [reflexivity |].
        split; [| reflexivity]. intros [? | ?]; contradiction.
Qed.

(** What a call of [_get_dash_pattern] does to the state. *)
Lemma _get_dash_pattern_cases pattern scale self :
  let hash_key := hash_pattern_scale pattern scale in
  (exists dashes,
      PyQtBackend._dash_pattern_cache self !! hash_key = Some dashes
      /\ _get_dash_pattern pattern scale self = (Return dashes, self))
  \/ (PyQtBackend._dash_pattern_cache self !! hash_key = None
      /\ let dashes :=
           spec_resolved_pattern (PyQtBackend.min_dash_length self) pattern scale in
         _get_dash_pattern pattern scale self
         = (Return dashes, PyQtBackend.store_dashes hash_key dashes self)).
Proof.
  unfold _get_dash_pattern, spec_resolved_pattern, Py.max. cbn zeta.
  destruct (PyQtBackend._dash_pattern_cache self !! hash_pattern_scale pattern scale)
    as [dashes |] eqn:E.
  - left. eauto.
  - right. split; [reflexivity |]. now rewrite slice_to_even_length.
Qed.

Lemma color_cache_ok_frame self self' :
  same_caches self self' -> color_cache_ok self -> color_cache_ok self'.
Proof.
  intros (Hc & Hn & _ & _) Hok color qt_color. rewrite Hc, Hn. apply Hok.
Qed.

Lemma dash_cache_ok_frame self self' :
  same_caches self self' -> dash_cache_ok self -> dash_cache_ok self'.
Proof.
  intros (_ & _ & Hd & Hm) Hok hash_key dashes. rewrite Hd, Hm. apply Hok.
Qed.

Lemma caches_ok_frame self self' :
  same_caches self self' -> caches_ok self -> caches_ok self'.
Proof.
  intros Hsame [Hc Hd]. split.
  - now apply (color_cache_ok_frame self).
  - now apply (dash_cache_ok_frame self).
Qed.

Lemma caches_ok__get_color color : preserves caches_ok (_get_color color).
Proof.
  intros self [Hc Hd].
  destruct (_get_color_cases color self)
    as [(q & _ & ->) | [(Hnone & Hvalid & ->) | (_ & _ & ->)]];
    cbn [snd]; [now split | | now split].
  split.
  - intros c q. cbn. destruct (decide (color = c)) as [<- | Hne].
    + rewrite lookup_insert_eq. intros [= <-]. cbn. repeat split; [exact Hvalid | lia].
    + rewrite lookup_insert_ne by exact Hne. intros Hq.
      destruct (Hc c q Hq) as (? & ? & ?). repeat split; [assumption .. | lia].
  - exact Hd.
Qed.

Lemma caches_ok__get_dash_pattern pattern scale :
  preserves caches_ok (_get_dash_pattern pattern scale).
Proof.
  intros self [Hc Hd].
  destruct (_get_dash_pattern_cases pattern scale self)
    as [(dashes & _ & ->) | (Hnone & ->)]; cbn [snd]; [now split |].
  split; [exact Hc |].
  intros k dashes. cbn.
  destruct (decide (hash_pattern_scale pattern scale = k)) as [<- | Hne].
  - rewrite lookup_insert_eq. intros [= <-]. now exists pattern, scale.
  - rewrite lookup_insert_ne by exact Hne. apply Hd.
Qed.

Lemma caches_ok_init scene point_radius use_text_cache debug_draw_rect params :
  caches_ok (__init__ scene point_radius use_text_cache debug_draw_rect params).
Proof.
  split.
  - intros color qt_color. cbn. now rewrite lookup_empty.
  - intros hash_key dashes. cbn. now rewrite lookup_empty.
Qed.

Lemma reachable_caches_ok self : reachable self -> caches_ok self.
Proof.
  induction 1 as [| self self' _ IH Hcall].
  - apply caches_ok_init.
  - eapply (preserves_call caches_ok); eauto using caches_ok_frame,
      caches_ok__get_color, caches_ok__get_dash_pattern.
Qed.

End Invariants.

(** ** The color resolver *)

Section ColorResolver.
Context `{Collaborators}.

Lemma _get_pen_raises self properties e self' :
  _get_color (Properties.color properties) self = (Raise e, self') ->
  _get_pen properties self = (Raise e, self').
Proof. intros E. unfold _get_pen. run_monad. now rewrite E. Qed.

Lemma draw_point_raises self pos properties e self' :
  _get_color (Properties.color properties) self = (Raise e, self') ->
  draw_point pos properties self = (Raise e, self').
Proof. intros E. unfold draw_point. run_monad. now rewrite E. Qed.

(** C3. In every state the backend reaches, resolving a color string whose
    length is neither 7 nor 9 raises the error ([TypeError] in the source)
    and leaves the state as it is; the error goes through [_get_pen] and
    [draw_point] unchanged, and nothing is emitted.  Resolving a string of
    length 7 or 9 raises no error. *)
Theorem color_of_wrong_length_raises (self : PyQtBackend.t) (color : string) :
  reachable self ->
  (String.length color <> 7%nat -> String.length color <> 9%nat ->
   _get_color color self = (Raise (TypeError color), self)
   /\ forall properties,
       Properties.color properties = color ->
       _get_pen properties self = (Raise (TypeError color), self)
       /\ forall pos,
           draw_point pos properties self = (Raise (TypeError color), self))
  /\ (String.length color = 7%nat \/ String.length color = 9%nat ->
      exists qt_color self', _get_color color self = (Return qt_color, self')).
Proof.
  intros Hreach. apply reachable_caches_ok in Hreach. destruct Hreach as [Hc _].
  split.
  - intros H7 H9.
    assert (_get_color color self = (Raise (TypeError color), self)) as E.
    { destruct (_get_color_cases color self)
        as [(q & Hq & _) | [(_ & Hvalid & _) | (_ & _ & E)]].
      - destruct (Hc color q Hq) as ([? | ?] & _); contradiction.
      - destruct Hvalid; contradiction.
      - exact E. }
    split; [exact E |]. intros properties <-. split.
    + now apply _get_pen_raises.
    + intros pos. now apply draw_point_raises.
  - intros Hvalid.
    destruct (_get_color_cases color self)
      as [(q & _ & E) | [(_ & _ & E) | (_ & Hinvalid & _)]]; eauto.
    contradiction.
Qed.

(** An entry of the color cache stays through every later call. *)
Lemma color_cache_entry_stays color qt_color self self' :
  rtc call self self' ->
  PyQtBackend._color_cache self !! color = Some qt_color ->
  PyQtBackend._color_cache self' !! color = Some qt_color.
Proof.
  induction 1 as [| self self1 self2 Hcall _ IH]; [trivial |].
  intros Hq. apply IH. revert Hq.
  apply (preserves_call
           (fun s => PyQtBackend._color_cache s !! color = Some qt_color));
    [| | | exact Hcall].
  - intros s s' (-> & _). trivial.
  - intros c s Hq.
    destruct (_get_color_cases c s) as [(q & _ & ->) | [(Hnone & _ & ->) | (_ & _ & ->)]];
      cbn; trivial.
    rewrite lookup_insert_ne; [exact Hq | congruence].
  - intros pattern scale s Hq.
    destruct (_get_dash_pattern_cases pattern scale s) as [(d & _ & ->) | (_ & ->)];
      cbn; trivial.
Qed.

(** C9. In every state the backend reaches, resolving a valid color string
    returns a color; resolving the same string again, at once or after any
    further calls, returns the same object from the cache and constructs
    nothing; and the color was constructed from the alpha-first form of the
    string: for nine characters, from "#", the trailing two characters and
    the six characters between. *)
Theorem color_resolution_is_cached (self : PyQtBackend.t) (color : string) :
  reachable self ->
  String.length color = 7%nat \/ String.length color = 9%nat ->
  exists qt_color self1,
    _get_color color self = (Return qt_color, self1)
    /\ _get_color color self1 = (Return qt_color, self1)
    /\ (forall self2, rtc call self1 self2 ->
          _get_color color self2 = (Return qt_color, self2))
    /\ name qt_color = alpha_first color
    /\ (String.length color = 7%nat -> name qt_color = color)
    /\ (String.length color = 9%nat ->
        name qt_color = "#" +:+ substring 7 2 color +:+ substring 1 6 color).
Proof.
  intros Hreach Hvalid.
  assert (exists qt_color self1,
             _get_color color self = (Return qt_color, self1)
             /\ PyQtBackend._color_cache self1 !! color = Some qt_color
             /\ name qt_color = alpha_first color) as (q & self1 & E & Hq & Hname).
  { apply reachable_caches_ok in Hreach. destruct Hreach as [Hc _].
    destruct (_get_color_cases color self)
      as [(q & Hq & E) | [(_ & _ & E) | (_ & Hinvalid & _)]].
    - exists q, self. destruct (Hc color q Hq) as (_ & Hname & _). auto.
    - eexists _, _. split; [exact E |]. cbn. now rewrite lookup_insert_eq.
    - contradiction. }
  assert (forall s, PyQtBackend._color_cache s !! color = Some q ->
                    _get_color color s = (Return q, s)) as Hhit.
  { intros s Hs. unfold _get_color. now rewrite Hs. }
  exists q, self1. repeat split; auto.
  - intros self2 Hcalls. apply Hhit. now apply (color_cache_entry_stays color q self1).
  - intros H7. rewrite Hname. unfold alpha_first. now rewrite H7.
  - intros H9. rewrite Hname. unfold alpha_first. now rewrite H9.
Qed.

End ColorResolver.

(** ** The dash pattern resolver and the pen *)

Section StyleResolver.
Context `{Collaborators}.

(** The hashes of a scale and of the scale times 2^61 are the same, whatever
    the hash of a tuple makes of the hashes of its items. *)
Lemma hash_pattern_scale_collision (pattern : list Q) :
  hash_pattern_scale pattern (two_to_61 * 30) = hash_pattern_scale pattern 30.
Proof. reflexivity. Qed.

(** X25.  In every state the backend reaches, resolving a dash
    pattern returns a pattern of even length whose values are all at least
    the minimum dash length.  When the hash of (pattern, scale) is not yet a
    key of the cache, the result is the pattern without its last element
    when its length is odd, every length multiplied by the scale and floored
    below at the minimum dash length.  When the hash is a key of the cache,
    the result is the stored pattern: one resolved in this way for arguments
    with the same hash.  The same call made again returns the same result. *)
Theorem dash_pattern_resolved (self : PyQtBackend.t) (pattern : list Q) (scale : Q) :
  reachable self ->
  exists dashes self',
    _get_dash_pattern pattern scale self = (Return dashes, self')
    /\ Nat.Even (length dashes)
    /\ Forall (fun dash => PyQtBackend.min_dash_length self <= dash) dashes
    /\ (PyQtBackend._dash_pattern_cache self !! hash_pattern_scale pattern scale = None ->
        dashes
        = List.map (fun dash => Qmax (dash * scale) (PyQtBackend.min_dash_length self))
                   (if Nat.even (length pattern) then pattern else removelast pattern))
    /\ (exists pattern' scale',
           hash_pattern_scale pattern' scale' = hash_pattern_scale pattern scale
           /\ dashes
              = spec_resolved_pattern (PyQtBackend.min_dash_length self) pattern' scale')
    /\ _get_dash_pattern pattern scale self' = (Return dashes, self').
Proof.
  intros Hreach. apply reachable_caches_ok in Hreach. destruct Hreach as [_ Hd].
  assert (forall s dashes,
             PyQtBackend._dash_pattern_cache s !! hash_pattern_scale pattern scale
             = Some dashes ->
             _get_dash_pattern pattern scale s = (Return dashes, s)) as Hhit.
  { intros s dashes Hs. unfold _get_dash_pattern. cbn zeta. now rewrite Hs. }
  destruct (_get_dash_pattern_cases pattern scale self)
    as [(dashes & Hsome & E) | (Hnone & E)]; cbn zeta in *.
  - destruct (Hd _ _ Hsome) as (pattern' & scale' & Hkey & ->).
    eexists _, self. split; [exact E |].
    split; [apply Nat.even_spec, spec_resolved_pattern_even |].
    split; [apply spec_resolved_pattern_floor |].
    split; [intros Hnone; congruence |].
    split; [now exists pattern', scale' |].
    exact E.
  - eexists _, _. split; [exact E |].
    split; [apply Nat.even_spec, spec_resolved_pattern_even |].
    split; [apply spec_resolved_pattern_floor |].
    split; [reflexivity |].
    split; [now exists pattern, scale |].
    apply Hhit. cbn. now rewrite lookup_insert_eq.
Qed.

(** The linetype scaling after a color has been resolved. *)
Lemma _get_color_linetype_scaling color self r self' :
  _get_color color self = (r, self') ->
  PyQtBackend.linetype_scaling self' = PyQtBackend.linetype_scaling self
  /\ PyQtBackend.lineweight_scaling self' = PyQtBackend.lineweight_scaling self.
Proof.
  destruct (_get_color_cases color self)
    as [(q & _ & ->) | [(_ & _ & ->) | (_ & _ & ->)]]; intros [= _ <-]; now split.
Qed.

(** C1, amended.  When the dash pattern of the property set has more than
    one element and the linetype scaling of the backend is not zero,
    [_get_pen] resolves the color and then the dash pattern with the scale
    [linetype_scale * unit_pattern_factor], where the unit pattern factor is
    the constant of the unit system, 750 for imperial units and 30
    otherwise, multiplied by the linetype scaling.  A linetype scaling of
    zero counts as 1 in the unit pattern factor. *)
Theorem pen_dash_scale (self : PyQtBackend.t) (properties : Properties.t) :
  (1 < length (Properties.linetype_pattern properties))%nat ->
  ~ PyQtBackend.linetype_scaling self == 0 ->
  let constant : Q :=
    if existsb (Z.eqb (Properties.units properties)) IMPERIAL_UNITS then 750 else 30 in
  let unit_pattern_factor := constant * PyQtBackend.linetype_scaling self in
  let px :=
    Properties.lineweight properties / 0.3527 * PyQtBackend.lineweight_scaling self in
  _get_pen properties self
  = (let* color := _get_color (Properties.color properties) in
     let* dashes :=
       _get_dash_pattern
         (Properties.linetype_pattern properties)
         (Properties.linetype_scale properties * unit_pattern_factor) in
     ret (setDashPattern dashes
            (setJoinStyle RoundJoin (setCosmetic true (QPen_of_color color px)))))
      self
  /\ _get_line_pattern_factor (Properties.units properties) self
     = (Return unit_pattern_factor, self)
  /\ (forall self0,
        PyQtBackend.linetype_scaling self0 == 0 ->
        _get_line_pattern_factor (Properties.units properties) self0
        = (Return (constant * 1), self0))
  /\ (30 : Q) < 750.
Proof.
  intros Hlen Hknob constant unit_pattern_factor px.
  assert (Qeq_bool (PyQtBackend.linetype_scaling self) 0 = false) as Hb.
  { destruct (Qeq_bool _ 0) eqn:E; [| reflexivity].
    apply Qeq_bool_iff in E. contradiction. }
  split; [| split; [| split]].
  - unfold _get_pen, _get_line_pattern_factor. run_monad.
    destruct (_get_color (Properties.color properties) self) as [[color | e] self1] eqn:E;
      [| reflexivity].
    destruct (_get_color_linetype_scaling _ _ _ _ E) as [Hls _].
    apply Nat.ltb_lt in Hlen. unfold or_. rewrite Hls, Hlen, Hb. cbn [andb negb]. rewrite Hls, Hb. reflexivity.
  - unfold _get_line_pattern_factor. run_monad. unfold or_. now rewrite Hb.
  - intros self0 H0. apply Qeq_bool_iff in H0.
    unfold _get_line_pattern_factor. run_monad. unfold or_. now rewrite H0.
  - reflexivity.
Qed.

End StyleResolver.

(** ** The font weight *)

Section FontWeight.
Context `{Collaborators}.

(** [int((weight / 10) + 10)] is the quotient of [weight + 100] by 10,
    truncated towards zero. *)
Lemma int_weight (weight : Z) :
  int (inject_Z weight / 10 + 10) = ((weight + 100) ÷ 10)%Z.
Proof. unfold int. cbn. f_equal. lia. Qed.

Lemma clamp_quot_div (weight : Z) :
  Z.min (Z.max 0 ((weight + 100) ÷ 10)) 99 = Z.min (Z.max 0 (weight / 10 + 10)) 99.
Proof.
  replace (weight / 10 + 10)%Z with ((weight + 100) / 10)%Z
    by (replace (weight + 100)%Z with (weight + 10 * 10)%Z by lia;
        now rewrite Z.div_add by lia).
  destruct (Z_le_gt_dec 0 (weight + 100)) as [Hpos | Hneg].
  - now rewrite Z.quot_div_nonneg by lia.
  - assert ((weight + 100) ÷ 10 <= 0)%Z by (apply Z.quot_le_upper_bound; lia).
    assert ((weight + 100) / 10 < 0)%Z by (apply Z.div_lt_upper_bound; lia).
    lia.
Qed.

Lemma _map_weight_floor (weight : FontWeight) :
  let value :=
    match weight with
    | WeightName name => weight_name_to_value name
    | WeightValue value => value
    end in
  _map_weight weight = Z.min (Z.max 0 ((value + 100) ÷ 10)) 99
  /\ _map_weight weight = Z.min (Z.max 0 (value / 10 + 10)) 99.
Proof.
  intros value.
  assert (_map_weight weight = Z.min (Z.max 0 ((value + 100) ÷ 10)) 99) as E.
  { unfold _map_weight. fold value. now rewrite int_weight. }
  split; [exact E |]. now rewrite E, clamp_quot_div.
Qed.

(** C2, amended.  The mapped weight of a font weight (after the lookup of a
    named level) is [weight / 10 + 10] truncated to an integer by [int], not
    rounded to the nearest integer, and then clamped to the range 0 to 99;
    this is [floor(weight / 10) + 10] clamped to that range.  It sends 1000
    to 99, 400 to 50 and 0 to 10. *)
Theorem map_weight_truncates (weight : FontWeight) :
  let value :=
    match weight with
    | WeightName name => weight_name_to_value name
    | WeightValue value => value
    end in
  _map_weight weight = Z.min (Z.max 0 (int (inject_Z value / 10 + 10))) 99
  /\ _map_weight weight = Z.min (Z.max 0 ((value + 100) ÷ 10)) 99
  /\ _map_weight weight = Z.min (Z.max 0 (value / 10 + 10)) 99
  /\ _map_weight (WeightValue 1000) = 99%Z
  /\ _map_weight (WeightValue 400) = 50%Z
  /\ _map_weight (WeightValue 0) = 10%Z
  /\ (_map_weight (WeightValue 0) <= 10)%Z.
Proof.
  intros value. destruct (_map_weight_floor weight) as [Equot Ediv].
  split; [reflexivity |]. split; [exact Equot |]. split; [exact Ediv |].
  repeat split; try reflexivity. all: vm_compute; discriminate.
Qed.

(** On a multiple of ten, truncating and rounding agree. *)
Lemma map_weight_rounds_tens (k : Z) :
  _map_weight (WeightValue (10 * k)) = spec_weight_mapping (10 * k).
Proof.
  destruct (_map_weight_floor (WeightValue (10 * k))) as (_ & ->).
  unfold spec_weight_mapping, round.
  assert (Qfloor (inject_Z (10 * k) / 10) = k) as ->.
  { unfold Qfloor. cbn. rewrite Z.mul_1_r.
    replace (10 * k)%Z with (k * 10)%Z by lia. now rewrite Z.div_mul. }
  replace (10 * k / 10)%Z with k
    by (replace (10 * k)%Z with (k * 10)%Z by lia; now rewrite Z.div_mul).
  assert (inject_Z (10 * k) / 10 - inject_Z k == 0) as E.
  { unfold Qeq. cbn. lia. }
  assert (Qcompare (inject_Z (10 * k) / 10 - inject_Z k) (1 # 2) = Lt) as ->.
  { apply Qlt_alt. rewrite E. reflexivity. }
  reflexivity.
Qed.

End FontWeight.

(** ** Paths *)

Lemma bind_modify {S B} (f : S -> S) (k : unit -> M S B) (s : S) :
  bind (modify f) k s = k tt (f s).
Proof. reflexivity. Qed.

Section Paths.
Context `{Collaborators}.

Lemma first_unsupported_cons cmd cmds :
  first_unsupported (cmd :: cmds)
  = if supported cmd then first_unsupported cmds else Some (PathCmd.type cmd).
Proof. unfold first_unsupported. cbn. now destruct (supported cmd). Qed.

(** The loop of [_extend_qt_path]: the segments are converted in order until
    one is of an unknown kind. *)
Lemma for_each_segment cmds : forall qt_path : QPainterPath,
  let body := fun cmd : PathCmd.t =>
    if Command_eqb (PathCmd.type cmd) LINE_TO then
      modify (lineTo (Vector.x (PathCmd.end_ cmd)) (Vector.y (PathCmd.end_ cmd)))
    else if Command_eqb (PathCmd.type cmd) CURVE_TO then
      modify (cubicTo (Vector.x (PathCmd.ctrl1 cmd)) (Vector.y (PathCmd.ctrl1 cmd))
                      (Vector.x (PathCmd.ctrl2 cmd)) (Vector.y (PathCmd.ctrl2 cmd))
                      (Vector.x (PathCmd.end_ cmd)) (Vector.y (PathCmd.end_ cmd)))
    else raise (ValueError_unknown_path_command (PathCmd.type cmd)) in
  match first_unsupported cmds with
  | None =>
      for_each cmds body qt_path = (Return tt, qt_path ++ List.map sink_segment cmds)
  | Some type =>
      fst (for_each cmds body qt_path) = Raise (ValueError_unknown_path_command type)
  end.
Proof.
  induction cmds as [| cmd cmds IH]; intros qt_path; cbn zeta.
  - cbn. now rewrite app_nil_r.
  - rewrite first_unsupported_cons. cbn [for_each].
    unfold supported, sink_segment. cbn [List.map].
    destruct (PathCmd.type cmd) eqn:Etype; cbn [Command_eqb].
    + specialize (IH (lineTo (Vector.x (PathCmd.end_ cmd))
                             (Vector.y (PathCmd.end_ cmd)) qt_path)).
      cbn zeta in IH. destruct (first_unsupported cmds); rewrite bind_modify.
      * exact IH.
      * rewrite IH. unfold lineTo. now rewrite <- app_assoc.
    + specialize (IH (cubicTo (Vector.x (PathCmd.ctrl1 cmd)) (Vector.y (PathCmd.ctrl1 cmd))
                              (Vector.x (PathCmd.ctrl2 cmd)) (Vector.y (PathCmd.ctrl2 cmd))
                              (Vector.x (PathCmd.end_ cmd)) (Vector.y (PathCmd.end_ cmd))
                              qt_path)).
      cbn zeta in IH. destruct (first_unsupported cmds); rewrite bind_modify.
      * exact IH.
      * rewrite IH. unfold cubicTo. now rewrite <- app_assoc.
    + reflexivity.
Qed.

Lemma first_unsupported_None cmds :
  first_unsupported cmds = None
  <-> Forall (fun cmd => PathCmd.type cmd = LINE_TO \/ PathCmd.type cmd = CURVE_TO) cmds.
Proof.
  induction cmds as [| cmd cmds IH]; [now split |].
  rewrite first_unsupported_cons, Forall_cons_iff, <- IH. unfold supported.
  destruct (PathCmd.type cmd); split;
    try solve [intros; discriminate | intuition discriminate | intuition].
Qed.

Lemma first_unsupported_Some cmds type :
  first_unsupported cmds = Some type ->
  type <> LINE_TO /\ type <> CURVE_TO
  /\ exists cmd, In cmd cmds /\ PathCmd.type cmd = type.
Proof.
  unfold first_unsupported. destruct (find _ cmds) as [cmd |] eqn:E; [| discriminate].
  intros [= <-]. apply find_some in E. destruct E as [Hin Hsup].
  unfold supported in Hsup.
  destruct (PathCmd.type cmd) eqn:Etype; try discriminate.
  repeat split; try discriminate. exists cmd. now rewrite Etype.
Qed.

(** C4.  [_extend_qt_path] converts a path of lines and cubic curves to the
    start point followed by the sink segments of its segments, in order, and
    [draw_path] hands this outline to the scene.  A path with a segment of
    another kind makes [_extend_qt_path] raise the error ([ValueError] in
    the source) for the first such segment, and [draw_path] raises it at
    once: the state of the backend is as before and nothing is emitted. *)
Theorem path_segments_converted (self : PyQtBackend.t) (path : Path.t)
    (properties : Properties.t) :
  let start := Path.start path in
  let outline :=
    MoveToElement (Vector.x start) (Vector.y start)
    :: List.map sink_segment (Path.commands path) in
  (Forall (fun cmd => PathCmd.type cmd = LINE_TO \/ PathCmd.type cmd = CURVE_TO)
          (Path.commands path) ->
   (forall qt_path, _extend_qt_path path qt_path = (Return tt, qt_path ++ outline))
   /\ draw_path path properties self
      = (scene_attr "addPath";;
         let* pen := _get_pen properties in
         add_with_item_data (QGraphicsPathItem outline pen _no_fill)) self)
  /\ (Exists (fun cmd => PathCmd.type cmd <> LINE_TO /\ PathCmd.type cmd <> CURVE_TO)
             (Path.commands path) ->
      exists type,
        first_unsupported (Path.commands path) = Some type
        /\ type <> LINE_TO /\ type <> CURVE_TO
        /\ (forall qt_path,
              fst (_extend_qt_path path qt_path)
              = Raise (ValueError_unknown_path_command type))
        /\ draw_path path properties self
           = (Raise (ValueError_unknown_path_command type), self)).
Proof.
  intros start outline. split.
  - intros Hall. apply first_unsupported_None in Hall.
    assert (forall qt_path, _extend_qt_path path qt_path = (Return tt, qt_path ++ outline))
      as Hextend.
    { intros qt_path. unfold _extend_qt_path. cbn zeta. rewrite bind_modify. fold start.
      pose proof (for_each_segment (Path.commands path)
                    (moveTo (Vector.x start) (Vector.y start) qt_path)) as E.
      cbn zeta in E. rewrite Hall in E. rewrite E.
      unfold moveTo, outline. now rewrite <- app_assoc. }
    split; [exact Hextend |].
    unfold draw_path. unfold bind at 1, on_new_path. now rewrite Hextend.
  - intros Hex.
    destruct (first_unsupported (Path.commands path)) as [type |] eqn:E.
    + destruct (first_unsupported_Some _ _ E) as (H1 & H2 & _).
      assert (forall qt_path,
                 fst (_extend_qt_path path qt_path)
                 = Raise (ValueError_unknown_path_command type)) as Hextend.
      { intros qt_path. unfold _extend_qt_path. cbn zeta. rewrite bind_modify. fold start.
        pose proof (for_each_segment (Path.commands path)
                      (moveTo (Vector.x start) (Vector.y start) qt_path)) as E'.
        cbn zeta in E'. rewrite E in E'. exact E'. }
      exists type. repeat split; try assumption.
      unfold draw_path. unfold bind at 1, on_new_path.
      specialize (Hextend []).
      destruct (_extend_qt_path path []) as [[u | e] p]; cbn in Hextend;
        congruence.
    + apply first_unsupported_None in E. apply Exists_exists in Hex.
      destruct Hex as (cmd & Hin & H1 & H2).
      rewrite Forall_forall in E. destruct (E cmd Hin); contradiction.
Qed.

End Paths.

(** ** Points, filled regions and blank text *)

Section Primitives.
Context `{Collaborators}.

Lemma slice_to_minus_one {A} (seq : list A) : slice_to seq (-1) = removelast seq.
Proof.
  unfold slice_to. cbn [Z.ltb Z.compare]. rewrite removelast_firstn_len.
  f_equal. lia.
Qed.

(** The fields a draw call reads are the same after a color is resolved. *)
Lemma _get_color_frame color self qt_color self' :
  _get_color color self = (Return qt_color, self') ->
  PyQtBackend._scene self' = PyQtBackend._scene self
  /\ PyQtBackend.point_size self' = PyQtBackend.point_size self
  /\ PyQtBackend.current_entity self' = PyQtBackend.current_entity self
  /\ PyQtBackend.entity_stack self' = PyQtBackend.entity_stack self.
Proof.
  destruct (_get_color_cases color self)
    as [(q & _ & ->) | [(_ & _ & ->) | (_ & _ & ->)]]; intros [= _ <-];
    now repeat split.
Qed.

Lemma _get_color_returns color self :
  String.length color = 7%nat \/ String.length color = 9%nat ->
  exists qt_color self', _get_color color self = (Return qt_color, self').
Proof.
  intros Hvalid.
  destruct (_get_color_cases color self)
    as [(q & _ & E) | [(_ & _ & E) | (_ & Hinvalid & _)]]; eauto.
  contradiction.
Qed.

(** C10.  A point draw call on a backend with a scene and a valid color
    adds exactly one item to the scene: a point at the position, with radius
    [point_size * 0.5], no pen, and a solid brush in the resolved color,
    tagged with the current entity and its parents.  A property set with the
    same color gives the same result, whatever its filling flag, lineweight
    and linetype pattern are. *)
Theorem point_drawn_as_one_item (self : PyQtBackend.t) (pos : Vector.t)
    (properties : Properties.t) (scene : QGraphicsScene) :
  PyQtBackend._scene self = Some scene ->
  String.length (Properties.color properties) = 7%nat
  \/ String.length (Properties.color properties) = 9%nat ->
  (exists qt_color self1,
      _get_color (Properties.color properties) self = (Return qt_color, self1)
      /\ let item :=
           setData CorrespondingDXFParentStack
             (ParentStack (List.map fst (removelast (PyQtBackend.entity_stack self))))
             (setData CorrespondingDXFEntity
                (Entity (PyQtBackend.current_entity self))
                (mkItem
                   (_Point (mkQPointF (Vector.x pos) (Vector.y pos))
                           (PyQtBackend.point_size self * 0.5)
                           (QPen_of_style NoPen)
                           (QBrush_of_color qt_color SolidPattern))
                   ∅)) in
         draw_point pos properties self
         = (Return tt, PyQtBackend.set__scene (Some (addItem item scene)) self1)
         /\ items (addItem item scene) = items scene ++ [item])
  /\ forall properties',
      Properties.color properties' = Properties.color properties ->
      draw_point pos properties' self = draw_point pos properties self.
Proof.
  intros Hscene Hvalid. split.
  - destruct (_get_color_returns _ self Hvalid) as (qt_color & self1 & E).
    exists qt_color, self1. split; [exact E |].
    destruct (_get_color_frame _ _ _ _ E) as (Hs & Hp & He & Hst).
    cbn zeta. split; [| reflexivity].
    unfold draw_point, _set_item_data, scene_attr, update_scene, new__Point.
    run_monad. rewrite E, Hs, Hp, He, Hst, Hscene. cbn.
    now rewrite Hs, Hscene, slice_to_minus_one.
  - intros properties' Hcolor. unfold draw_point. now rewrite Hcolor.
Qed.

(** C8.  While [show_hatch] is zero, a filled region draw call returns at
    once: no error, and the state of the backend, its scene included, is as
    before, whatever the paths, the holes and the properties are. *)
Theorem hatch_hidden_draws_nothing (self : PyQtBackend.t) (paths holes : list Path.t)
    (properties : Properties.t) :
  PyQtBackend.show_hatch self = 0%Z ->
  draw_filled_paths paths holes properties self = (Return tt, self).
Proof.
  intros Hshow. unfold draw_filled_paths. run_monad. now rewrite Hshow.
Qed.

(** C7.  For a text that is empty after stripping whitespace, [draw_text]
    returns at once with no error and [get_text_line_width] returns 0; the
    state of the backend is as before in both cases: the scene has no new
    item and the text renderer has shaped nothing. *)
Theorem blank_text_is_skipped (self : PyQtBackend.t) (text : string)
    (transform : Matrix44.t) (properties : Properties.t) (cap_height : Q)
    (font : option Font.t) :
  strip text = ""%string ->
  draw_text text transform properties cap_height self = (Return tt, self)
  /\ get_text_line_width text cap_height font self = (Return 0, self)
  /\ TextRenderer.addText_calls
       (PyQtBackend._text_renderer
          (snd (get_text_line_width text cap_height font self)))
     = TextRenderer.addText_calls (PyQtBackend._text_renderer self).
Proof.
  intros Hblank. unfold draw_text, get_text_line_width. rewrite Hblank. cbn.
  repeat split.
Qed.

End Primitives.

(** ** Text placement *)

Section TextPlacer.
Context `{Collaborators}.

Lemma get_text_path_returns text font renderer :
  exists path renderer', get_text_path text font renderer = (Return path, renderer').
Proof.
  unfold get_text_path. cbn zeta.
  destruct (default ∅ (TextRenderer._text_path_cache renderer !! hash_QFont font) !! text);
    eauto.
Qed.

Lemma get_text_rect_returns text font renderer :
  exists rect renderer', get_text_rect text font renderer = (Return rect, renderer').
Proof.
  unfold get_text_rect. run_monad.
  destruct (get_text_path_returns text font renderer) as (path & renderer' & ->).
  eauto.
Qed.

Lemma TextRenderer_get_font_measurements_returns font renderer :
  exists measurements renderer',
    TextRenderer_get_font_measurements font renderer = (Return measurements, renderer').
Proof.
  unfold TextRenderer_get_font_measurements. cbn zeta. unfold bind at 1, gets at 1.
  destruct (TextRenderer._font_measurement_cache renderer !! hash_QFont font);
    [unfold ret; eauto |].
  unfold bind at 1.
  destruct (get_text_rect_returns "X" font renderer) as (r1 & renderer1 & ->).
  unfold bind at 1.
  destruct (get_text_rect_returns "x" font renderer1) as (r2 & renderer2 & ->).
  unfold bind at 1.
  destruct (get_text_rect_returns "p" font renderer2) as (r3 & renderer3 & ->).
  run_monad. eauto.
Qed.

Lemma get_scale_divides desired_cap_height font renderer measurements renderer' :
  TextRenderer_get_font_measurements font renderer = (Return measurements, renderer') ->
  ~ FontMeasurements.cap_height measurements == 0 ->
  get_scale desired_cap_height font renderer
  = (Return (desired_cap_height / FontMeasurements.cap_height measurements), renderer').
Proof.
  intros E Hcap. unfold get_scale. run_monad. rewrite E.
  destruct (Qeq_bool (FontMeasurements.cap_height measurements) 0) eqn:Eb;
    [| reflexivity].
  apply Qeq_bool_iff in Eb. contradiction.
Qed.

(** The combined transform: a point is scaled, and its y negated, before
    the transform of the caller applies. *)
Lemma combined_transform_point (transform : Matrix44.t) (scale x y : Q) :
  let combined := Matrix44.matmul (Matrix44.scale scale (- scale) 0) transform in
  fst (map_point (_matrix_to_qtransform combined) x y)
  == fst (map_point (_matrix_to_qtransform transform) (scale * x) (- (scale * y)))
  /\ snd (map_point (_matrix_to_qtransform combined) x y)
     == snd (map_point (_matrix_to_qtransform transform) (scale * x) (- (scale * y))).
Proof.
  cbv [_matrix_to_qtransform Matrix44.get_2d_transformation map_point
       m11 m12 m13 m21 m22 m23 m31 m32 m33
       Matrix44.matmul Matrix44.scale Nat.eqb].
  change (Qeq_bool 0 0) with true. change (Qeq_bool 1 1) with true.
  cbn [andb fst snd]. split; ring.
Qed.

Lemma map_element_equiv (f g : Q -> Q -> Q * Q) (e : Element) :
  (forall x y, fst (f x y) == fst (g x y) /\ snd (f x y) == snd (g x y)) ->
  Element_equiv (map_element f e) (map_element g e).
Proof.
  intros Hfg. destruct e as [x y | x y | c1x c1y c2x c2y x y]; cbn [map_element].
  - destruct (Hfg x y) as [Hx Hy]. destruct (f x y), (g x y). now constructor.
  - destruct (Hfg x y) as [Hx Hy]. destruct (f x y), (g x y). now constructor.
  - destruct (Hfg c1x c1y) as [H1x H1y]. destruct (Hfg c2x c2y) as [H2x H2y].
    destruct (Hfg x y) as [Hx Hy].
    destruct (f c1x c1y), (g c1x c1y), (f c2x c2y), (g c2x c2y), (f x y), (g x y).
    now constructor.
Qed.

Lemma combined_transform_path (transform : Matrix44.t) (scale : Q) (outline : QPainterPath) :
  let combined := Matrix44.matmul (Matrix44.scale scale (- scale) 0) transform in
  Forall2 Element_equiv
    (qg.map (_matrix_to_qtransform combined) outline)
    (List.map
       (map_element
          (fun x y =>
             map_point (_matrix_to_qtransform transform) (scale * x) (- (scale * y))))
       outline).
Proof.
  intros combined. induction outline as [| e outline IH]; cbn [qg.map List.map];
    constructor.
  - apply map_element_equiv. intros x y. apply combined_transform_point.
  - exact IH.
Qed.

Lemma get_qfont_returns font self :
  exists qfont, get_qfont font self = (Return qfont, self).
Proof. unfold get_qfont. run_monad. destruct font; eauto. Qed.

Lemma _get_color_same_cache color self self' :
  PyQtBackend._color_cache self' = PyQtBackend._color_cache self ->
  PyQtBackend.QColor_count self' = PyQtBackend.QColor_count self ->
  fst (_get_color color self') = fst (_get_color color self).
Proof.
  intros Hc Hn. unfold _get_color. rewrite Hc, Hn.
  destruct (PyQtBackend._color_cache self !! color); [reflexivity |].
  destruct (String.length color =? 7)%nat; [reflexivity |].
  now destruct (String.length color =? 9)%nat.
Qed.

(** C6.  A draw call for a text that is not blank and that
    [prepare_string_for_rendering] accepts for the current entity (the call
    raises for a text of more than one line and for an entity that carries
    no text, and [draw_text] with it), on a backend with a scene and a valid
    color, and with a font whose measured cap height is not zero: the scale
    is the desired cap height divided by the cap height the text renderer
    measures for the resolved font (10 and 5 give exactly one half); the
    call adds one path item to the scene, the outline of the prepared text
    mapped through the transform [Matrix44.scale(scale, -scale, 0) @
    transform]; and every point of that path is the point of the outline
    scaled by the scale, its y negated, and then mapped by the transform of
    the caller. *)
Theorem text_scaled_and_placed (self : PyQtBackend.t) (text : string)
    (transform : Matrix44.t) (properties : Properties.t) (cap_height : Q)
    (entity : DXFGraphic.t) (scene : QGraphicsScene) (prepared : string) :
  truthy (strip text) = true ->
  PyQtBackend.current_entity self = Some entity ->
  prepare_string_for_rendering text (DXFGraphic.dxftype entity) = Return prepared ->
  PyQtBackend._scene self = Some scene ->
  String.length (Properties.color properties) = 7%nat
  \/ String.length (Properties.color properties) = 9%nat ->
  exists qfont measurements renderer1,
    get_qfont (Properties.font properties) self = (Return qfont, self)
    /\ TextRenderer_get_font_measurements qfont (PyQtBackend._text_renderer self)
       = (Return measurements, renderer1)
    /\ let scale := cap_height / FontMeasurements.cap_height measurements in
       (~ FontMeasurements.cap_height measurements == 0 ->
        get_scale cap_height qfont (PyQtBackend._text_renderer self)
        = (Return scale, renderer1)
        /\ (FontMeasurements.cap_height measurements == 10 -> cap_height == 5 ->
            scale == 0.5)
        /\ exists outline qt_color item self',
            fst (get_text_path prepared qfont renderer1) = Return outline
            /\ fst (_get_color (Properties.color properties) self) = Return qt_color
            /\ draw_text text transform properties cap_height self = (Return tt, self')
            /\ option_map items (PyQtBackend._scene self') = Some (items scene ++ [item])
            /\ let combined :=
                 Matrix44.matmul (Matrix44.scale scale (- scale) 0) transform in
               let path := qg.map (_matrix_to_qtransform combined) outline in
               shape item
               = QGraphicsPathItem path _no_line (QBrush_of_color qt_color SolidPattern)
               /\ Forall2 Element_equiv path
                    (List.map
                       (map_element
                          (fun x y =>
                             map_point (_matrix_to_qtransform transform)
                                       (scale * x) (- (scale * y))))
                       outline)).
Proof.
  intros Htext Hentity Hprepared Hscene Hvalid.
  destruct (get_qfont_returns (Properties.font properties) self) as (qfont & Eqfont).
  destruct (TextRenderer_get_font_measurements_returns
              qfont (PyQtBackend._text_renderer self))
    as (measurements & renderer1 & Emeasure).
  exists qfont, measurements, renderer1.
  split; [exact Eqfont |]. split; [exact Emeasure |].
  intros scale Hcap.
  pose proof (get_scale_divides cap_height _ _ _ _ Emeasure Hcap) as Escale.
  fold scale in Escale.
  split; [exact Escale |]. split.
  { intros H10 H5. unfold scale. rewrite H10, H5. reflexivity. }
  destruct (get_text_path_returns prepared qfont renderer1)
    as (outline & renderer2 & Epath).
  set (self2 := PyQtBackend.set__text_renderer renderer2
                  (PyQtBackend.set__text_renderer renderer1 self)).
  destruct (_get_color_returns _ self2 Hvalid) as (qt_color & self3 & Ecolor).
  destruct (_get_color_frame _ _ _ _ Ecolor) as (Hs & _ & He & Hst).
  eexists outline, qt_color, _, _.
  split; [now rewrite Epath |].
  split.
  { rewrite <- (_get_color_same_cache _ self self2) by reflexivity.
    now rewrite Ecolor. }
  split.
  { unfold draw_text. rewrite Htext. cbn [negb].
    unfold current_entity_dxftype. unfold bind at 1. unfold bind at 1, gets at 1.
    rewrite Hentity. unfold ret at 1.
    unfold bind at 1, of_outcome at 1. rewrite Hprepared.
    unfold bind at 1. rewrite Eqfont.
    unfold bind at 1, on_text_renderer at 1. rewrite Escale.
    unfold bind at 1, on_text_renderer at 1.
    cbn [PyQtBackend._text_renderer PyQtBackend.set__text_renderer].
    rewrite Epath. fold self2.
    unfold bind at 1, scene_attr at 1. change (PyQtBackend._scene self2) with (PyQtBackend._scene self).
    rewrite Hscene.
    unfold bind at 1. rewrite Ecolor.
    unfold add_with_item_data, _set_item_data, update_scene. run_monad.
    reflexivity. }
  cbn [PyQtBackend._scene PyQtBackend.set__scene].
  rewrite Hs. change (PyQtBackend._scene self2) with (PyQtBackend._scene self).
  rewrite Hscene. cbn [option_map items addItem].
  split; [reflexivity |]. cbn [shape setData].
  split; [reflexivity |]. apply combined_transform_path.
Qed.

End TextPlacer.

(** ** The theorems on concrete inputs *)

Section Concrete.
#[local] Existing Instance sample_collaborators.

Lemma reachable_after_dashed_line : reachable after_dashed_line.
Proof.
  unfold after_dashed_line.
  eapply reachable_call; [apply reachable_init | apply call_draw_line].
Qed.

(** C1 as stated fails.  With a linetype scaling of 2 and metric units the
    unit pattern factor is 30 * 2 = 60, not 30 / 2 = 15, and the pen of a
    property set with the pattern (1, 2) and a linetype scale of 1 gets the
    dashes (60, 120). *)
Lemma unit_pattern_factor_is_not_a_quotient :
  (1 < length (Properties.linetype_pattern (dashed_properties 1)))%nat
  /\ ~ PyQtBackend.linetype_scaling double_scaling_backend == 0
  /\ fst (_get_line_pattern_factor 0 double_scaling_backend) = Return 60
  /\ spec_unit_pattern_factor 2 0 == 15
  /\ (exists pen,
         fst (_get_pen (dashed_properties 1) double_scaling_backend) = Return pen
         /\ dashPattern pen = [60; 120])
  /\ ~ 1 * 60 == 1 * spec_unit_pattern_factor 2 0.
Proof.
  split; [cbn; lia |]. split; [intros E; vm_compute in E; discriminate |].
  split; [reflexivity |]. split; [reflexivity |]. split.
  - eexists. split; [vm_compute; reflexivity | reflexivity].
  - intros E. vm_compute in E. discriminate.
Qed.

(** C1, amended, on the backend with a linetype scaling of 2: the unit
    pattern factor is 30 * 2. *)
Lemma pen_dash_scale_witness :
  (1 < length (Properties.linetype_pattern (dashed_properties 1)))%nat
  /\ ~ PyQtBackend.linetype_scaling double_scaling_backend == 0
  /\ _get_line_pattern_factor 0 double_scaling_backend
     = (Return (30 * 2), double_scaling_backend).
Proof.
  assert (1 < length (Properties.linetype_pattern (dashed_properties 1)))%nat
    as Hlen by (cbn; lia).
  assert (~ PyQtBackend.linetype_scaling double_scaling_backend == 0) as Hknob
    by (intros E; vm_compute in E; discriminate).
  split; [exact Hlen |]. split; [exact Hknob |].
  destruct (pen_dash_scale double_scaling_backend (dashed_properties 1) Hlen Hknob)
    as (_ & E & _).
  exact E.
Defined.

(** C2 as stated fails.  The weight 406 is mapped to 50: 50.6 is truncated.
    Rounding 40.6 to 41 and adding 10 gives 51. *)
Lemma weight_406_is_truncated :
  _map_weight (WeightValue 406) = 50%Z /\ spec_weight_mapping 406 = 51%Z.
Proof. split; reflexivity. Qed.

(** C3 after a line has been drawn: three characters raise, seven resolve. *)
Lemma color_of_wrong_length_raises_witness :
  reachable after_dashed_line
  /\ _get_color "#12" after_dashed_line = (Raise (TypeError "#12"), after_dashed_line)
  /\ exists qt_color self',
      _get_color "#112233" after_dashed_line = (Return qt_color, self').
Proof.
  split; [exact reachable_after_dashed_line |].
  destruct (color_of_wrong_length_raises after_dashed_line "#12"
              reachable_after_dashed_line) as [Hwrong _].
  destruct (color_of_wrong_length_raises after_dashed_line "#112233"
              reachable_after_dashed_line) as [_ Hright].
  split.
  - apply Hwrong; cbn; discriminate.
  - apply Hright. left. reflexivity.
Defined.

(** C9 on a color of nine characters: the alpha field moves to the front. *)
Lemma color_resolution_is_cached_witness :
  reachable after_dashed_line
  /\ String.length "#11223344" = 9%nat
  /\ exists qt_color self1,
      _get_color "#11223344" after_dashed_line = (Return qt_color, self1)
      /\ _get_color "#11223344" self1 = (Return qt_color, self1)
      /\ name qt_color = "#44112233"%string.
Proof.
  split; [exact reachable_after_dashed_line |]. split; [reflexivity |].
  destruct (color_resolution_is_cached after_dashed_line "#11223344"
              reachable_after_dashed_line (or_intror eq_refl))
    as (qt_color & self1 & E1 & E2 & _ & _ & _ & Hname).
  exists qt_color, self1. split; [exact E1 |]. split; [exact E2 |].
  exact (Hname eq_refl).
Defined.

(** C5 at its failing input.  After a line with the pattern (1, 2) and the
    scale 30 has been drawn, the pattern resolved for (1, 2) and the scale
    30 * 2^61 is the cached (30, 60): the cache is keyed by the hash of
    (pattern, scale), and the hashes of the two scales are the same.  The
    lengths multiplied by the scale, which the claim asks for and which the
    code computes when the key is new, are (30 * 2^61, 60 * 2^61). *)
Lemma dash_pattern_cache_hash_collision :
  reachable after_dashed_line
  /\ hash_pattern_scale [1; 2] (two_to_61 * 30) = hash_pattern_scale [1; 2] 30
  /\ fst (_get_dash_pattern [1; 2] (two_to_61 * 30) after_dashed_line)
     = Return [30; 60]
  /\ spec_resolved_pattern (PyQtBackend.min_dash_length after_dashed_line)
                           [1; 2] (two_to_61 * 30)
     = [69175290276410818560; 138350580552821637120]
  /\ exists pen,
      fst (_get_pen (dashed_properties two_to_61) after_dashed_line) = Return pen
      /\ dashPattern pen = [30; 60].
Proof.
  split; [exact reachable_after_dashed_line |].
  split; [vm_compute; reflexivity |].
  split; [vm_compute; reflexivity |].
  split; [vm_compute; reflexivity |].
  eexists. split; [vm_compute; reflexivity | reflexivity].
Qed.

(** X25 on a pattern of three elements. *)
Lemma dash_pattern_resolved_witness :
  reachable after_dashed_line
  /\ exists dashes self',
      _get_dash_pattern [1; 2; 3] 2 after_dashed_line = (Return dashes, self')
      /\ Nat.Even (length dashes)
      /\ Forall (fun dash => PyQtBackend.min_dash_length after_dashed_line <= dash) dashes.
Proof.
  split; [exact reachable_after_dashed_line |].
  destruct (dash_pattern_resolved after_dashed_line [1; 2; 3] 2
              reachable_after_dashed_line)
    as (dashes & self' & E & Heven & Hfloor & _).
  exists dashes, self'. auto.
Defined.

(** C4 on a path of a line and a curve, and on a path with a segment of
    another kind between two lines. *)
Lemma path_segments_converted_witness :
  _extend_qt_path supported_path []
  = (Return tt,
     [MoveToElement 0 0; LineToElement 10 0; CurveToElement 10 5 5 10 0 10])
  /\ draw_path unsupported_path (plain_properties "#000000") sample_backend
     = (Raise (ValueError_unknown_path_command (OTHER_COMMAND (-1))), sample_backend).
Proof.
  split.
  - destruct (path_segments_converted sample_backend supported_path
                (plain_properties "#000000")) as [Hsupported _].
    assert (Forall (fun cmd => PathCmd.type cmd = LINE_TO \/ PathCmd.type cmd = CURVE_TO)
                   (Path.commands supported_path)) as Hall
      by (repeat constructor; cbn; auto).
    destruct (Hsupported Hall) as [Hextend _].
    exact (Hextend []).
  - destruct (path_segments_converted sample_backend unsupported_path
                (plain_properties "#000000")) as [_ Hunsupported].
    assert (Exists (fun cmd => PathCmd.type cmd <> LINE_TO /\ PathCmd.type cmd <> CURVE_TO)
                   (Path.commands unsupported_path)) as Hex
      by (apply Exists_cons_tl, Exists_cons_hd; cbn; split; discriminate).
    destruct (Hunsupported Hex) as (type & Hfirst & _ & _ & _ & Hdraw).
    vm_compute in Hfirst. injection Hfirst as <-. exact Hdraw.
Defined.

(** C10: a dashed and a plain property set of the same color give the same
    point. *)
Lemma point_drawn_as_one_item_witness :
  PyQtBackend._scene sample_backend = Some sample_scene
  /\ String.length (Properties.color (dashed_properties 1)) = 7%nat
  /\ draw_point east (plain_properties "#000000") sample_backend
     = draw_point east (dashed_properties 1) sample_backend.
Proof.
  split; [reflexivity |]. split; [reflexivity |].
  destruct (point_drawn_as_one_item sample_backend east (dashed_properties 1)
              sample_scene eq_refl (or_introl eq_refl)) as [_ Hsame].
  apply Hsame. reflexivity.
Defined.

(** C8 on paths and holes that are not empty. *)
Lemma hatch_hidden_draws_nothing_witness :
  PyQtBackend.show_hatch hidden_hatch_backend = 0%Z
  /\ draw_filled_paths [supported_path] [unsupported_path]
                       (plain_properties "#000000") hidden_hatch_backend
     = (Return tt, hidden_hatch_backend).
Proof.
  split; [reflexivity |].
  apply (hatch_hidden_draws_nothing hidden_hatch_backend). reflexivity.
Defined.

(** C7 on a text of two spaces, with a color that is not valid. *)
Lemma blank_text_is_skipped_witness :
  strip "  " = ""%string
  /\ draw_text "  " shift_100 (plain_properties "#12") 5 sample_backend
     = (Return tt, sample_backend)
  /\ get_text_line_width "  " 5 None sample_backend = (Return 0, sample_backend).
Proof.
  split; [reflexivity |].
  destruct (blank_text_is_skipped sample_backend "  " shift_100
              (plain_properties "#12") 5 None eq_refl) as (Hdraw & Hwidth & _).
  split; [exact Hdraw | exact Hwidth].
Defined.

(** C6 on the text "ab": the font of boxes has a cap height of 10. *)
Lemma text_scaled_and_placed_witness :
  truthy (strip "ab") = true
  /\ PyQtBackend.current_entity text_backend = Some (DXFGraphic.make 1 "TEXT")
  /\ prepare_string_for_rendering "ab" "TEXT" = Return "ab"%string
  /\ PyQtBackend._scene text_backend = Some sample_scene
  /\ String.length (Properties.color (plain_properties "#112233")) = 7%nat
  /\ exists self',
      draw_text "ab" shift_100 (plain_properties "#112233") 5 text_backend
      = (Return tt, self').
Proof.
  split; [reflexivity |]. split; [reflexivity |]. split; [reflexivity |].
  split; [reflexivity |]. split; [reflexivity |].
  destruct (@text_scaled_and_placed sample_collaborators text_backend "ab" shift_100
              (plain_properties "#112233") 5 (DXFGraphic.make 1 "TEXT") sample_scene
              "ab" eq_refl eq_refl eq_refl eq_refl (or_introl eq_refl))
    as (qfont & measurements & renderer1 & Eqfont & Emeasure & Hplaced).
  vm_compute in Eqfont. injection Eqfont as <-.
  vm_compute in Emeasure. injection Emeasure as <- <-.
  assert (~ FontMeasurements.cap_height (FontMeasurements.make 0 10 10 0) == 0) as Hcap
    by (intros E; vm_compute in E; discriminate).
  destruct (Hplaced Hcap)
    as (_ & _ & outline & qt_color & item & self' & _ & _ & Hdraw & _).
  exists self'. exact Hdraw.
Defined.

End Concrete.

(** ** Methods and any part of the state

    A property of the state that the writes of the methods keep is kept by
    every call. *)

Section GeneralFrame.
Context `{Collaborators}.
Variable P : PyQtBackend.t -> Prop.
Hypothesis P_scene : forall scene self, P self -> P (PyQtBackend.set__scene scene self).
Hypothesis P_entity :
  forall entity stack self, P self -> P (PyQtBackend.set_entity entity stack self).
Hypothesis P_renderer :
  forall A (m : M TextRenderer.t A),
    renderer_method m -> preserves P (on_text_renderer m).
Hypothesis P_color : forall color, preserves P (_get_color color).
Hypothesis P_dash_pattern :
  forall pattern scale, preserves P (_get_dash_pattern pattern scale).

Lemma kept_by_update_scene f : preserves P (update_scene f).
Proof. intros self HP. cbn. now apply P_scene. Qed.

Lemma kept_by_add_with_item_data shape : preserves P (add_with_item_data shape).
Proof.
  unfold add_with_item_data, _set_item_data.
  repeat (apply preserves_bind; [| intros ?]);
    try apply preserves_gets; try apply preserves_ret.
  apply kept_by_update_scene.
Qed.

Ltac kept_step :=
  lazymatch goal with
  | |- preserves _ (bind _ _) => apply preserves_bind; [| intros ?]
  | |- preserves _ (ret _) => apply preserves_ret
  | |- preserves _ (raise _) => apply preserves_raise
  | |- preserves _ (gets _) => apply preserves_gets
  | |- preserves _ (of_outcome _) => apply preserves_of_outcome
  | |- preserves _ (scene_attr _) => apply preserves_scene_attr
  | |- preserves _ (update_scene _) => apply kept_by_update_scene
  | |- preserves _ (add_with_item_data _) => apply kept_by_add_with_item_data
  | |- preserves _ (on_text_renderer _) => apply P_renderer; constructor
  | |- preserves _ (on_new_path _) => apply preserves_on_new_path
  | |- preserves _ (_get_color _) => apply P_color
  | |- preserves _ (_get_pen _) => apply preserves__get_pen; assumption
  | |- preserves _ (_get_brush _) => apply preserves__get_brush; assumption
  | |- preserves _ (get_qfont _) => apply preserves_get_qfont
  | |- preserves _ (if ?b then _ else _) => destruct b
  | |- preserves _ (match ?x with _ => _ end) => destruct x
  end.

Lemma kept_by_call self self' : call self self' -> P self -> P self'.
Proof.
  intros Hcall. destruct Hcall;
    try match goal with
        | |- P ?s -> P (snd (?m ?s)) => revert s; change (preserves P m)
        end.
  - intros self HP. cbn. now apply P_scene.
  - unfold clear_text_cache. kept_step.
  - unfold set_background. repeat kept_step.
  - unfold draw_point, _set_item_data. repeat kept_step.
  - unfold draw_line. repeat kept_step.
  - unfold draw_path. repeat kept_step.
  - unfold draw_filled_paths. repeat kept_step.
  - unfold draw_filled_polygon. repeat kept_step.
  - unfold draw_text, current_entity_dxftype. repeat kept_step.
  - unfold get_font_measurements. repeat kept_step. intros self' HP. exact HP.
  - unfold get_text_line_width. repeat kept_step.
  - unfold clear. repeat kept_step.
  - unfold finalize. repeat kept_step.
  - intros HP. now apply P_entity.
Qed.

Lemma kept_by_calls self self' : rtc call self self' -> P self -> P self'.
Proof.
  induction 1 as [| self self1 self2 Hcall _ IH]; [trivial |].
  intros HP. apply IH. now apply (kept_by_call self).
Qed.

End GeneralFrame.

(** ** More on styles and caches *)

Section MoreStyle.
Context `{Collaborators}.

Lemma _get_color_keeps color self :
  let self' := snd (_get_color color self) in
  configuration self' = configuration self
  /\ drawing_context self' = drawing_context self
  /\ PyQtBackend._text_renderer self' = PyQtBackend._text_renderer self
  /\ PyQtBackend._dash_pattern_cache self' = PyQtBackend._dash_pattern_cache self.
Proof.
  destruct (_get_color_cases color self)
    as [(q & _ & ->) | [(_ & _ & ->) | (_ & _ & ->)]]; now repeat split.
Qed.

Lemma _get_dash_pattern_keeps pattern scale self :
  let self' := snd (_get_dash_pattern pattern scale self) in
  configuration self' = configuration self
  /\ drawing_context self' = drawing_context self
  /\ PyQtBackend._text_renderer self' = PyQtBackend._text_renderer self
  /\ PyQtBackend._color_cache self' = PyQtBackend._color_cache self
  /\ PyQtBackend.QColor_count self' = PyQtBackend.QColor_count self.
Proof.
  destruct (_get_dash_pattern_cases pattern scale self)
    as [(d & _ & ->) | (_ & ->)]; now repeat split.
Qed.

Lemma _get_dash_pattern_returns pattern scale self :
  exists dashes self', _get_dash_pattern pattern scale self = (Return dashes, self').
Proof.
  destruct (_get_dash_pattern_cases pattern scale self)
    as [(d & _ & E) | (_ & E)]; eauto.
Qed.

(** What [_get_pen] leaves as it is. *)
Lemma _get_pen_keeps properties self :
  let self' := snd (_get_pen properties self) in
  configuration self' = configuration self
  /\ drawing_context self' = drawing_context self
  /\ PyQtBackend._text_renderer self' = PyQtBackend._text_renderer self.
Proof.
  cbn zeta.
  apply (preserves__get_pen
           (fun s => configuration s = configuration self
                     /\ drawing_context s = drawing_context self
                     /\ PyQtBackend._text_renderer s = PyQtBackend._text_renderer self)).
  - intros color s (H1 & H2 & H3).
    destruct (_get_color_keeps color s) as (E1 & E2 & E3 & _).
    cbn zeta in *. now rewrite E1, E2, E3.
  - intros pattern scale s (H1 & H2 & H3).
    destruct (_get_dash_pattern_keeps pattern scale s) as (E1 & E2 & E3 & _).
    cbn zeta in *. now rewrite E1, E2, E3.
  - now repeat split.
Qed.

(** With a valid color [_get_pen] returns a pen. *)
Lemma _get_pen_returns properties self :
  String.length (Properties.color properties) = 7%nat
  \/ String.length (Properties.color properties) = 9%nat ->
  exists pen self', _get_pen properties self = (Return pen, self').
Proof.
  intros Hvalid. unfold _get_pen, _get_line_pattern_factor. run_monad.
  destruct (_get_color_returns _ self Hvalid) as (q & self1 & ->).
  destruct (_ && _); [| eauto].
  match goal with
  | |- context [_get_dash_pattern ?p ?s ?st] =>
      destruct (_get_dash_pattern_returns p s st) as (d & self2 & ->)
  end.
  eauto.
Qed.

(** X1.  No call changes the configuration of the backend: the point size,
    the three scalings, the minimum dash length, the hatch flag and the
    debug flag stay as the constructor set them. *)
Theorem configuration_is_fixed (self self' : PyQtBackend.t) :
  rtc call self self' -> configuration self' = configuration self.
Proof.
  intros Hcalls.
  apply (kept_by_calls (fun s => configuration s = configuration self) )
    with (self := self); trivial.
  - intros A m _ s Hs. unfold on_text_renderer.
    destruct (m (PyQtBackend._text_renderer s)). exact Hs.
  - intros color s Hs. destruct (_get_color_keeps color s) as (E & _).
    cbn zeta in E. now rewrite E.
  - intros pattern scale s Hs.
    destruct (_get_dash_pattern_keeps pattern scale s) as (E & _).
    cbn zeta in E. now rewrite E.
Qed.

(** X2.  Once a dash pattern has been resolved, resolving the same pattern
    with the same scale returns the same dashes after any further calls, and
    the call changes nothing: the entries of the dash pattern cache are
    never removed or replaced. *)
Theorem dash_pattern_is_stable (self self1 self2 : PyQtBackend.t)
    (pattern : list Q) (scale : Q) (dashes : list Q) :
  _get_dash_pattern pattern scale self = (Return dashes, self1) ->
  rtc call self1 self2 ->
  _get_dash_pattern pattern scale self2 = (Return dashes, self2).
Proof.
  intros E Hcalls.
  set (key := hash_pattern_scale pattern scale).
  assert (PyQtBackend._dash_pattern_cache self1 !! key = Some dashes) as Hentry.
  { destruct (_get_dash_pattern_cases pattern scale self)
      as [(d & Hd & E') | (_ & E')]; cbn zeta in E'; rewrite E' in E;
      injection E as <- <-; [exact Hd |].
    cbn. now rewrite lookup_insert_eq. }
  assert (PyQtBackend._dash_pattern_cache self2 !! key = Some dashes) as Hentry2.
  { revert Hentry.
    apply (kept_by_calls
             (fun s => PyQtBackend._dash_pattern_cache s !! key = Some dashes))
      with (self := self1); trivial.
    - intros A m _ s Hs. unfold on_text_renderer.
      destruct (m (PyQtBackend._text_renderer s)). exact Hs.
    - intros color s Hs. destruct (_get_color_keeps color s) as (_ & _ & _ & E').
      cbn zeta in E'. now rewrite E'.
    - intros pattern' scale' s Hs.
      destruct (_get_dash_pattern_cases pattern' scale' s)
        as [(d & _ & ->) | (Hnone & ->)]; cbn; trivial.
      rewrite lookup_insert_ne; [exact Hs |]. intros Heq.
      fold key in Hs. rewrite <- Heq in Hs. congruence. }
  unfold _get_dash_pattern. cbn zeta. fold key. now rewrite Hentry2.
Qed.

(** X3.  A property set without filling gets the no-fill brush: the color is
    not resolved, so a malformed color raises nothing and the state is as
    before.  A filled one with a valid color gets a solid brush in the
    resolved color, and with a color of another length the error of the
    color resolver, in every state the backend reaches. *)
Theorem brush_follows_filling (self : PyQtBackend.t) (properties : Properties.t) :
  (Properties.filling properties = false ->
   _get_brush properties self = (Return _no_fill, self))
  /\ (Properties.filling properties = true ->
      String.length (Properties.color properties) = 7%nat
      \/ String.length (Properties.color properties) = 9%nat ->
      exists qt_color self',
        _get_color (Properties.color properties) self = (Return qt_color, self')
        /\ _get_brush properties self
           = (Return (QBrush_of_color qt_color SolidPattern), self'))
  /\ (Properties.filling properties = true ->
      reachable self ->
      String.length (Properties.color properties) <> 7%nat ->
      String.length (Properties.color properties) <> 9%nat ->
      _get_brush properties self
      = (Raise (TypeError (Properties.color properties)), self)).
Proof.
  unfold _get_brush. split; [| split].
  - intros ->. reflexivity.
  - intros -> Hvalid.
    destruct (_get_color_returns _ self Hvalid) as (q & self' & E).
    exists q, self'. split; [exact E |]. run_monad. now rewrite E.
  - intros -> Hreach H7 H9. apply reachable_caches_ok in Hreach.
    destruct Hreach as [Hc _]. run_monad.
    destruct (_get_color_cases (Properties.color properties) self)
      as [(q & Hq & _) | [(_ & Hvalid & _) | (_ & _ & ->)]]; [| | reflexivity].
    + destruct (Hc _ q Hq) as ([? | ?] & _); contradiction.
    + destruct Hvalid; contradiction.
Qed.

(** X4.  When the dash pattern of the property set has at most one element,
    or the linetype scaling of the backend is zero, the pen is a solid line:
    cosmetic, with round joins, the width [lineweight / 0.3527 *
    lineweight_scaling] and the resolved color; no dash pattern is resolved
    and the dash pattern cache is as before. *)
Theorem pen_without_dashes (self : PyQtBackend.t) (properties : Properties.t) :
  (length (Properties.linetype_pattern properties) <= 1)%nat
  \/ PyQtBackend.linetype_scaling self == 0 ->
  String.length (Properties.color properties) = 7%nat
  \/ String.length (Properties.color properties) = 9%nat ->
  exists qt_color self',
    _get_color (Properties.color properties) self = (Return qt_color, self')
    /\ _get_pen properties self
       = (Return
            (mkQPen SolidLine (Some qt_color)
                    (Properties.lineweight properties / 0.3527
                     * PyQtBackend.lineweight_scaling self)
                    true RoundJoin []),
          self')
    /\ PyQtBackend._dash_pattern_cache self' = PyQtBackend._dash_pattern_cache self.
Proof.
  intros Hsolid Hvalid.
  destruct (_get_color_returns _ self Hvalid) as (q & self' & E).
  exists q, self'. split; [exact E |].
  destruct (_get_color_keeps (Properties.color properties) self) as (Hcfg & _ & _ & Hd).
  rewrite E in Hcfg, Hd. cbn [snd] in Hcfg, Hd.
  split; [| exact Hd].
  assert (PyQtBackend.linetype_scaling self' = PyQtBackend.linetype_scaling self) as Hls
    by (unfold configuration in Hcfg; congruence).
  unfold _get_pen. run_monad. rewrite E, Hls.
  assert ((1 <? length (Properties.linetype_pattern properties))%nat
          && negb (Qeq_bool (PyQtBackend.linetype_scaling self) 0) = false) as ->.
  { destruct Hsolid as [Hlen | Hzero].
    - apply Nat.ltb_ge in Hlen. now rewrite Hlen.
    - apply Qeq_bool_iff in Hzero. rewrite Hzero. apply andb_false_r. }
  reflexivity.
Qed.

(** X5.  In every state the backend reaches, every key of the color cache
    is a string of length 7 or 9 and its color was constructed from the
    alpha-first form of the key, and every pattern in the dash pattern cache
    has even length and no value below the minimum dash length. *)
Theorem caches_hold_resolved_values (self : PyQtBackend.t) :
  reachable self ->
  (forall color qt_color,
      PyQtBackend._color_cache self !! color = Some qt_color ->
      (String.length color = 7%nat \/ String.length color = 9%nat)
      /\ name qt_color = alpha_first color)
  /\ (forall hash_key dashes,
        PyQtBackend._dash_pattern_cache self !! hash_key = Some dashes ->
        Nat.Even (length dashes)
        /\ Forall (fun dash => PyQtBackend.min_dash_length self <= dash) dashes).
Proof.
  intros Hreach. apply reachable_caches_ok in Hreach. destruct Hreach as [Hc Hd].
  split.
  - intros color q Hq. destruct (Hc color q Hq) as (Hvalid & Hname & _). now split.
  - intros key dashes Hdashes.
    destruct (Hd key dashes Hdashes) as (pattern & scale & _ & ->). split.
    + apply Nat.even_spec, spec_resolved_pattern_even.
    + apply spec_resolved_pattern_floor.
Qed.

(** X6.  The mapped font weight is always between 0 and 99, it never
    decreases when the weight grows, it is at least 10 for a weight that is
    not negative, and it is 99 for every weight from 890 on. *)
Theorem map_weight_is_bounded_and_monotone (value value' : Z) :
  (0 <= _map_weight (WeightValue value) <= 99)%Z
  /\ ((value <= value')%Z ->
      (_map_weight (WeightValue value) <= _map_weight (WeightValue value'))%Z)
  /\ ((0 <= value)%Z -> (10 <= _map_weight (WeightValue value))%Z)
  /\ ((890 <= value)%Z -> _map_weight (WeightValue value) = 99%Z).
Proof.
  destruct (_map_weight_floor (WeightValue value)) as (_ & ->).
  destruct (_map_weight_floor (WeightValue value')) as (_ & ->).
  split; [lia |]. split; [| split].
  - intros Hle. assert (value / 10 <= value' / 10)%Z by (apply Z.div_le_mono; lia).
    lia.
  - intros Hpos. assert (0 <= value / 10)%Z by (apply Z.div_pos; lia). lia.
  - intros Hbig. assert (89 <= value / 10)%Z by (apply Z.div_le_lower_bound; lia).
    lia.
Qed.

End MoreStyle.

(** ** More on the text renderer *)

Section MoreText.
Context `{Collaborators}.

Lemma set_text_path_cache_same (self : TextRenderer.t) :
  TextRenderer.set_text_path_cache (TextRenderer._text_path_cache self) self = self.
Proof. now destruct self. Qed.

Lemma set__text_renderer_same (self : PyQtBackend.t) :
  PyQtBackend.set__text_renderer (PyQtBackend._text_renderer self) self = self.
Proof. now destruct self. Qed.

(** [get_text_path] when the outline is cached: nothing changes. *)
Lemma get_text_path_hit text font self path :
  cached_outlines font self !! text = Some path ->
  get_text_path text font self = (Return path, self).
Proof.
  unfold cached_outlines, get_text_path. cbn zeta. intros Hhit. rewrite Hhit.
  destruct (TextRenderer._text_path_cache self !! hash_QFont font) as [cache |] eqn:E.
  - cbn [default]. rewrite insert_id by exact E. now rewrite set_text_path_cache_same.
  - cbn [default] in Hhit. now rewrite lookup_empty in Hhit.
Qed.

(** [get_text_path] when the outline is not cached: the text is shaped, and
    the outline is stored when the cache is in use. *)
Lemma get_text_path_miss text font self :
  cached_outlines font self !! text = None ->
  exists self',
    get_text_path text font self = (Return (addText font text), self')
    /\ TextRenderer.addText_calls self' = S (TextRenderer.addText_calls self)
    /\ TextRenderer._use_cache self' = TextRenderer._use_cache self
    /\ TextRenderer._default_font self' = TextRenderer._default_font self
    /\ TextRenderer._font_measurement_cache self'
       = TextRenderer._font_measurement_cache self
    /\ TextRenderer._text_path_cache self'
       = <[hash_QFont font :=
             if TextRenderer._use_cache self
             then <[text := addText font text]> (cached_outlines font self)
             else cached_outlines font self]>
           (TextRenderer._text_path_cache self).
Proof.
  unfold cached_outlines, get_text_path. cbn zeta. intros Hmiss. rewrite Hmiss.
  eexists. split; [reflexivity |]. now repeat split.
Qed.

(** What [get_text_path] leaves as it is. *)
Lemma get_text_path_keeps text font self :
  let self' := snd (get_text_path text font self) in
  TextRenderer._use_cache self' = TextRenderer._use_cache self
  /\ TextRenderer._default_font self' = TextRenderer._default_font self
  /\ TextRenderer._font_measurement_cache self'
     = TextRenderer._font_measurement_cache self.
Proof.
  cbn zeta. destruct (cached_outlines font self !! text) as [path |] eqn:E.
  - now rewrite (get_text_path_hit _ _ _ _ E).
  - destruct (get_text_path_miss _ _ _ E) as (self' & -> & _ & H1 & H2 & H3 & _).
    now repeat split.
Qed.

(** A property of the renderer kept by shaping, clearing and storing
    measurements is kept by every method of the renderer. *)
Lemma kept_by_renderer_method (Q : TextRenderer.t -> Prop) :
  (forall text font self, Q self -> Q (snd (get_text_path text font self))) ->
  (forall self, Q self -> Q (TextRenderer.set_text_path_cache ∅ self)) ->
  (forall key measurements self,
      TextRenderer._font_measurement_cache self !! key = None ->
      Q self ->
      Q (TextRenderer.set_font_measurement_cache
           (<[key := measurements]> (TextRenderer._font_measurement_cache self)) self)) ->
  forall A (m : M TextRenderer.t A) self, renderer_method m -> Q self -> Q (snd (m self)).
Proof.
  intros Hpath Hclear Hstore.
  assert (forall text font self, Q self -> Q (snd (get_text_rect text font self)))
    as Hrect.
  { intros text font self HQ. unfold get_text_rect. run_monad.
    specialize (Hpath text font self HQ).
    now destruct (get_text_path text font self) as [[p | e] self']. }
  assert (forall text font self,
             TextRenderer._font_measurement_cache (snd (get_text_rect text font self))
             = TextRenderer._font_measurement_cache self) as Hrect_fmc.
  { intros text font self. unfold get_text_rect. run_monad.
    destruct (get_text_path_keeps text font self) as (_ & _ & E).
    now destruct (get_text_path text font self) as [[p | e] self']. }
  assert (forall font self,
             Q self -> Q (snd (TextRenderer_get_font_measurements font self)))
    as Hmeasure.
  { intros font self HQ. unfold TextRenderer_get_font_measurements. cbn zeta.
    unfold bind at 1, gets at 1.
    destruct (TextRenderer._font_measurement_cache self !! hash_QFont font) eqn:E;
      [exact HQ |].
    pose proof (Hrect "X" font self HQ) as H1.
    pose proof (Hrect_fmc "X" font self) as F1.
    unfold bind at 1.
    destruct (get_text_rect_returns "X" font self) as (r1 & self1 & E1).
    rewrite E1 in *. cbn [snd] in *.
    pose proof (Hrect "x" font self1 H1) as H2.
    pose proof (Hrect_fmc "x" font self1) as F2.
    unfold bind at 1.
    destruct (get_text_rect_returns "x" font self1) as (r2 & self2 & E2).
    rewrite E2 in *. cbn [snd] in *.
    pose proof (Hrect "p" font self2 H2) as H3.
    pose proof (Hrect_fmc "p" font self2) as F3.
    unfold bind at 1.
    destruct (get_text_rect_returns "p" font self2) as (r3 & self3 & E3).
    rewrite E3 in *. cbn [snd] in *.
    run_monad. apply Hstore; [| exact H3]. congruence. }
  intros A m self Hm HQ. destruct Hm.
  - now apply Hclear.
  - unfold get_scale. run_monad.
    specialize (Hmeasure font self HQ).
    destruct (TextRenderer_get_font_measurements font self) as [[ms | e] self'];
      [| exact Hmeasure].
    now destruct (Qeq_bool _ 0).
  - now apply Hpath.
  - now apply Hrect.
  - now apply Hmeasure.
Qed.

(** X7.  With the text cache in use, the outline of a text in a font is
    shaped at most once: the first request shapes it unless it is cached,
    and the same request made again returns the same outline, shapes nothing
    and leaves the renderer as it is. *)
Theorem text_path_is_cached (self : TextRenderer.t) (text : string) (font : QFont) :
  TextRenderer._use_cache self = true ->
  exists path self1,
    get_text_path text font self = (Return path, self1)
    /\ (TextRenderer.addText_calls self1 <= S (TextRenderer.addText_calls self))%nat
    /\ (cached_outlines font self !! text = None -> path = addText font text)
    /\ get_text_path text font self1 = (Return path, self1).
Proof.
  intros Huse. destruct (cached_outlines font self !! text) as [path |] eqn:E.
  - exists path, self. rewrite (get_text_path_hit _ _ _ _ E).
    repeat split; auto; discriminate.
  - destruct (get_text_path_miss _ _ _ E) as (self1 & E1 & Hcalls & _ & _ & _ & Hcache).
    exists (addText font text), self1. rewrite E1, Hcalls. repeat split; auto.
    apply get_text_path_hit. unfold cached_outlines at 1.
    rewrite Hcache, Huse, lookup_insert_eq. cbn [default]. apply lookup_insert_eq.
Qed.

Lemma stores_no_outline_miss font self text :
  stores_no_outline self -> cached_outlines font self !! text = None.
Proof.
  intros Hno. unfold cached_outlines.
  destruct (TextRenderer._text_path_cache self !! hash_QFont font) as [cache |] eqn:E;
    cbn; [rewrite (Hno _ _ E) |]; now rewrite lookup_empty.
Qed.

(** X8.  After any calls on a backend constructed without the text cache,
    the renderer holds no outline, and every request for an outline shapes
    the text: the result is the fresh outline and the count of shaped texts
    grows by one. *)
Theorem text_path_is_not_retained (scene : option QGraphicsScene)
    (point_radius : option Q) (debug_draw_rect : bool) (params : Params)
    (self : PyQtBackend.t) (text : string) (font : QFont) :
  rtc call (__init__ scene point_radius false debug_draw_rect params) self ->
  let renderer := PyQtBackend._text_renderer self in
  stores_no_outline renderer
  /\ exists renderer',
      get_text_path text font renderer = (Return (addText font text), renderer')
      /\ TextRenderer.addText_calls renderer' = S (TextRenderer.addText_calls renderer)
      /\ stores_no_outline renderer'.
Proof.
  intros Hcalls renderer.
  pose (Q := fun r => TextRenderer._use_cache r = false /\ stores_no_outline r).
  assert (forall text font r, Q r -> Q (snd (get_text_path text font r))) as Hpath.
  { intros t f r [Huse Hno].
    destruct (get_text_path_miss t f r (stores_no_outline_miss f r t Hno))
      as (r' & -> & _ & Huse' & _ & _ & Hcache). cbn [snd].
    split; [congruence |]. intros key cache. rewrite Hcache, Huse.
    destruct (decide (hash_QFont f = key)) as [<- | Hne].
    - rewrite lookup_insert_eq. intros [= <-]. unfold cached_outlines.
      destruct (TextRenderer._text_path_cache r !! hash_QFont f) as [c |] eqn:E;
        cbn [default]; [exact (Hno _ _ E) | reflexivity].
    - rewrite lookup_insert_ne by exact Hne. apply Hno. }
  assert (Q renderer) as [Huse Hno].
  { apply (kept_by_calls (fun s => Q (PyQtBackend._text_renderer s)))
      with (self := __init__ scene point_radius false debug_draw_rect params);
      trivial.
    - intros A m Hm s HQ. unfold on_text_renderer.
      pose proof (kept_by_renderer_method Q) as Hkept.
      specialize (Hkept Hpath).
      assert (Q (snd (m (PyQtBackend._text_renderer s)))) as HQ'.
      { apply Hkept; trivial.
        intros r [Hu _]. split; [exact Hu |]. intros key cache. cbn.
        now rewrite lookup_empty. }
      now destruct (m (PyQtBackend._text_renderer s)).
    - intros color s HQ. destruct (_get_color_keeps color s) as (_ & _ & E & _).
      cbn zeta in E. now rewrite E.
    - intros pattern scale s HQ.
      destruct (_get_dash_pattern_keeps pattern scale s) as (_ & _ & E & _).
      cbn zeta in E. now rewrite E.
    - split; [reflexivity |]. intros key cache. cbn. now rewrite lookup_empty. }
  split; [exact Hno |].
  destruct (get_text_path_miss text font renderer
              (stores_no_outline_miss font renderer text Hno))
    as (r' & E & Hcalls' & _).
  exists r'. split; [exact E |]. split; [exact Hcalls' |].
  specialize (Hpath text font renderer (conj Huse Hno)). rewrite E in Hpath.
  apply Hpath.
Qed.

End MoreText.

(** ** Font measurements and text width *)

Section Measurements.
Context `{Collaborators}.

Lemma get_text_rect_of_path text font self path self' :
  get_text_path text font self = (Return path, self') ->
  get_text_rect text font self = (Return (boundingRect path), self').
Proof. intros E. unfold get_text_rect. run_monad. now rewrite E. Qed.

(** What a call of the measuring method of the renderer does. *)
Lemma measurements_cases font self :
  let key := hash_QFont font in
  (exists measurements,
      TextRenderer._font_measurement_cache self !! key = Some measurements
      /\ TextRenderer_get_font_measurements font self = (Return measurements, self))
  \/ (TextRenderer._font_measurement_cache self !! key = None
      /\ exists measurements self',
          TextRenderer_get_font_measurements font self = (Return measurements, self')
          /\ TextRenderer._font_measurement_cache self'
             = <[key := measurements]> (TextRenderer._font_measurement_cache self)).
Proof.
  cbn zeta.
  destruct (TextRenderer._font_measurement_cache self !! hash_QFont font)
    as [measurements |] eqn:E.
  - left. exists measurements. split; [reflexivity |].
    unfold TextRenderer_get_font_measurements. cbn zeta.
    unfold bind at 1, gets at 1. now rewrite E.
  - right. split; [reflexivity |].
    unfold TextRenderer_get_font_measurements. cbn zeta.
    unfold bind at 1, gets at 1. rewrite E.
    destruct (get_text_path_returns "X" font self) as (p1 & self1 & E1).
    destruct (get_text_path_returns "x" font self1) as (p2 & self2 & E2).
    destruct (get_text_path_returns "p" font self2) as (p3 & self3 & E3).
    destruct (get_text_path_keeps "X" font self) as (_ & _ & F1).
    destruct (get_text_path_keeps "x" font self1) as (_ & _ & F2).
    destruct (get_text_path_keeps "p" font self2) as (_ & _ & F3).
    rewrite E1 in F1. rewrite E2 in F2. rewrite E3 in F3. cbn [snd] in F1, F2, F3.
    unfold bind at 1. rewrite (get_text_rect_of_path _ _ _ _ _ E1).
    unfold bind at 1. rewrite (get_text_rect_of_path _ _ _ _ _ E2).
    unfold bind at 1. rewrite (get_text_rect_of_path _ _ _ _ _ E3).
    run_monad. eexists _, _. split; [reflexivity |]. cbn. congruence.
Qed.

(** X9.  Clearing the text cache raises nothing and drops every cached
    outline, so the next request for any text shapes it again; the font
    measurements, the colors, the dash patterns, the configuration, the scene
    and the entity context stay as they are. *)
Theorem clear_text_cache_drops_outlines_only (self : PyQtBackend.t) :
  exists self',
    clear_text_cache self = (Return tt, self')
    /\ TextRenderer._text_path_cache (PyQtBackend._text_renderer self') = ∅
    /\ TextRenderer._font_measurement_cache (PyQtBackend._text_renderer self')
       = TextRenderer._font_measurement_cache (PyQtBackend._text_renderer self)
    /\ PyQtBackend._color_cache self' = PyQtBackend._color_cache self
    /\ PyQtBackend._dash_pattern_cache self' = PyQtBackend._dash_pattern_cache self
    /\ configuration self' = configuration self
    /\ drawing_context self' = drawing_context self
    /\ forall text font,
        exists renderer,
          get_text_path text font (PyQtBackend._text_renderer self')
          = (Return (addText font text), renderer)
          /\ TextRenderer.addText_calls renderer
             = S (TextRenderer.addText_calls (PyQtBackend._text_renderer self)).
Proof.
  eexists. split; [reflexivity |]. cbn. repeat split.
  intros text font.
  match goal with
  | |- context [get_text_path text font ?r] =>
      destruct (get_text_path_miss text font r) as (r' & E & Hcalls & _)
  end.
  { unfold cached_outlines. cbn. now rewrite lookup_empty. }
  exists r'. split; [exact E | exact Hcalls].
Qed.

(** X10.  The measurements of a font are taken once: after the renderer of
    the backend has measured a font, measuring it again returns the same
    measurements after any further calls, clearing the text cache included,
    and changes nothing, so no text is shaped for it. *)
Theorem font_measurements_are_memoized (self self1 self2 : PyQtBackend.t)
    (font : QFont) (measurements : FontMeasurements.t) :
  on_text_renderer (TextRenderer_get_font_measurements font) self
  = (Return measurements, self1) ->
  rtc call self1 self2 ->
  on_text_renderer (TextRenderer_get_font_measurements font) self2
  = (Return measurements, self2).
Proof.
  intros E Hcalls. set (key := hash_QFont font).
  pose (Q := fun r => TextRenderer._font_measurement_cache r !! key = Some measurements).
  assert (Q (PyQtBackend._text_renderer self1)) as Hentry.
  { unfold on_text_renderer in E.
    destruct (measurements_cases font (PyQtBackend._text_renderer self))
      as [(m & Hm & E') | (_ & m & r' & E' & Hcache)]; rewrite E' in E;
      injection E as <- <-; unfold Q; cbn.
    - exact Hm.
    - rewrite Hcache. apply lookup_insert_eq. }
  assert (Q (PyQtBackend._text_renderer self2)) as Hentry2.
  { revert Hentry.
    apply (kept_by_calls (fun s => Q (PyQtBackend._text_renderer s)))
      with (self := self1); trivial.
    - intros A m Hm s HQ. unfold on_text_renderer.
      assert (Q (snd (m (PyQtBackend._text_renderer s)))) as HQ'.
      { apply (kept_by_renderer_method Q); trivial.
        - intros text f r HQr. unfold Q.
          destruct (get_text_path_keeps text f r) as (_ & _ & ->). exact HQr.
        - intros k ms r Hnone HQr. unfold Q in *. cbn.
          rewrite lookup_insert_ne; [exact HQr | congruence]. }
      now destruct (m (PyQtBackend._text_renderer s)).
    - intros color s HQ. destruct (_get_color_keeps color s) as (_ & _ & E' & _).
      cbn zeta in E'. now rewrite E'.
    - intros pattern scale s HQ.
      destruct (_get_dash_pattern_keeps pattern scale s) as (_ & _ & E' & _).
      cbn zeta in E'. now rewrite E'. }
  unfold on_text_renderer.
  destruct (measurements_cases font (PyQtBackend._text_renderer self2))
    as [(m & Hm & ->) | (Hnone & _)]; unfold Q in Hentry2; fold key in Hm || idtac.
  - rewrite set__text_renderer_same. congruence.
  - fold key in Hnone. congruence.
Qed.

(** X11.  A font that has neither measurements nor outlines in the caches is
    measured from the outlines of "X", "x" and "p": the baseline is the bottom
    of the box of "x", the cap height goes from there to the top of "X", the x
    height to the top of "x", and the descender height from there to the
    bottom of "p".  Exactly three texts are shaped, and the measurements are
    stored. *)
Theorem fresh_font_is_measured_by_probes (self : TextRenderer.t) (font : QFont) :
  TextRenderer._font_measurement_cache self !! hash_QFont font = None ->
  TextRenderer._text_path_cache self !! hash_QFont font = None ->
  exists self',
    TextRenderer_get_font_measurements font self
    = (Return (probe_measurements font), self')
    /\ TextRenderer.addText_calls self' = (3 + TextRenderer.addText_calls self)%nat
    /\ TextRenderer._font_measurement_cache self' !! hash_QFont font
       = Some (probe_measurements font).
Proof.
  intros Hfmc Htpc.
  destruct (get_text_path_miss "X" font self)
    as (self1 & E1 & C1 & U1 & _ & F1 & T1).
  { unfold cached_outlines. rewrite Htpc. cbn. now rewrite lookup_empty. }
  destruct (get_text_path_miss "x" font self1)
    as (self2 & E2 & C2 & U2 & _ & F2 & T2).
  { unfold cached_outlines at 1. rewrite T1, lookup_insert_eq. cbn.
    destruct (TextRenderer._use_cache self).
    - rewrite lookup_insert_ne by discriminate.
      unfold cached_outlines. rewrite Htpc. cbn. now rewrite lookup_empty.
    - unfold cached_outlines. rewrite Htpc. cbn. now rewrite lookup_empty. }
  destruct (get_text_path_miss "p" font self2)
    as (self3 & E3 & C3 & U3 & _ & F3 & T3).
  { unfold cached_outlines at 1. rewrite T2, lookup_insert_eq. cbn.
    unfold cached_outlines at 1 2. rewrite T1, lookup_insert_eq. cbn.
    rewrite U1.
    destruct (TextRenderer._use_cache self).
    - rewrite !lookup_insert_ne by discriminate.
      unfold cached_outlines. rewrite Htpc. cbn. now rewrite lookup_empty.
    - unfold cached_outlines. rewrite Htpc. cbn. now rewrite lookup_empty. }
  unfold TextRenderer_get_font_measurements. cbn zeta.
  unfold bind at 1, gets at 1. rewrite Hfmc.
  unfold bind at 1. rewrite (get_text_rect_of_path _ _ _ _ _ E1).
  unfold bind at 1. rewrite (get_text_rect_of_path _ _ _ _ _ E2).
  unfold bind at 1. rewrite (get_text_rect_of_path _ _ _ _ _ E3).
  run_monad. eexists. split; [reflexivity |]. cbn. split; [lia |].
  apply lookup_insert_eq.
Qed.

End Measurements.

(** ** Text calls *)

Section TextCalls.
Context `{Collaborators}.

Lemma get_scale_raises desired_cap_height font self measurements self' :
  TextRenderer_get_font_measurements font self = (Return measurements, self') ->
  FontMeasurements.cap_height measurements == 0 ->
  get_scale desired_cap_height font self = (Raise ZeroDivisionError, self').
Proof.
  intros E Hzero. unfold get_scale. run_monad. rewrite E.
  apply Qeq_bool_iff in Hzero. now rewrite Hzero.
Qed.

(** X12.  The width of a text that is not blank.  The text is prepared
    first, for the type of the current entity, or as a "TEXT" entity without
    one: when [prepare_string_for_rendering] raises, the call raises the same
    error and the backend is as before.  When it returns the prepared text
    and the measured cap height of the font is not zero, the width is the
    right edge of the box of the outline of the prepared text times the
    scale.  The call needs neither a scene nor a current entity, and it
    leaves the scene, the colors and the dash patterns as they are. *)
Theorem text_line_width_scales_the_box (self : PyQtBackend.t) (text : string)
    (cap_height : Q) (font : option Font.t) :
  truthy (strip text) = true ->
  let dxftype :=
    match PyQtBackend.current_entity self with
    | Some entity => DXFGraphic.dxftype entity
    | None => "TEXT"%string
    end in
  (forall e,
      prepare_string_for_rendering text dxftype = Raise e ->
      get_text_line_width text cap_height font self = (Raise e, self))
  /\ (forall prepared,
        prepare_string_for_rendering text dxftype = Return prepared ->
        exists qfont measurements renderer1,
          get_qfont font self = (Return qfont, self)
          /\ TextRenderer_get_font_measurements qfont (PyQtBackend._text_renderer self)
             = (Return measurements, renderer1)
          /\ (~ FontMeasurements.cap_height measurements == 0 ->
              exists outline renderer2,
                get_text_path prepared qfont renderer1 = (Return outline, renderer2)
                /\ get_text_line_width text cap_height font self
                   = (Return (right (boundingRect outline)
                              * (cap_height / FontMeasurements.cap_height measurements)),
                      PyQtBackend.set__text_renderer renderer2 self))).
Proof.
  intros Htext dxftype. split.
  { intros e Hraises. unfold get_text_line_width. rewrite Htext. cbn [negb].
    unfold bind at 1, gets at 1. fold dxftype.
    unfold bind at 1, of_outcome at 1. now rewrite Hraises. }
  intros prepared Hprepared.
  destruct (get_qfont_returns font self) as (qfont & Eqfont).
  destruct (TextRenderer_get_font_measurements_returns
              qfont (PyQtBackend._text_renderer self))
    as (measurements & renderer1 & Emeasure).
  exists qfont, measurements, renderer1.
  split; [exact Eqfont |]. split; [exact Emeasure |]. intros Hcap.
  destruct (get_text_path_returns prepared qfont renderer1)
    as (outline & renderer2 & Epath).
  exists outline, renderer2. split; [exact Epath |].
  unfold get_text_line_width. rewrite Htext. cbn [negb].
  unfold bind at 1, gets at 1. fold dxftype.
  unfold bind at 1, of_outcome at 1. rewrite Hprepared.
  unfold bind at 1. rewrite Eqfont.
  unfold bind at 1, on_text_renderer at 1.
  rewrite (get_scale_divides cap_height _ _ _ _ Emeasure Hcap).
  unfold bind at 1, on_text_renderer at 1.
  cbn [PyQtBackend._text_renderer PyQtBackend.set__text_renderer].
  rewrite (get_text_rect_of_path _ _ _ _ _ Epath).
  unfold ret. now destruct self.
Qed.

(** X13.  When the measured cap height of the font is zero, a draw call for
    a text that is not blank and that [prepare_string_for_rendering] accepts
    for the current entity, and the width of such a text, raise
    [ZeroDivisionError]; the measurements stay in the renderer, and the
    scene, the colors and the dash patterns are as before. *)
Theorem zero_cap_height_raises (self : PyQtBackend.t) (text : string)
    (transform : Matrix44.t) (properties : Properties.t) (cap_height : Q)
    (entity : DXFGraphic.t) (prepared : string) (qfont : QFont)
    (measurements : FontMeasurements.t) (renderer1 : TextRenderer.t) :
  truthy (strip text) = true ->
  PyQtBackend.current_entity self = Some entity ->
  prepare_string_for_rendering text (DXFGraphic.dxftype entity) = Return prepared ->
  get_qfont (Properties.font properties) self = (Return qfont, self) ->
  TextRenderer_get_font_measurements qfont (PyQtBackend._text_renderer self)
  = (Return measurements, renderer1) ->
  FontMeasurements.cap_height measurements == 0 ->
  draw_text text transform properties cap_height self
  = (Raise ZeroDivisionError, PyQtBackend.set__text_renderer renderer1 self)
  /\ get_text_line_width text cap_height (Properties.font properties) self
     = (Raise ZeroDivisionError, PyQtBackend.set__text_renderer renderer1 self).
Proof.
  intros Htext Hentity Hprepared Eqfont Emeasure Hzero.
  pose proof (get_scale_raises cap_height _ _ _ _ Emeasure Hzero) as Escale.
  split.
  - unfold draw_text. rewrite Htext. cbn [negb].
    unfold current_entity_dxftype. unfold bind at 1. unfold bind at 1, gets at 1.
    rewrite Hentity. unfold ret at 1.
    unfold bind at 1, of_outcome at 1. rewrite Hprepared.
    unfold bind at 1. rewrite Eqfont.
    unfold bind at 1, on_text_renderer at 1. now rewrite Escale.
  - unfold get_text_line_width. rewrite Htext. cbn [negb].
    unfold bind at 1, gets at 1. rewrite Hentity.
    unfold bind at 1, of_outcome at 1. rewrite Hprepared.
    unfold bind at 1. rewrite Eqfont.
    unfold bind at 1, on_text_renderer at 1. now rewrite Escale.
Qed.

(** X14.  The errors of a draw call for a text that is not blank, in the
    order of the code.  Without a current entity it raises [AttributeError]
    before anything else happens.  With an entity, when
    [prepare_string_for_rendering] raises (a text of more than one line, an
    entity that carries no text), the call raises the same error and the
    backend is as before.  With an entity and a text that is accepted, but
    without a scene, it raises [AttributeError] after the font was measured
    and the text shaped, and before the color is resolved: the color cache
    is as before. *)
Theorem draw_text_needs_entity_and_scene (self : PyQtBackend.t) (text : string)
    (transform : Matrix44.t) (properties : Properties.t) (cap_height : Q) :
  truthy (strip text) = true ->
  (PyQtBackend.current_entity self = None ->
   draw_text text transform properties cap_height self
   = (Raise (AttributeError "dxftype"), self))
  /\ (forall entity e,
        PyQtBackend.current_entity self = Some entity ->
        prepare_string_for_rendering text (DXFGraphic.dxftype entity) = Raise e ->
        draw_text text transform properties cap_height self = (Raise e, self))
  /\ (forall entity prepared qfont measurements renderer1,
        PyQtBackend.current_entity self = Some entity ->
        prepare_string_for_rendering text (DXFGraphic.dxftype entity)
        = Return prepared ->
        PyQtBackend._scene self = None ->
        get_qfont (Properties.font properties) self = (Return qfont, self) ->
        TextRenderer_get_font_measurements qfont (PyQtBackend._text_renderer self)
        = (Return measurements, renderer1) ->
        ~ FontMeasurements.cap_height measurements == 0 ->
        exists self',
          draw_text text transform properties cap_height self
          = (Raise (AttributeError "addPath"), self')
          /\ PyQtBackend._color_cache self' = PyQtBackend._color_cache self
          /\ PyQtBackend._scene self' = None).
Proof.
  intros Htext. split.
  - intros Hentity. unfold draw_text. rewrite Htext. cbn [negb].
    unfold current_entity_dxftype. unfold bind at 1. unfold bind at 1, gets at 1.
    now rewrite Hentity.
  - split.
    { intros entity e Hentity Hraises. unfold draw_text. rewrite Htext. cbn [negb].
      unfold current_entity_dxftype. unfold bind at 1. unfold bind at 1, gets at 1.
      rewrite Hentity. unfold ret at 1.
      unfold bind at 1, of_outcome at 1. now rewrite Hraises. }
    intros entity prepared qfont measurements renderer1
           Hentity Hprepared Hscene Eqfont Emeasure Hcap.
    destruct (get_text_path_returns prepared qfont renderer1)
      as (outline & renderer2 & Epath).
    eexists. split.
    + unfold draw_text. rewrite Htext. cbn [negb].
      unfold current_entity_dxftype. unfold bind at 1. unfold bind at 1, gets at 1.
      rewrite Hentity. unfold ret at 1.
      unfold bind at 1, of_outcome at 1. rewrite Hprepared.
      unfold bind at 1. rewrite Eqfont.
      unfold bind at 1, on_text_renderer at 1.
      rewrite (get_scale_divides cap_height _ _ _ _ Emeasure Hcap).
      unfold bind at 1, on_text_renderer at 1.
      cbn [PyQtBackend._text_renderer PyQtBackend.set__text_renderer].
      rewrite Epath.
      unfold bind at 1, scene_attr at 1.
      cbn [PyQtBackend._scene PyQtBackend.set__text_renderer].
      rewrite Hscene. reflexivity.
    + cbn. now rewrite Hscene.
Qed.

End TextCalls.

(** ** More on the draw calls *)

Section MoreDraw.
Context `{Collaborators}.

Lemma _get_brush_keeps properties self :
  let self' := snd (_get_brush properties self) in
  configuration self' = configuration self
  /\ drawing_context self' = drawing_context self.
Proof.
  cbn zeta. unfold _get_brush. destruct (Properties.filling properties);
    [| now split].
  run_monad. destruct (_get_color_keeps (Properties.color properties) self)
    as (E1 & E2 & _).
  destruct (_get_color (Properties.color properties) self) as [[q | e] self'];
    now split.
Qed.

Lemma _set_item_data_tags shape self :
  _set_item_data (mkItem shape ∅) self = (Return (tagged self shape), self).
Proof.
  unfold _set_item_data, tagged. run_monad. now rewrite slice_to_minus_one.
Qed.

Lemma add_with_item_data_adds shape self scene :
  PyQtBackend._scene self = Some scene ->
  add_with_item_data shape self
  = (Return tt,
     PyQtBackend.set__scene (Some (addItem (tagged self shape) scene)) self).
Proof.
  intros Hscene. unfold add_with_item_data. unfold bind at 1.
  rewrite _set_item_data_tags. unfold update_scene, modify. now rewrite Hscene.
Qed.

Lemma tagged_same_context shape self self' :
  drawing_context self' = drawing_context self ->
  tagged self' shape = tagged self shape.
Proof. unfold drawing_context, tagged. intros [= _ -> ->]. reflexivity. Qed.

(** X15.  Without a scene, drawing a line, setting the background, clearing
    and finalizing raise [AttributeError] at once and leave the backend as
    it is.  Drawing a point resolves the color first: with a valid color the
    error comes after the color has been resolved, and the state is the one
    the color resolver left. *)
Theorem calls_without_scene_raise (self : PyQtBackend.t) (properties : Properties.t)
    (start end_ pos : Vector.t) (color : string) :
  PyQtBackend._scene self = None ->
  draw_line start end_ properties self = (Raise (AttributeError "addLine"), self)
  /\ set_background color self = (Raise (AttributeError "setBackgroundBrush"), self)
  /\ clear self = (Raise (AttributeError "clear"), self)
  /\ finalize self = (Raise (AttributeError "setSceneRect"), self)
  /\ (String.length (Properties.color properties) = 7%nat
      \/ String.length (Properties.color properties) = 9%nat ->
      exists qt_color self',
        _get_color (Properties.color properties) self = (Return qt_color, self')
        /\ draw_point pos properties self = (Raise (AttributeError "addItem"), self')).
Proof.
  intros Hscene.
  assert (scene_attr_raises :
            forall attr, scene_attr attr self = (Raise (AttributeError attr), self)).
  { intros attr. unfold scene_attr. now rewrite Hscene. }
  split; [unfold draw_line, bind; now rewrite scene_attr_raises |].
  split; [unfold set_background, bind; now rewrite scene_attr_raises |].
  split; [unfold clear, bind; now rewrite scene_attr_raises |].
  split; [unfold finalize, bind; now rewrite scene_attr_raises |].
  intros Hvalid. destruct (_get_color_returns _ self Hvalid) as (q & self' & E).
  exists q, self'. split; [exact E |].
  destruct (_get_color_frame _ _ _ _ E) as (Hs & _).
  unfold draw_point. unfold bind at 1. rewrite E.
  unfold bind at 1, gets at 1. unfold bind at 1.
  unfold new__Point. rewrite _set_item_data_tags.
  unfold bind, scene_attr. now rewrite Hs, Hscene.
Qed.

(** X22.  A line draw call on a backend with a scene and a valid color adds
    exactly one line item to the scene, from the start to the end point,
    with the pen of the property set, tagged with the current entity and its
    parents. *)
Theorem line_drawn_as_one_item (self : PyQtBackend.t) (start end_ : Vector.t)
    (properties : Properties.t) (scene : QGraphicsScene) :
  PyQtBackend._scene self = Some scene ->
  String.length (Properties.color properties) = 7%nat
  \/ String.length (Properties.color properties) = 9%nat ->
  exists pen self1,
    _get_pen properties self = (Return pen, self1)
    /\ draw_line start end_ properties self
       = (Return tt,
          PyQtBackend.set__scene
            (Some (addItem
                     (tagged self
                        (QGraphicsLineItem (Vector.x start) (Vector.y start)
                                           (Vector.x end_) (Vector.y end_) pen))
                     scene))
            self1).
Proof.
  intros Hscene Hvalid.
  destruct (_get_pen_returns properties self Hvalid) as (pen & self1 & E).
  exists pen, self1. split; [exact E |].
  destruct (_get_pen_keeps properties self) as (_ & Hctx & _).
  rewrite E in Hctx. cbn [snd] in Hctx.
  assert (PyQtBackend._scene self1 = Some scene) as Hscene1
    by (unfold drawing_context in Hctx; congruence).
  unfold draw_line. unfold bind at 1, scene_attr at 1. rewrite Hscene.
  unfold bind at 1. rewrite E.
  rewrite (add_with_item_data_adds _ _ _ Hscene1).
  now rewrite (tagged_same_context _ _ _ Hctx).
Qed.

(** X17.  A filled polygon draw call on a backend with a scene adds exactly
    one polygon item with the points in their order, no outline pen and the
    brush of the property set, tagged with the current entity and its
    parents; without filling the brush is the no-fill brush and the color is
    not resolved. *)
Theorem polygon_drawn_as_one_item (self : PyQtBackend.t) (points : list Vector.t)
    (properties : Properties.t) (scene : QGraphicsScene) :
  PyQtBackend._scene self = Some scene ->
  (forall brush self1,
      _get_brush properties self = (Return brush, self1) ->
      draw_filled_polygon points properties self
      = (Return tt,
         PyQtBackend.set__scene
           (Some (addItem
                    (tagged self
                       (QGraphicsPolygonItem
                          (List.map (fun p => mkQPointF (Vector.x p) (Vector.y p)) points)
                          _no_line brush))
                    scene))
           self1))
  /\ (Properties.filling properties = false ->
      _get_brush properties self = (Return _no_fill, self)).
Proof.
  intros Hscene. split.
  - intros brush self1 E.
    destruct (_get_brush_keeps properties self) as (_ & Hctx).
    rewrite E in Hctx. cbn [snd] in Hctx.
    assert (PyQtBackend._scene self1 = Some scene) as Hscene1
      by (unfold drawing_context in Hctx; congruence).
    unfold draw_filled_polygon. unfold bind at 1. rewrite E.
    unfold bind at 1, scene_attr at 1. rewrite Hscene1.
    rewrite (add_with_item_data_adds _ _ _ Hscene1).
    now rewrite (tagged_same_context _ _ _ Hctx).
  - intros Hfill. unfold _get_brush. now rewrite Hfill.
Qed.

(** X19.  A backend constructed with the deprecated point radius draws its
    points with this radius: the point size is twice the radius, whatever
    the parameters say, and the radius of a point item is half the point
    size. *)
Theorem point_radius_is_kept (scene : QGraphicsScene) (point_radius : Q)
    (use_text_cache debug_draw_rect : bool) (params : Params)
    (pos : Vector.t) (properties : Properties.t) :
  String.length (Properties.color properties) = 7%nat
  \/ String.length (Properties.color properties) = 9%nat ->
  let self :=
    __init__ (Some scene) (Some point_radius) use_text_cache debug_draw_rect params in
  exists qt_color self' radius,
    draw_point pos properties self = (Return tt, self')
    /\ option_map items (PyQtBackend._scene self')
       = Some (items scene
               ++ [tagged self
                     (_Point (mkQPointF (Vector.x pos) (Vector.y pos)) radius
                             (QPen_of_style NoPen)
                             (QBrush_of_color qt_color SolidPattern))])
    /\ radius == point_radius.
Proof.
  intros Hvalid self.
  destruct (_get_color_returns _ self Hvalid) as (q & self1 & E).
  destruct (_get_color_frame _ _ _ _ E) as (Hs & Hp & He & Hst).
  exists q. eexists. exists (point_radius * 2 * 0.5).
  split; [| split].
  - unfold draw_point. unfold bind at 1. rewrite E.
    unfold bind at 1, gets at 1. unfold bind at 1.
    unfold new__Point. rewrite _set_item_data_tags.
    unfold bind, scene_attr, update_scene, modify. rewrite Hs. cbn.
    rewrite Hs, Hp. reflexivity.
  - cbn. unfold tagged. now rewrite He, Hst.
  - field.
Qed.

End MoreDraw.

(** ** Filled regions, finalizing and transforms *)

Section Regions.
Context `{Collaborators}.





(** The resolvers do not read the scene. *)
Lemma _get_color_ignores_scene color scene self :
  _get_color color (PyQtBackend.set__scene scene self)
  = (fst (_get_color color self),
     PyQtBackend.set__scene scene (snd (_get_color color self))).
Proof.
  unfold _get_color. cbn.
  destruct (PyQtBackend._color_cache self !! color); [reflexivity |].
  destruct (String.length color =? 7)%nat; [reflexivity |].
  now destruct (String.length color =? 9)%nat.
Qed.

Lemma _get_dash_pattern_ignores_scene pattern scale scene self :
  _get_dash_pattern pattern scale (PyQtBackend.set__scene scene self)
  = (fst (_get_dash_pattern pattern scale self),
     PyQtBackend.set__scene scene (snd (_get_dash_pattern pattern scale self))).
Proof.
  unfold _get_dash_pattern. cbn.
  now destruct (PyQtBackend._dash_pattern_cache self !! hash_pattern_scale pattern scale).
Qed.

Lemma _get_pen_ignores_scene properties scene self :
  fst (_get_pen properties (PyQtBackend.set__scene scene self))
  = fst (_get_pen properties self)
  /\ snd (_get_pen properties (PyQtBackend.set__scene scene self))
     = PyQtBackend.set__scene scene (snd (_get_pen properties self)).
Proof.
  unfold _get_pen, _get_line_pattern_factor. run_monad.
  rewrite _get_color_ignores_scene.
  change (PyQtBackend.lineweight_scaling (PyQtBackend.set__scene scene self))
    with (PyQtBackend.lineweight_scaling self).
  destruct (_get_color (Properties.color properties) self) as [[q | e] self1];
    cbn [fst snd]; [| now split].
  change (PyQtBackend.linetype_scaling (PyQtBackend.set__scene scene self1))
    with (PyQtBackend.linetype_scaling self1).
  destruct (_ && _); [| now split].
  rewrite _get_dash_pattern_ignores_scene.
  change (PyQtBackend.linetype_scaling (PyQtBackend.set__scene scene self1))
    with (PyQtBackend.linetype_scaling self1).
  match goal with
  | |- context [_get_dash_pattern ?p ?s self1] =>
      destruct (_get_dash_pattern p s self1) as [[d | e] self2]
  end; now split.
Qed.

(** X18.  Finalizing a backend with a scene sets the rectangle of the scene
    to the bounding rectangle of its items.  Without the debug flag nothing
    else happens: the items and the caches are as before.  With the debug
    flag one more item is added: a rectangle item for that bounding
    rectangle, with the pen of a default property set in the color
    "#000000" and no fill; it carries no entity tag. *)
Theorem finalize_sets_the_scene_rectangle (self : PyQtBackend.t)
    (scene : QGraphicsScene) :
  PyQtBackend._scene self = Some scene ->
  let rect := itemsBoundingRect (items scene) in
  (PyQtBackend._debug_draw_rect self = false ->
   finalize self
   = (Return tt, PyQtBackend.set__scene (Some (setSceneRect rect scene)) self))
  /\ (PyQtBackend._debug_draw_rect self = true ->
      exists pen self',
        fst (_get_pen (Properties.set_color "#000000" Properties_default) self)
        = Return pen
        /\ finalize self = (Return tt, self')
        /\ PyQtBackend._scene self'
           = Some (addItem (mkItem (QGraphicsRectItem rect pen _no_fill) ∅)
                           (setSceneRect rect scene))).
Proof.
  intros Hscene rect. split.
  - intros Hdebug. unfold finalize. unfold bind at 1, scene_attr at 1.
    rewrite Hscene. unfold bind at 1, update_scene at 1, modify at 1.
    rewrite Hscene. cbn [option_map].
    unfold bind at 1, gets at 1.
    cbn [PyQtBackend._debug_draw_rect PyQtBackend.set__scene]. now rewrite Hdebug.
  - intros Hdebug.
    set (properties := Properties.set_color "#000000" Properties_default).
    set (self1 := PyQtBackend.set__scene (Some (setSceneRect rect scene)) self).
    destruct (_get_pen_returns properties self1 (or_introl eq_refl))
      as (pen & self2 & E).
    destruct (_get_pen_ignores_scene properties (Some (setSceneRect rect scene)) self)
      as [Hfst Hsnd].
    fold self1 in Hfst, Hsnd. rewrite E in Hfst, Hsnd. cbn [fst snd] in Hfst, Hsnd.
    exists pen. eexists. split; [now rewrite <- Hfst |].
    split.
    + unfold finalize. unfold bind at 1, scene_attr at 1.
      rewrite Hscene. unfold bind at 1, update_scene at 1, modify at 1.
      rewrite Hscene. cbn [option_map]. fold rect. fold self1.
      unfold bind at 1, gets at 1.
      change (PyQtBackend._debug_draw_rect self1)
        with (PyQtBackend._debug_draw_rect self).
      rewrite Hdebug.
      unfold bind at 1, scene_attr at 1.
      change (PyQtBackend._scene self1) with (Some (setSceneRect rect scene)).
      unfold bind at 1. fold properties. rewrite E.
      unfold update_scene, modify. reflexivity.
    + rewrite Hsnd. cbn. reflexivity.
Qed.

(** X20.  The Qt transform of a matrix is always affine: a point (x, y) goes
    to (m00 x + m10 y + m30, m01 x + m11 y + m31), with the translation in the
    bottom row, and all other entries of the matrix are ignored.  For a
    matrix [a] that does not involve the z axis, the transform of [a @ b]
    maps a point as the transform of [a] followed by the transform of [b]. *)
Theorem qtransform_is_affine (a b : Matrix44.t) (x y : Q) :
  map_point (_matrix_to_qtransform a) x y
  = (a 0%nat 0%nat * x + a 1%nat 0%nat * y + a 3%nat 0%nat,
     a 0%nat 1%nat * x + a 1%nat 1%nat * y + a 3%nat 1%nat)
  /\ (a 0%nat 2%nat == 0 -> a 0%nat 3%nat == 0 ->
      a 1%nat 2%nat == 0 -> a 1%nat 3%nat == 0 ->
      a 3%nat 2%nat == 0 -> a 3%nat 3%nat == 1 ->
      let (xa, ya) := map_point (_matrix_to_qtransform a) x y in
      fst (map_point (_matrix_to_qtransform (Matrix44.matmul a b)) x y)
      == fst (map_point (_matrix_to_qtransform b) xa ya)
      /\ snd (map_point (_matrix_to_qtransform (Matrix44.matmul a b)) x y)
         == snd (map_point (_matrix_to_qtransform b) xa ya)).
Proof.
  split; [reflexivity |].
  intros H02 H03 H12 H13 H32 H33.
  cbv [_matrix_to_qtransform Matrix44.get_2d_transformation map_point
       m11 m12 m13 m21 m22 m23 m31 m32 m33 Matrix44.matmul].
  change (Qeq_bool 0 0) with true. change (Qeq_bool 1 1) with true.
  cbn [andb fst snd].
  split; rewrite H02, H03, H12, H13, H32, H33; ring.
Qed.

End Regions.

(** ** Draw calls and the scene *)

Section SceneGrowth.
Context `{Collaborators}.

Lemma scene_kept_by__get_color color self :
  PyQtBackend._scene (snd (_get_color color self)) = PyQtBackend._scene self.
Proof.
  destruct (_get_color_keeps color self) as (_ & E & _).
  unfold drawing_context in E. cbn zeta in E. congruence.
Qed.

Lemma scene_kept_by__get_pen properties self :
  PyQtBackend._scene (snd (_get_pen properties self)) = PyQtBackend._scene self.
Proof.
  destruct (_get_pen_keeps properties self) as (_ & E & _).
  unfold drawing_context in E. cbn zeta in E. congruence.
Qed.

Lemma scene_kept_by__get_brush properties self :
  PyQtBackend._scene (snd (_get_brush properties self)) = PyQtBackend._scene self.
Proof.
  destruct (_get_brush_keeps properties self) as (_ & E).
  unfold drawing_context in E. cbn zeta in E. congruence.
Qed.

Lemma scene_kept_by_on_text_renderer {A} (m : M TextRenderer.t A) self :
  PyQtBackend._scene (snd (on_text_renderer m self)) = PyQtBackend._scene self.
Proof.
  unfold on_text_renderer. now destruct (m (PyQtBackend._text_renderer self)).
Qed.

Lemma scene_kept_by_on_new_path m self :
  PyQtBackend._scene (snd (on_new_path m self)) = PyQtBackend._scene self.
Proof. unfold on_new_path. now destruct (m []) as [[u | e] p]. Qed.

Lemma scene_kept_by_scene_attr attr self :
  PyQtBackend._scene (snd (scene_attr attr self)) = PyQtBackend._scene self.
Proof. unfold scene_attr. now destruct (PyQtBackend._scene self) eqn:E. Qed.

Lemma scene_kept_by_get_qfont font self :
  PyQtBackend._scene (snd (get_qfont font self)) = PyQtBackend._scene self.
Proof. destruct (get_qfont_returns font self) as (qfont & ->). reflexivity. Qed.

Lemma scene_kept_by_current_entity_dxftype self :
  PyQtBackend._scene (snd (current_entity_dxftype self)) = PyQtBackend._scene self.
Proof.
  unfold current_entity_dxftype. run_monad.
  now destruct (PyQtBackend.current_entity self).
Qed.

Lemma emits_bind {A B} (m : M PyQtBackend.t A) (k : A -> M PyQtBackend.t B) :
  (forall self, PyQtBackend._scene (snd (m self)) = PyQtBackend._scene self) ->
  (forall a, emits_at_most_one (k a)) ->
  emits_at_most_one (bind m k).
Proof.
  intros Hm Hk self. unfold bind. specialize (Hm self).
  destruct (m self) as [[a | e] self1]; cbn [snd] in Hm; [| exact Hm].
  specialize (Hk a self1). destruct (k a self1) as [[b | e] self2];
    now rewrite Hm in Hk.
Qed.

Lemma emits_ret {A} (a : A) : emits_at_most_one (ret a).
Proof. intros self. now left. Qed.

Lemma emits_raise {A} e : emits_at_most_one (@raise _ A e).
Proof. intros self. reflexivity. Qed.

Lemma emits_addItem item : emits_at_most_one (update_scene (addItem item)).
Proof.
  intros self. cbn. destruct (PyQtBackend._scene self) as [scene |]; cbn.
  - right. now exists scene, item.
  - now left.
Qed.

Lemma emits_add_with_item_data shape :
  emits_at_most_one (add_with_item_data shape).
Proof.
  unfold add_with_item_data. apply emits_bind.
  - intros self. now rewrite _set_item_data_tags.
  - intros item. apply emits_addItem.
Qed.

Ltac emits_step :=
  lazymatch goal with
  | |- emits_at_most_one (bind _ _) =>
      apply emits_bind;
      [ intros ?;
        first [ reflexivity
              | apply scene_kept_by__get_color
              | apply scene_kept_by__get_pen
              | apply scene_kept_by__get_brush
              | apply scene_kept_by_on_text_renderer
              | apply scene_kept_by_on_new_path
              | apply scene_kept_by_scene_attr
              | apply scene_kept_by_get_qfont
              | apply scene_kept_by_current_entity_dxftype
              | now rewrite _set_item_data_tags ]
      | intros ? ]
  | |- emits_at_most_one (ret _) => apply emits_ret
  | |- emits_at_most_one (raise _) => apply emits_raise
  | |- emits_at_most_one (update_scene (addItem _)) => apply emits_addItem
  | |- emits_at_most_one (add_with_item_data _) => apply emits_add_with_item_data
  | |- emits_at_most_one (if ?b then _ else _) => destruct b
  end.

(** X21.  Every draw call adds at most one item to the scene, at its end,
    and an item already in the scene is never removed or changed; a draw
    call that raises leaves the scene as it was. *)
Theorem draw_calls_emit_at_most_one (properties : Properties.t)
    (pos start end_ : Vector.t) (path : Path.t) (paths holes : list Path.t)
    (points : list Vector.t) (text : string) (transform : Matrix44.t)
    (cap_height : Q) :
  emits_at_most_one (draw_point pos properties)
  /\ emits_at_most_one (draw_line start end_ properties)
  /\ emits_at_most_one (draw_path path properties)
  /\ emits_at_most_one (draw_filled_paths paths holes properties)
  /\ emits_at_most_one (draw_filled_polygon points properties)
  /\ emits_at_most_one (draw_text text transform properties cap_height).
Proof.
  repeat split.
  - unfold draw_point. repeat emits_step.
  - unfold draw_line. repeat emits_step.
  - unfold draw_path. repeat emits_step.
  - unfold draw_filled_paths. repeat emits_step.
  - unfold draw_filled_polygon. repeat emits_step.
  - unfold draw_text. repeat emits_step.
Qed.

End SceneGrowth.

(** ** The resolved font and the tag of an item *)

Section FontAndTag.
Context `{Collaborators}.

Lemma append_cons (c : ascii) (a b : string) :
  String c a +:+ b = String c (a +:+ b).
Proof. reflexivity. Qed.

Lemma append_nil (b : string) : EmptyString +:+ b = b.
Proof. reflexivity. Qed.

Lemma lower_app (a b : string) : lower (a +:+ b) = lower a +:+ lower b.
Proof.
  induction a as [| c a IH]; [reflexivity |].
  rewrite append_cons. cbn [lower]. now rewrite append_cons, IH.
Qed.

Lemma prefix_app (sub s : string) : String.prefix sub (sub +:+ s) = true.
Proof.
  induction sub as [| c sub IH]; [now destruct s |].
  rewrite append_cons. cbn [String.prefix].
  destruct (ascii_dec c c); [exact IH | contradiction].
Qed.

Lemma contains_unfold (sub s : string) :
  contains sub s
  = if String.prefix sub s then true
    else match s with
         | EmptyString => false
         | String _ s' => contains sub s'
         end.
Proof. now destruct s. Qed.

Lemma contains_app (pre sub post : string) :
  contains sub (pre +:+ sub +:+ post) = true.
Proof.
  induction pre as [| c pre IH].
  - rewrite append_nil, contains_unfold. now rewrite prefix_app.
  - rewrite append_cons, contains_unfold.
    destruct (String.prefix sub _); [reflexivity | exact IH].
Qed.

(** X23.  Without a font descriptor the resolved font is the default font of
    the renderer.  With one it has the family of the descriptor and the
    mapped weight, and it is italic exactly when the style contains "italic"
    after lowering: a style with the word in any mix of upper and lower case
    gives an italic font.  Resolving a font changes nothing. *)
Theorem qfont_of_descriptor (self : PyQtBackend.t) (font : Font.t) :
  get_qfont None self
  = (Return (TextRenderer._default_font (PyQtBackend._text_renderer self)), self)
  /\ get_qfont (Some font) self
     = (Return (mkQFont (Font.family font) (_map_weight (Font.weight font))
                        (contains "italic" (lower (Font.style font)))),
        self)
  /\ (forall before word after,
        lower word = "italic"%string ->
        Font.style font = before +:+ word +:+ after ->
        exists qfont,
          get_qfont (Some font) self = (Return qfont, self)
          /\ font_italic qfont = true).
Proof.
  split; [reflexivity |]. split; [reflexivity |].
  intros before word after Hword Hstyle. eexists. split; [reflexivity |].
  cbn [font_italic]. rewrite Hstyle, !lower_app, Hword. apply contains_app.
Qed.

(** X24.  Tagging an item stores the current entity under the key 0 and,
    under the key 1, the entities of all entries of the entity stack but the
    last, in the order of the stack; with an empty stack the parent tuple is
    empty.  The shape of the item, its other data and the backend stay as
    they are. *)
Theorem item_data_holds_the_tag (self : PyQtBackend.t) (item : QGraphicsItem) :
  exists item',
    _set_item_data item self = (Return item', self)
    /\ shape item' = shape item
    /\ data item' !! CorrespondingDXFEntity
       = Some (Entity (PyQtBackend.current_entity self))
    /\ data item' !! CorrespondingDXFParentStack
       = Some (ParentStack
                 (List.map fst (removelast (PyQtBackend.entity_stack self))))
    /\ (forall key,
          key <> CorrespondingDXFEntity -> key <> CorrespondingDXFParentStack ->
          data item' !! key = data item !! key)
    /\ (PyQtBackend.entity_stack self = [] ->
        data item' !! CorrespondingDXFParentStack = Some (ParentStack [])).
Proof.
  eexists. split; [unfold _set_item_data; run_monad; reflexivity |].
  cbn [shape data setData]. rewrite slice_to_minus_one.
  split; [reflexivity |]. split.
  { rewrite lookup_insert_ne by discriminate. apply lookup_insert_eq. }
  split; [apply lookup_insert_eq |]. split.
  - intros key H0 H1. now rewrite !lookup_insert_ne by congruence.
  - intros ->. apply lookup_insert_eq.
Qed.

End FontAndTag.

(** ** The further theorems on concrete inputs *)

Section MoreConcrete.
#[local] Existing Instance sample_collaborators.

(** X1 across a line draw call. *)
Lemma configuration_is_fixed_witness :
  rtc call sample_backend after_dashed_line
  /\ configuration after_dashed_line = configuration sample_backend.
Proof.
  assert (rtc call sample_backend after_dashed_line) as Hcalls
    by (apply rtc_once; apply call_draw_line).
  split; [exact Hcalls |].
  exact (configuration_is_fixed sample_backend after_dashed_line Hcalls).
Defined.

(** X2 on the pattern (1, 2, 3) and the scale 2, across a line draw call. *)
Lemma dash_pattern_is_stable_witness :
  _get_dash_pattern [1; 2; 3] 2 sample_backend = (Return [2; 4], resolved_backend)
  /\ rtc call resolved_backend resolved_then_line
  /\ _get_dash_pattern [1; 2; 3] 2 resolved_then_line
     = (Return [2; 4], resolved_then_line).
Proof.
  assert (_get_dash_pattern [1; 2; 3] 2 sample_backend
          = (Return [2; 4], resolved_backend)) as E by reflexivity.
  assert (rtc call resolved_backend resolved_then_line) as Hcalls
    by (apply rtc_once; apply call_draw_line).
  split; [exact E |]. split; [exact Hcalls |].
  exact (dash_pattern_is_stable sample_backend resolved_backend resolved_then_line
           [1; 2; 3] 2 [2; 4] E Hcalls).
Defined.

(** X3 on a property set without filling and with a color of three
    characters. *)
Lemma brush_follows_filling_witness :
  Properties.filling (plain_properties "#12") = false
  /\ _get_brush (plain_properties "#12") sample_backend
     = (Return _no_fill, sample_backend).
Proof.
  split; [reflexivity |].
  destruct (brush_follows_filling sample_backend (plain_properties "#12"))
    as (Hplain & _).
  apply Hplain. reflexivity.
Defined.

(** X4 on a property set without a pattern. *)
Lemma pen_without_dashes_witness :
  (length (Properties.linetype_pattern (plain_properties "#112233")) <= 1)%nat
  /\ String.length (Properties.color (plain_properties "#112233")) = 7%nat
  /\ exists qt_color self',
      _get_pen (plain_properties "#112233") sample_backend
      = (Return (mkQPen SolidLine (Some qt_color)
                        (0.25 / 0.3527 * PYQT_DEFAULT_lineweight_scaling)
                        true RoundJoin []),
         self').
Proof.
  assert (length (Properties.linetype_pattern (plain_properties "#112233")) <= 1)%nat
    as Hlen by (cbn; lia).
  split; [exact Hlen |]. split; [reflexivity |].
  destruct (pen_without_dashes sample_backend (plain_properties "#112233")
              (or_introl Hlen) (or_introl eq_refl))
    as (qt_color & self' & _ & E & _).
  exists qt_color, self'. exact E.
Defined.

(** X5 after a dashed line has been drawn. *)
Lemma caches_hold_resolved_values_witness :
  reachable after_dashed_line
  /\ forall hash_key dashes,
      PyQtBackend._dash_pattern_cache after_dashed_line !! hash_key = Some dashes ->
      Nat.Even (length dashes).
Proof.
  split; [exact reachable_after_dashed_line |].
  destruct (caches_hold_resolved_values after_dashed_line reachable_after_dashed_line)
    as [_ Hdash].
  intros hash_key dashes Hentry. exact (proj1 (Hdash hash_key dashes Hentry)).
Defined.

(** X6 on the weights 400 and 700. *)
Lemma map_weight_is_bounded_and_monotone_witness :
  (400 <= 700)%Z
  /\ (_map_weight (WeightValue 400) <= _map_weight (WeightValue 700))%Z
  /\ (0 <= 400)%Z
  /\ (10 <= _map_weight (WeightValue 400))%Z.
Proof.
  destruct (map_weight_is_bounded_and_monotone 400 700) as (_ & Hmono & Hpos & _).
  assert (400 <= 700)%Z as H1 by lia. assert (0 <= 400)%Z as H2 by lia.
  split; [exact H1 |]. split; [exact (Hmono H1) |]. split; [exact H2 |].
  exact (Hpos H2).
Defined.

(** X7 on the text "ab". *)
Lemma text_path_is_cached_witness :
  TextRenderer._use_cache (PyQtBackend._text_renderer sample_backend) = true
  /\ exists path self1,
      get_text_path "ab" sample_font (PyQtBackend._text_renderer sample_backend)
      = (Return path, self1)
      /\ get_text_path "ab" sample_font self1 = (Return path, self1).
Proof.
  split; [reflexivity |].
  destruct (text_path_is_cached (PyQtBackend._text_renderer sample_backend)
              "ab" sample_font eq_refl) as (path & self1 & E1 & _ & _ & E2).
  exists path, self1. now split.
Defined.

(** X8 on the backend constructed without the text cache. *)
Lemma text_path_is_not_retained_witness :
  rtc call (__init__ (Some sample_scene) None false false sample_params)
      uncached_backend
  /\ exists renderer',
      get_text_path "ab" sample_font (PyQtBackend._text_renderer uncached_backend)
      = (Return (addText sample_font "ab"), renderer')
      /\ stores_no_outline renderer'.
Proof.
  assert (rtc call (__init__ (Some sample_scene) None false false sample_params)
              uncached_backend) as Hcalls by apply rtc_refl.
  split; [exact Hcalls |].
  destruct (text_path_is_not_retained (Some sample_scene) None false sample_params
              uncached_backend "ab" sample_font Hcalls)
    as (_ & renderer' & E & _ & Hno).
  exists renderer'. now split.
Defined.

(** X10 across clearing the text cache. *)
Lemma font_measurements_are_memoized_witness :
  on_text_renderer (TextRenderer_get_font_measurements sample_font) sample_backend
  = (Return (probe_measurements sample_font), measured_backend)
  /\ rtc call measured_backend measured_then_cleared
  /\ on_text_renderer (TextRenderer_get_font_measurements sample_font)
       measured_then_cleared
     = (Return (probe_measurements sample_font), measured_then_cleared).
Proof.
  assert (on_text_renderer (TextRenderer_get_font_measurements sample_font)
            sample_backend
          = (Return (probe_measurements sample_font), measured_backend)) as E
    by reflexivity.
  assert (rtc call measured_backend measured_then_cleared) as Hcalls
    by (apply rtc_once; apply call_clear_text_cache).
  split; [exact E |]. split; [exact Hcalls |].
  exact (font_measurements_are_memoized sample_backend measured_backend
           measured_then_cleared sample_font (probe_measurements sample_font)
           E Hcalls).
Defined.

(** X11 on the renderer of a new backend. *)
Lemma fresh_font_is_measured_by_probes_witness :
  TextRenderer._font_measurement_cache (PyQtBackend._text_renderer sample_backend)
    !! hash_QFont sample_font = None
  /\ TextRenderer._text_path_cache (PyQtBackend._text_renderer sample_backend)
       !! hash_QFont sample_font = None
  /\ exists self',
      TextRenderer_get_font_measurements sample_font
        (PyQtBackend._text_renderer sample_backend)
      = (Return (probe_measurements sample_font), self')
      /\ TextRenderer.addText_calls self' = 3%nat.
Proof.
  assert (TextRenderer._font_measurement_cache
            (PyQtBackend._text_renderer sample_backend)
            !! hash_QFont sample_font = None) as H1 by reflexivity.
  assert (TextRenderer._text_path_cache (PyQtBackend._text_renderer sample_backend)
            !! hash_QFont sample_font = None) as H2 by reflexivity.
  split; [exact H1 |]. split; [exact H2 |].
  destruct (fresh_font_is_measured_by_probes
              (PyQtBackend._text_renderer sample_backend) sample_font H1 H2)
    as (self' & E & Hcalls & _).
  exists self'. split; [exact E | exact Hcalls].
Defined.

(** X12 on the text "ab" without a current entity, and on a text of two
    lines. *)
Lemma text_line_width_scales_the_box_witness :
  truthy (strip "ab") = true
  /\ PyQtBackend.current_entity sample_backend = None
  /\ prepare_string_for_rendering "ab" "TEXT" = Return "ab"%string
  /\ (exists width self',
        get_text_line_width "ab" 5 None sample_backend = (Return width, self')
        /\ width == 7)
  /\ truthy (strip two_lines) = true
  /\ get_text_line_width two_lines 5 None sample_backend
     = (Raise (AssertionError "not a single line of text"), sample_backend).
Proof.
  split; [reflexivity |]. split; [reflexivity |]. split; [reflexivity |].
  split.
  2: { split; [reflexivity |].
       destruct (@text_line_width_scales_the_box sample_collaborators sample_backend
                   two_lines 5 None eq_refl) as [Hraises _].
       exact (Hraises _ eq_refl). }
  destruct (@text_line_width_scales_the_box sample_collaborators sample_backend
              "ab" 5 None eq_refl) as [_ Hreturns].
  destruct (Hreturns "ab"%string eq_refl)
    as (qfont & measurements & renderer1 & Eqfont & Emeasure & Hwidth).
  vm_compute in Eqfont. injection Eqfont as <-.
  vm_compute in Emeasure. injection Emeasure as <- <-.
  assert (~ FontMeasurements.cap_height (FontMeasurements.make 0 10 10 0) == 0) as Hcap
    by (intros E; vm_compute in E; discriminate).
  destruct (Hwidth Hcap) as (outline & renderer2 & Epath & E).
  vm_compute in Epath. injection Epath as <- <-.
  eexists _, _. split; [exact E |]. reflexivity.
Defined.

(** X13 on the font of no extent. *)
Lemma zero_cap_height_raises_witness :
  truthy (strip "ab") = true
  /\ PyQtBackend.current_entity flat_backend = Some (DXFGraphic.make 1 "TEXT")
  /\ @prepare_string_for_rendering flat_collaborators "ab" "TEXT" = Return "ab"%string
  /\ FontMeasurements.cap_height
       (@probe_measurements flat_collaborators (mkQFont "" 50 false)) == 0
  /\ fst (@draw_text flat_collaborators "ab" shift_100 (plain_properties "#112233") 5
            flat_backend)
     = Raise ZeroDivisionError.
Proof.
  split; [reflexivity |]. split; [reflexivity |]. split; [reflexivity |].
  assert (FontMeasurements.cap_height
            (@probe_measurements flat_collaborators (mkQFont "" 50 false)) == 0)
    as Hzero by reflexivity.
  split; [exact Hzero |].
  destruct (@zero_cap_height_raises flat_collaborators flat_backend "ab" shift_100
              (plain_properties "#112233") 5 (DXFGraphic.make 1 "TEXT") "ab"
              (mkQFont "" 50 false)
              (@probe_measurements flat_collaborators (mkQFont "" 50 false))
              (snd (@TextRenderer_get_font_measurements flat_collaborators
                      (mkQFont "" 50 false) (PyQtBackend._text_renderer flat_backend)))
              eq_refl eq_refl eq_refl eq_refl eq_refl Hzero) as [Hdraw _].
  now rewrite Hdraw.
Defined.

(** X14 on the sample backend, which has no current entity, and on the
    backend while a line is drawn. *)
Lemma draw_text_needs_entity_and_scene_witness :
  truthy (strip "ab") = true
  /\ PyQtBackend.current_entity sample_backend = None
  /\ draw_text "ab" shift_100 (plain_properties "#112233") 5 sample_backend
     = (Raise (AttributeError "dxftype"), sample_backend)
  /\ PyQtBackend.current_entity line_backend = Some (DXFGraphic.make 2 "LINE")
  /\ draw_text "ab" shift_100 (plain_properties "#112233") 5 line_backend
     = (Raise (TypeError "LINE"), line_backend).
Proof.
  split; [reflexivity |]. split; [reflexivity |].
  split.
  { destruct (@draw_text_needs_entity_and_scene sample_collaborators sample_backend
                "ab" shift_100 (plain_properties "#112233") 5 eq_refl)
      as [Hentity _].
    exact (Hentity eq_refl). }
  split; [reflexivity |].
  destruct (@draw_text_needs_entity_and_scene sample_collaborators line_backend
              "ab" shift_100 (plain_properties "#112233") 5 eq_refl)
    as (_ & Hraises & _).
  exact (Hraises _ _ eq_refl eq_refl).
Defined.

(** X15 on the backend without a scene. *)
Lemma calls_without_scene_raise_witness :
  PyQtBackend._scene sceneless_backend = None
  /\ draw_line origin east (plain_properties "#112233") sceneless_backend
     = (Raise (AttributeError "addLine"), sceneless_backend)
  /\ String.length (Properties.color (plain_properties "#112233")) = 7%nat
  /\ exists self',
      draw_point origin (plain_properties "#112233") sceneless_backend
      = (Raise (AttributeError "addItem"), self')
      /\ PyQtBackend._color_cache self' !! "#112233"%string
         = Some (mkQColor 0 "#112233").
Proof.
  split; [reflexivity |].
  destruct (calls_without_scene_raise sceneless_backend (plain_properties "#112233")
              origin east origin "#112233" eq_refl)
    as (Hline & _ & _ & _ & Hpoint).
  split; [exact Hline |]. split; [reflexivity |].
  destruct (Hpoint (or_introl eq_refl)) as (qt_color & self' & Ecolor & Edraw).
  vm_compute in Ecolor. injection Ecolor as <- <-.
  eexists. split; [exact Edraw |]. reflexivity.
Defined.


(** X17 on two points and a property set without filling whose color is not
    valid. *)
Lemma polygon_drawn_as_one_item_witness :
  PyQtBackend._scene sample_backend = Some sample_scene
  /\ _get_brush (plain_properties "#12") sample_backend
     = (Return _no_fill, sample_backend)
  /\ draw_filled_polygon [origin; east] (plain_properties "#12") sample_backend
     = (Return tt,
        PyQtBackend.set__scene
          (Some (addItem
                   (tagged sample_backend
                      (QGraphicsPolygonItem [mkQPointF 0 0; mkQPointF 10 0]
                                            _no_line _no_fill))
                   sample_scene))
          sample_backend).
Proof.
  split; [reflexivity |]. split; [reflexivity |].
  destruct (polygon_drawn_as_one_item sample_backend [origin; east]
              (plain_properties "#12") sample_scene eq_refl) as [Hdraw _].
  exact (Hdraw _no_fill sample_backend eq_refl).
Defined.

(** X18 on the sample backend, which has no debug flag. *)
Lemma finalize_sets_the_scene_rectangle_witness :
  PyQtBackend._scene sample_backend = Some sample_scene
  /\ PyQtBackend._debug_draw_rect sample_backend = false
  /\ finalize sample_backend
     = (Return tt,
        PyQtBackend.set__scene
          (Some (setSceneRect (itemsBoundingRect (items sample_scene)) sample_scene))
          sample_backend).
Proof.
  split; [reflexivity |]. split; [reflexivity |].
  destruct (finalize_sets_the_scene_rectangle sample_backend sample_scene eq_refl)
    as [Hplain _].
  exact (Hplain eq_refl).
Defined.

(** X19 on the backend made with the point radius 3. *)
Lemma point_radius_is_kept_witness :
  String.length (Properties.color (plain_properties "#112233")) = 7%nat
  /\ exists self',
      draw_point east (plain_properties "#112233") radius_backend = (Return tt, self').
Proof.
  split; [reflexivity |].
  destruct (point_radius_is_kept sample_scene 3 true false sample_params east
              (plain_properties "#112233") (or_introl eq_refl))
    as (qt_color & self' & radius & E & _).
  exists self'. exact E.
Defined.

(** X20 on the translation by 100, applied twice. *)
Lemma qtransform_is_affine_witness :
  shift_100 0%nat 2%nat == 0
  /\ shift_100 3%nat 3%nat == 1
  /\ fst (map_point (_matrix_to_qtransform (Matrix44.matmul shift_100 shift_100)) 1 2)
     == fst (map_point (_matrix_to_qtransform shift_100) 101 2).
Proof.
  split; [reflexivity |]. split; [reflexivity |].
  destruct (qtransform_is_affine shift_100 shift_100 1 2) as [_ Hcompose].
  exact (proj1 (Hcompose (Qeq_refl 0) (Qeq_refl 0) (Qeq_refl 0) (Qeq_refl 0)
                         (Qeq_refl 0) (Qeq_refl 1))).
Defined.

(** X22 on a line of the sample backend. *)
Lemma line_drawn_as_one_item_witness :
  PyQtBackend._scene sample_backend = Some sample_scene
  /\ String.length (Properties.color (dashed_properties 1)) = 7%nat
  /\ exists pen self1,
      _get_pen (dashed_properties 1) sample_backend = (Return pen, self1)
      /\ draw_line origin east (dashed_properties 1) sample_backend
         = (Return tt,
            PyQtBackend.set__scene
              (Some (addItem
                       (tagged sample_backend (QGraphicsLineItem 0 0 10 0 pen))
                       sample_scene))
              self1).
Proof.
  split; [reflexivity |]. split; [reflexivity |].
  exact (line_drawn_as_one_item sample_backend origin east (dashed_properties 1)
           sample_scene eq_refl (or_introl eq_refl)).
Defined.

(** X23 on the style "Bold ITALIC". *)
Lemma qfont_of_descriptor_witness :
  lower "ITALIC" = "italic"%string
  /\ exists qfont,
      get_qfont (Some (Font.make "Arial" "Bold ITALIC" (WeightName "bold")))
                sample_backend
      = (Return qfont, sample_backend)
      /\ font_italic qfont = true.
Proof.
  split; [reflexivity |].
  destruct (qfont_of_descriptor sample_backend
              (Font.make "Arial" "Bold ITALIC" (WeightName "bold")))
    as (_ & _ & Hitalic).
  exact (Hitalic "Bold " "ITALIC" "" eq_refl eq_refl).
Defined.

(** X24 on a backend without entries in the entity stack. *)
Lemma item_data_holds_the_tag_witness :
  PyQtBackend.entity_stack text_backend = []
  /\ exists item',
      _set_item_data (mkItem (QGraphicsLineItem 0 0 10 0 _no_line) ∅) text_backend
      = (Return item', text_backend)
      /\ data item' !! CorrespondingDXFParentStack = Some (ParentStack []).
Proof.
  split; [reflexivity |].
  destruct (item_data_holds_the_tag text_backend
              (mkItem (QGraphicsLineItem 0 0 10 0 _no_line) ∅))
    as (item' & E & _ & _ & _ & _ & Hempty).
  exists item'. split; [exact E | exact (Hempty eq_refl)].
Defined.

End MoreConcrete.
